(** * DLFS layers: a shallow embedding of [dlfs/layers.py]

    The development models the three layer classes of [dlfs/layers.py]
    ([DenseLayer], [ConvolutionalLayer], [ReshapeLayer]) together with the
    fragment of the numeric-array runtime they call (numpy arrays, numpy
    broadcasting, [np.dot], [np.sum], [np.reshape], [scipy.signal.correlate2d]
    and [convolve2d]).

    Conventions.
    - An [ndarray] is a shape and its elements in row-major (C) order.
    - Array elements are idealised: floating-point numbers are replaced by an
      arbitrary additive monoid with a multiplication ([Scalar]), the
      integers in the examples; rounding is not modelled.
    - A Python call that may raise returns a [Py.result]; a method of a layer
      returns the layer after the call together with the outcome, so that the
      attributes assigned before an exception stay visible.
    - Python ints that come from the caller are [Z]; array shapes are lists of
      [nat]. *)

From stdpp Require Import base list numbers option.

(** ** Scalars *)

Class Scalar (R : Type) := {
  rzero : R;
  radd : R → R → R;
  rmul : R → R → R;
  radd_0_l : ∀ x, radd rzero x = x;
  radd_0_r : ∀ x, radd x rzero = x;
  radd_assoc : ∀ x y z, radd x (radd y z) = radd (radd x y) z
}.

#[export] Program Instance Z_Scalar : Scalar Z :=
  {| rzero := 0%Z; radd := Z.add; rmul := Z.mul |}.
Next Obligation. intros; lia. Qed.
Next Obligation. intros; lia. Qed.
Next Obligation. intros; lia. Qed.

(** ** Python values, exceptions and outcomes *)

Module Py.

Inductive exn :=
  | ValueError | IndexError | TypeError | AttributeError
  | ZeroDivisionError | AxisError | ShapeError.

(** Outcome of a call: a value, a raised exception, or [Unmodelled] when the
    call leaves the fragment of numpy/scipy described here (for instance
    [np.dot] on arrays of rank above two). *)
Inductive result (A : Type) :=
  | Ok (a : A)
  | Raise (e : exn)
  | Unmodelled.
Arguments Ok {A} a.
Arguments Raise {A} e.
Arguments Unmodelled {A}.

Definition bind {A B} (m : result A) (k : A → result B) : result B :=
  match m with
  | Ok a => k a
  | Raise e => Raise e
  | Unmodelled => Unmodelled
  end.



(** The two kinds of Python values that [==] compares in [layers.py]:
    ints and tuples of ints ([ndarray.shape]). *)
Inductive value :=
  | Int (z : Z)
  | Tuple (l : list Z).

(** Python's [==]: an int never equals a tuple. *)
Definition eqb (a b : value) : bool :=
  match a, b with
  | Int x, Int y => bool_decide (x = y)
  | Tuple l, Tuple k => bool_decide (l = k)
  | _, _ => false
  end.

(** [range(n)] *)
Definition range (n : Z) : list nat := seq 0 (Z.to_nat n).

(** A method of an object of type [S]: the object after the call, and the
    outcome. *)
Definition M (S A : Type) : Type := S → S * result A.

Definition ret {S A} (a : A) : M S A := λ s, (s, Ok a).

Definition mbind {S A B} (m : M S A) (k : A → M S B) : M S B :=
  λ s, match m s with
       | (s', Ok a) => k a s'
       | (s', Raise e) => (s', Raise e)
       | (s', Unmodelled) => (s', Unmodelled)
       end.

(** Evaluate an expression that reads the object and assigns nothing. *)
Definition eval {S A} (f : S → result A) : M S A := λ s, (s, f s).

(** Read an attribute that exists only once it has been assigned. *)
Definition getattr {S A} (f : S → option A) : M S A :=
  λ s, (s, match f s with Some a => Ok a | None => Raise AttributeError end).

(** Assign to attributes. *)
Definition assign {S} (f : S → S) : M S () := λ s, (f s, Ok ()).

(** Update in place the object held by an attribute: the attribute must
    exist, and it changes only when the update succeeds. *)
Definition modify {S A} (get : S → option A) (set : option A → S → S)
    (f : S → A → result A) : M S () :=
  λ s, match get s with
       | None => (s, Raise AttributeError)
       | Some a =>
           match f s a with
           | Ok a' => (set (Some a') s, Ok ())
           | Raise e => (s, Raise e)
           | Unmodelled => (s, Unmodelled)
           end
       end.

(** [for x in xs: body] *)
Fixpoint for_ {S A} (xs : list A) (body : A → M S ()) : M S () :=
  match xs with
  | [] => ret ()
  | x :: xs' => mbind (body x) (λ _, for_ xs' body)
  end.

(** The object after a method call is related by [P] to the object before
    it, whatever the outcome. *)
Definition preserves {S A} (P : S → S → Prop) (m : M S A) : Prop :=
  ∀ s, P s (m s).1.

(** Run on two objects related by [P], a method gives the same outcome and
    leaves the objects related by [P]. *)
Definition simulates {S A} (P : S → S → Prop) (m : M S A) : Prop :=
  ∀ s s', P s s' → P (m s).1 (m s').1 ∧ (m s).2 = (m s').2.

(** [for i in range(n): body], with [n] read from the object. *)
Definition for_range {S} (n : S → Z) (body : nat → M S ()) : M S () :=
  λ s, for_ (range (n s)) body s.

End Py.

Notation "'let!' x ':=' m 'in' k" := (Py.bind m (λ x, k))
  (at level 10, x pattern, m at level 100, k at level 200, only parsing).
Notation "'do!' x '<-' m ';' k" := (Py.mbind m (λ x, k))
  (at level 10, x pattern, m at level 100, k at level 200, only parsing).

(** ** numpy arrays *)

Module Np.
Section Ndarray.
Context {R : Type} `{!Scalar R}.

Record ndarray := mk { shape : list nat; data : list R }.

(** Number of elements of an array of the given shape. *)
Definition size (s : list nat) : nat := foldr Nat.mul 1 s.

(** [len(data) == prod(shape)], the invariant of every numpy array. *)
Definition wf (a : ndarray) : Prop := length (data a) = size (shape a).

(** [a.shape] as a Python tuple. *)
Definition shape_tuple (a : ndarray) : Py.value :=
  Py.Tuple (Z.of_nat <$> shape a).

(** [a.shape[0]] *)
Definition shape0 (a : ndarray) : Py.result nat :=
  match shape a with
  | [] => Py.Raise Py.IndexError
  | n :: _ => Py.Ok n
  end.

Definition full (s : list nat) (x : R) : ndarray :=
  {| shape := s; data := replicate (size s) x |}.

(** [np.zeros(a.shape)] for the shape of an existing array. *)
Definition zeros_like (s : list nat) : ndarray := full s rzero.

(** [np.zeros(shape)] for a tuple of Python ints: negative dimensions are
    rejected. *)
Definition zeros (s : list Z) : Py.result ndarray :=
  if forallb (Z.leb 0) s then Py.Ok (zeros_like (Z.to_nat <$> s))
  else Py.Raise Py.ValueError.

(** [a[i]]: the i-th sub-array along the first axis. *)
Definition getitem (a : ndarray) (i : nat) : Py.result ndarray :=
  match shape a with
  | [] => Py.Raise Py.IndexError
  | n :: rest =>
      if decide (i < n)
      then Py.Ok {| shape := rest;
                    data := take (size rest) (drop (i * size rest) (data a)) |}
      else Py.Raise Py.IndexError
  end.

(** [a[i, j]] *)
Definition getitem2 (a : ndarray) (i j : nat) : Py.result ndarray :=
  let! r := getitem a i in getitem r j.

(** [a[i] = b] for [b] of the shape of [a[i]]. *)
Definition setitem (a : ndarray) (i : nat) (b : ndarray) : ndarray :=
  let m := size (tail (shape a)) in
  {| shape := shape a;
     data := take (i * m) (data a) ++ data b ++ drop (i * m + m) (data a) |}.

(** [a[i, j] = b] for [b] of the shape of [a[i, j]]. *)
Definition setitem2 (a : ndarray) (i j : nat) (b : ndarray) : ndarray :=
  match getitem a i with
  | Py.Ok r => setitem a i (setitem r j b)
  | _ => a
  end.

(** *** Broadcasting *)

(** Cut [d] into [n] consecutive chunks of [m] elements. *)
Fixpoint chunks (n m : nat) (d : list R) : list (list R) :=
  match n with
  | 0 => []
  | S n' => take m d :: chunks n' m (drop m d)
  end.

(** Broadcast data of shape [src] to shape [dst], both of the same rank:
    along every axis the lengths agree or the source has length one. *)
Fixpoint bcast (src dst : list nat) (d : list R) : option (list R) :=
  match src, dst with
  | [], [] => Some d
  | a :: src', b :: dst' =>
      if decide (a = b)
      then (λ rs, concat rs) <$> mapM (bcast src' dst') (chunks a (size src') d)
      else if decide (a = 1)
      then (λ r, concat (replicate b r)) <$> bcast src' dst' d
      else None
  | _, _ => None
  end.

(** [np.broadcast_to(a, dst)]: the shape of [a] is first extended with
    leading ones. *)
Definition broadcast_to (a : ndarray) (dst : list nat) : option (list R) :=
  if decide (length (shape a) ≤ length dst)
  then bcast (replicate (length dst - length (shape a)) 1 ++ shape a) dst (data a)
  else None.

(** The common shape of two operands, computed from the last axis. *)
Fixpoint bshape_rev (s1 s2 : list nat) : option (list nat) :=
  match s1, s2 with
  | [], s | s, [] => Some s
  | a :: s1', b :: s2' =>
      r ← bshape_rev s1' s2';
      if decide (a = b) then Some (a :: r)
      else if decide (a = 1) then Some (b :: r)
      else if decide (b = 1) then Some (a :: r)
      else None
  end.

Definition broadcast_shapes (s1 s2 : list nat) : option (list nat) :=
  reverse <$> bshape_rev (reverse s1) (reverse s2).

(** [a + b] *)
Definition add (a b : ndarray) : Py.result ndarray :=
  match broadcast_shapes (shape a) (shape b) with
  | Some s =>
      match broadcast_to a s, broadcast_to b s with
      | Some da, Some db => Py.Ok {| shape := s; data := zip_with radd da db |}
      | _, _ => Py.Raise Py.ValueError
      end
  | None => Py.Raise Py.ValueError
  end.

(** [a += b]: [b] is broadcast to the shape of [a], which never changes. *)
Definition iadd (a b : ndarray) : Py.result ndarray :=
  match broadcast_to b (shape a) with
  | Some db => Py.Ok {| shape := shape a; data := zip_with radd (data a) db |}
  | None => Py.Raise Py.ValueError
  end.

(** [a[i, j] += rhs]: the target [a[i, j]] is read first, then the right-hand
    side is evaluated, then the view is updated in place. *)
Definition iadd_at2 (a : ndarray) (i j : nat) (rhs : Py.result ndarray)
    : Py.result ndarray :=
  let! v := getitem2 a i j in
  let! b := rhs in
  let! v' := iadd v b in
  Py.Ok (setitem2 a i j v').

(** *** Two-dimensional arrays *)

(** [a[i, j]] as a scalar, for [a] of shape [[h; w]]. *)
Definition get2 (a : ndarray) (i j : nat) : R :=
  default rzero (data a !! (i * default 0 (shape a !! 1) + j)).

(** [a[i, j, y, x]] as a scalar, for [a] of rank four, and [a[j, y, x]] for
    [a] of rank three: the element at the row-major offset. *)
Definition get4 (a : ndarray) (i j y x : nat) : R :=
  let d1 := default 0 (shape a !! 1) in
  let d2 := default 0 (shape a !! 2) in
  let d3 := default 0 (shape a !! 3) in
  default rzero
    (data a !! (i * (d1 * (d2 * d3)) + (j * (d2 * d3) + (y * d3 + x)))).

Definition get3 (a : ndarray) (j y x : nat) : R :=
  let d1 := default 0 (shape a !! 1) in
  let d2 := default 0 (shape a !! 2) in
  default rzero (data a !! (j * (d1 * d2) + (y * d2 + x))).

(** [a[j]] as a scalar, for a vector [a]. *)
Definition get1 (a : ndarray) (j : nat) : R := default rzero (data a !! j).

(** The array of shape [[h; w]] whose element [(i, j)] is [f i j]. *)
Definition tabulate2 (h w : nat) (f : nat → nat → R) : ndarray :=
  {| shape := [h; w];
     data := (λ p, f (p / w) (p mod w)) <$> seq 0 (h * w) |}.

Definition rsum (l : list R) : R := foldr radd rzero l.

(** [np.dot(a, b)] for two matrices; other ranks are outside the model. *)
Definition dot (a b : ndarray) : Py.result ndarray :=
  match shape a, shape b with
  | [n; k], [k'; m] =>
      if decide (k = k')
      then Py.Ok (tabulate2 n m (λ i j,
             rsum ((λ l, rmul (get2 a i l) (get2 b l j)) <$> seq 0 k)))
      else Py.Raise Py.ValueError
  | _, _ => Py.Unmodelled
  end.

(** [a.T]: reverses the axes; ranks above two are outside the model. *)
Definition transpose (a : ndarray) : Py.result ndarray :=
  match shape a with
  | [] | [_] => Py.Ok a
  | [h; w] => Py.Ok (tabulate2 w h (λ i j, get2 a j i))
  | _ => Py.Unmodelled
  end.

(** [np.sum(a, axis=0)] *)
Definition sum_axis0 (a : ndarray) : Py.result ndarray :=
  match shape a with
  | [] => Py.Raise Py.AxisError
  | n :: rest =>
      Py.Ok {| shape := rest;
               data := (λ p, rsum ((λ b, default rzero
                                      (data a !! (b * size rest + p)))
                                   <$> seq 0 n))
                       <$> seq 0 (size rest) |}
  end.

(** Number of indices selected by the slice [::step] on an axis of length
    [n], and the i-th selected index. *)
Definition slice_len (n : nat) (step : Z) : nat :=
  (n + Z.to_nat (Z.abs step) - 1) / Z.to_nat (Z.abs step).

Definition slice_idx (n : nat) (step : Z) (i : nat) : nat :=
  if decide (0 < step)%Z then i * Z.to_nat step
  else n - 1 - i * Z.to_nat (Z.abs step).

(** [a[::step, ::step]] for a matrix [a]. *)
Definition slice2 (a : ndarray) (step : Z) : Py.result ndarray :=
  match shape a with
  | [] | [_] => Py.Raise Py.IndexError
  | [h; w] =>
      if decide (step = 0%Z) then Py.Raise Py.ValueError
      else Py.Ok (tabulate2 (slice_len h step) (slice_len w step) (λ i j,
             get2 a (slice_idx h step i) (slice_idx w step j)))
  | _ => Py.Unmodelled
  end.

(** [np.reshape(a, newshape)]: every entry of [newshape] must be an int; one
    entry may be [-1] and is then inferred. The elements keep their order. *)
Definition as_ints (vs : list Py.value) : Py.result (list Z) :=
  foldr (λ v acc, match v with
                  | Py.Int z => let! zs := acc in Py.Ok (z :: zs)
                  | Py.Tuple _ => Py.Raise Py.TypeError
                  end) (Py.Ok []) vs.

Definition reshape (a : ndarray) (newshape : list Py.value) : Py.result ndarray :=
  let! dims := as_ints newshape in
  if negb (forallb (Z.leb (-1)) dims) then Py.Raise Py.ValueError
  else
    let known := Z.to_nat <$> filter (λ z, z ≠ (-1)%Z) dims in
    match length dims - length known with
    | 0 =>
        if decide (size known = size (shape a))
        then Py.Ok {| shape := known; data := data a |}
        else Py.Raise Py.ValueError
    | 1 =>
        if decide (size known ≠ 0 ∧ size (shape a) `mod` size known = 0)
        then Py.Ok {| shape := (λ z, if decide (z = (-1)%Z)
                                     then size (shape a) / size known
                                     else Z.to_nat z) <$> dims;
                      data := data a |}
        else Py.Raise Py.ValueError
    | _ => Py.Raise Py.ValueError
    end.

(** [np.random.randn] on an unpacked shape tuple: the generator is a stream
    of samples and a position in it. *)
Record rng := mk_rng { sample : nat → R; pos : nat }.

Definition randn (s : list Z) (g : rng) : Py.result (ndarray * rng) :=
  if forallb (Z.leb 0) s
  then let s' := Z.to_nat <$> s in
       Py.Ok ({| shape := s'; data := (λ p, sample g (pos g + p)) <$> seq 0 (size s') |},
              {| sample := sample g; pos := pos g + size s' |})
  else Py.Raise Py.ValueError.

(** [c * a] for a Python number [c]. *)
Definition scale (c : R) (a : ndarray) : ndarray :=
  {| shape := shape a; data := rmul c <$> data a |}.

End Ndarray.
Arguments ndarray R : clear implicits.
Arguments rng R : clear implicits.
End Np.

(** ** scipy.signal *)

Module Signal.
Section Signal.
Context {R : Type} `{!Scalar R}.
Local Abbreviation ndarray := (Np.ndarray R).

(** Cross-correlation of [a] (shape [[h1; w1]]) with a smaller [b]
    (shape [[h2; w2]]) over the positions where [b] lies inside [a]. *)
Definition xcorr (a b : ndarray) (h1 w1 h2 w2 : nat) : ndarray :=
  Np.tabulate2 (h1 - h2 + 1) (w1 - w2 + 1) (λ y x,
    Np.rsum ((λ u, Np.rsum ((λ v,
      rmul (Np.get2 a (y + u) (x + v)) (Np.get2 b u v)) <$> seq 0 w2))
      <$> seq 0 h2)).

(** [out[::-1, ::-1]] *)
Definition flip2 (a : ndarray) : ndarray :=
  match Np.shape a with
  | [h; w] => Np.tabulate2 h w (λ y x, Np.get2 a (h - 1 - y) (w - 1 - x))
  | _ => a
  end.

(** [signal.correlate2d(in1, in2, "valid")]. Both inputs must be matrices and
    one must be at least as large as the other along both axes; when [in2] is
    the larger one scipy swaps the operands and reverses the result. Empty
    operands are outside the model. *)
Definition correlate2d_valid (in1 in2 : ndarray) : Py.result ndarray :=
  match Np.shape in1, Np.shape in2 with
  | [h1; w1], [h2; w2] =>
      if decide (h1 * w1 = 0 ∨ h2 * w2 = 0) then Py.Unmodelled
      else if decide (h2 ≤ h1 ∧ w2 ≤ w1)
      then Py.Ok (xcorr in1 in2 h1 w1 h2 w2)
      else if decide (h1 ≤ h2 ∧ w1 ≤ w2)
      then Py.Ok (flip2 (xcorr in2 in1 h2 w2 h1 w1))
      else Py.Raise Py.ValueError
  | _, _ => Py.Raise Py.ValueError
  end.

(** [signal.convolve2d(in1, in2, "full")]: every position where the operands
    overlap, zero outside. *)
Definition convolve2d_full (in1 in2 : ndarray) : Py.result ndarray :=
  match Np.shape in1, Np.shape in2 with
  | [h1; w1], [h2; w2] =>
      if decide (h1 * w1 = 0 ∨ h2 * w2 = 0) then Py.Unmodelled
      else Py.Ok (Np.tabulate2 (h1 + h2 - 1) (w1 + w2 - 1) (λ y x,
        Np.rsum ((λ u, Np.rsum ((λ v,
          if decide (u ≤ y < u + h2 ∧ v ≤ x < v + w2)
          then rmul (Np.get2 in1 u v) (Np.get2 in2 (y - u) (x - v))
          else rzero) <$> seq 0 w1)) <$> seq 0 h1)))
  | _, _ => Py.Raise Py.ValueError
  end.

End Signal.
End Signal.

(** ** dlfs.helpers *)

Module Helpers.
Section Helpers.
Context {R : Type} `{!Scalar R}.
Local Abbreviation ndarray := (Np.ndarray R).

(** Modelled from the spec: [dlfs/helpers.py], which defines [dilate], is not
    among the sources. The spec has [dilate(array, stride)] insert
    [stride - 1] zeros between consecutive elements along each axis of a
    matrix, a single element having no interior to fill, and [stride == 1]
    being the identity. Strides below one, empty arrays and other ranks are
    left outside the model. *)
Definition dilate (a : ndarray) (stride : Z) : Py.result ndarray :=
  match Np.shape a with
  | [h; w] =>
      if decide ((1 ≤ stride)%Z ∧ h ≠ 0 ∧ w ≠ 0)
      then let s := Z.to_nat stride in
           Py.Ok (Np.tabulate2 ((h - 1) * s + 1) ((w - 1) * s + 1) (λ y x,
             if decide (y `mod` s = 0 ∧ x `mod` s = 0)
             then Np.get2 a (y / s) (x / s) else rzero))
      else Py.Unmodelled
  | _ => Py.Unmodelled
  end.

(** Modelled from the spec: [dlfs/helpers.py], which defines [pad_to_shape],
    is not among the sources. The spec has [pad_to_shape(array, target)]
    return a new array of exactly the target shape, holding the original
    values at the origin and zeros elsewhere, and fail with a ShapeError when
    the target is smaller than the array along some axis. *)
Definition pad_to_shape (a : ndarray) (target : list Z) : Py.result ndarray :=
  match Np.shape a, target with
  | [h; w], [th; tw] =>
      if decide (th < Z.of_nat h ∨ tw < Z.of_nat w)%Z
      then Py.Raise Py.ShapeError
      else Py.Ok (Np.tabulate2 (Z.to_nat th) (Z.to_nat tw) (λ y x,
             if decide (y < h ∧ x < w) then Np.get2 a y x else rzero))
  | _, _ => Py.Unmodelled
  end.

End Helpers.
End Helpers.

(** ** DenseLayer *)

Module DenseLayer.
Section DenseLayer.
Context {R : Type} `{!Scalar R}.
Local Abbreviation ndarray := (Np.ndarray R).

(** The attributes of a [DenseLayer]. [weights] and [biases] exist from
    construction on (the constructor draws the weights at random and zeroes
    the biases; nothing below depends on their values); the others appear
    with the first call that assigns them. *)
Record t := mk {
  weights : ndarray;
  biases : ndarray;
  inputs : option ndarray;
  output : option ndarray;
  dweights : option ndarray;
  dbiases : option ndarray;
  dinputs : option ndarray
}.

Definition set_inputs (v : option ndarray) (self : t) : t :=
  mk (weights self) (biases self) v (output self)
     (dweights self) (dbiases self) (dinputs self).
Definition set_output (v : option ndarray) (self : t) : t :=
  mk (weights self) (biases self) (inputs self) v
     (dweights self) (dbiases self) (dinputs self).
Definition set_dweights (v : option ndarray) (self : t) : t :=
  mk (weights self) (biases self) (inputs self) (output self)
     v (dbiases self) (dinputs self).
Definition set_dbiases (v : option ndarray) (self : t) : t :=
  mk (weights self) (biases self) (inputs self) (output self)
     (dweights self) v (dinputs self).
Definition set_dinputs (v : option ndarray) (self : t) : t :=
  mk (weights self) (biases self) (inputs self) (output self)
     (dweights self) (dbiases self) v.

(** [[
    self.inputs = inputs
    self.output = np.dot(inputs, self.weights) + self.biases
    ]] *)
Definition forward (x : ndarray) : Py.M t () :=
  do! _ <- Py.assign (set_inputs (Some x));
  do! out <- Py.eval (λ self,
    let! p := Np.dot x (weights self) in Np.add p (biases self));
  Py.assign (set_output (Some out)).

(** [[
    self.dweights = np.dot(self.inputs.T, delta)
    self.dbiases = np.sum(delta, axis=0)
    self.dinputs = np.dot(delta, self.weights.T)
    ]] *)
Definition backward (delta : ndarray) : Py.M t () :=
  do! x <- Py.getattr inputs;
  do! dw <- Py.eval (λ _, let! xt := Np.transpose x in Np.dot xt delta);
  do! _ <- Py.assign (set_dweights (Some dw));
  do! db <- Py.eval (λ _, Np.sum_axis0 delta);
  do! _ <- Py.assign (set_dbiases (Some db));
  do! di <- Py.eval (λ self,
    let! wt := Np.transpose (weights self) in Np.dot delta wt);
  Py.assign (set_dinputs (Some di)).

(** The constructor, lines 31-33:
    [[
    self.weights = 0.1 * np.random.randn(n_inputs, n_neurons)
    self.biases = np.zeros(n_neurons)
    ]]
    [tenth] stands for the literal [0.1] among the scalars. *)
Definition __init__ (tenth : R) (n_inputs n_neurons : Z) (g : Np.rng R)
    : Py.result (t * Np.rng R) :=
  let! (w, g) := Np.randn [n_inputs; n_neurons] g in
  let! b := Np.zeros [n_neurons] in
  Py.Ok (mk (Np.scale tenth w) b None None None None None, g).

(** The parameters of [self'] are those of [self]. *)
Definition same_parameters (self self' : t) : Prop :=
  weights self' = weights self ∧ biases self' = biases self.

(** A caller's use of the layer: a sequence of [forward] and [backward]
    calls, going on after a call that raised. *)
Inductive call :=
  | Forward (x : ndarray)
  | Backward (delta : ndarray).

Definition run_call (c : call) : Py.M t () :=
  match c with
  | Forward x => forward x
  | Backward delta => backward delta
  end.

Definition run (cs : list call) (self : t) : t :=
  foldl (λ s c, (run_call c s).1) self cs.

End DenseLayer.
Arguments t R : clear implicits.
Arguments call R : clear implicits.
End DenseLayer.

(** ** ReshapeLayer *)

Module ReshapeLayer.
Section ReshapeLayer.
Context {R : Type} `{!Scalar R}.
Local Abbreviation ndarray := (Np.ndarray R).

(** [input_shape] and [output_shape] are stored as given: the code expects a
    tuple for the first and an int for the second. *)
Record t := mk {
  input_shape : Py.value;
  output_shape : Py.value;
  output : option ndarray;
  dinputs : option ndarray
}.

Definition set_output (v : option ndarray) (self : t) : t :=
  mk (input_shape self) (output_shape self) v (dinputs self).
Definition set_dinputs (v : option ndarray) (self : t) : t :=
  mk (input_shape self) (output_shape self) (output self) v.

Definition __init__ (input_shape output_shape : Py.value) : t :=
  mk input_shape output_shape None None.

(** Unpacking a value inside a tuple display: only a tuple is iterable. *)
Definition unpack (v : Py.value) : Py.result (list Py.value) :=
  match v with
  | Py.Tuple l => Py.Ok (Py.Int <$> l)
  | Py.Int _ => Py.Raise Py.TypeError
  end.

(** [[
    batch_size = inputs.shape[0]
    self.output = np.reshape(inputs, (batch_size, self.output_shape))
    ]] *)
Definition forward (x : ndarray) : Py.M t () :=
  do! batch_size <- Py.eval (λ _, Np.shape0 x);
  do! out <- Py.eval (λ self,
    Np.reshape x [Py.Int (Z.of_nat batch_size); output_shape self]);
  Py.assign (set_output (Some out)).

(** [[
    batch_size = delta.shape[0]
    self.dinputs = np.reshape(delta, (batch_size, *self.input_shape))
    ]] *)
Definition backward (delta : ndarray) : Py.M t () :=
  do! batch_size <- Py.eval (λ _, Np.shape0 delta);
  do! di <- Py.eval (λ self,
    let! dims := unpack (input_shape self) in
    Np.reshape delta (Py.Int (Z.of_nat batch_size) :: dims));
  Py.assign (set_dinputs (Some di)).

End ReshapeLayer.
Arguments t R : clear implicits.
End ReshapeLayer.

(** ** ConvolutionalLayer *)

Module ConvolutionalLayer.
Section ConvolutionalLayer.
Context {R : Type} `{!Scalar R}.
Local Abbreviation ndarray := (Np.ndarray R).

(** The two functions imported from [dlfs.helpers]. The layer is modelled
    over any implementation of them; [Helpers.dilate] and
    [Helpers.pad_to_shape] are the ones the spec describes. *)
Variable dilate : ndarray → Z → Py.result ndarray.
Variable pad_to_shape : ndarray → list Z → Py.result ndarray.

Record t := mk {
  input_channels : Z;
  output_channels : Z;
  kernel_size : Z;
  stride : Z;
  output_shape : list Z;
  kernels_shape : list Z;
  kernels : ndarray;
  biases : ndarray;
  inputs : option ndarray;
  output : option ndarray;
  dkernels : option ndarray;
  dbiases : option ndarray;
  dinputs : option ndarray
}.

Definition set_inputs (v : option ndarray) (self : t) : t :=
  mk (input_channels self) (output_channels self) (kernel_size self)
     (stride self) (output_shape self) (kernels_shape self) (kernels self)
     (biases self) v (output self) (dkernels self) (dbiases self)
     (dinputs self).
Definition set_output (v : option ndarray) (self : t) : t :=
  mk (input_channels self) (output_channels self) (kernel_size self)
     (stride self) (output_shape self) (kernels_shape self) (kernels self)
     (biases self) (inputs self) v (dkernels self) (dbiases self)
     (dinputs self).
Definition set_dkernels (v : option ndarray) (self : t) : t :=
  mk (input_channels self) (output_channels self) (kernel_size self)
     (stride self) (output_shape self) (kernels_shape self) (kernels self)
     (biases self) (inputs self) (output self) v (dbiases self)
     (dinputs self).
Definition set_dbiases (v : option ndarray) (self : t) : t :=
  mk (input_channels self) (output_channels self) (kernel_size self)
     (stride self) (output_shape self) (kernels_shape self) (kernels self)
     (biases self) (inputs self) (output self) (dkernels self) v
     (dinputs self).
Definition set_dinputs (v : option ndarray) (self : t) : t :=
  mk (input_channels self) (output_channels self) (kernel_size self)
     (stride self) (output_shape self) (kernels_shape self) (kernels self)
     (biases self) (inputs self) (output self) (dkernels self)
     (dbiases self) v.

(** [floor((input_size - kernel_size) / stride) + 1]. The quotient is taken
    exactly ([Z.div] rounds towards minus infinity, as [floor] does). *)
Definition output_size (input_size kernel_size stride : Z) : Z :=
  ((input_size - kernel_size) / stride + 1)%Z.

(** The constructor, lines 91-108. Unpacking [input_shape] needs exactly
    three entries; dividing by a zero stride raises; [np.random.randn]
    rejects negative dimensions. No other check is made. *)
Definition __init__ (input_shape : list Z) (output_channels kernel_size
    stride : Z) (g : Np.rng R) : Py.result (t * Np.rng R) :=
  match input_shape with
  | [input_channels; input_height; input_width] =>
      if decide (stride = 0%Z) then Py.Raise Py.ZeroDivisionError
      else
        let output_height := output_size input_height kernel_size stride in
        let output_width := output_size input_width kernel_size stride in
        let output_shape := [output_channels; output_height; output_width] in
        let kernels_shape :=
          [output_channels; input_channels; kernel_size; kernel_size] in
        let! (kernels, g) := Np.randn kernels_shape g in
        let! (biases, g) := Np.randn output_shape g in
        Py.Ok (mk input_channels output_channels kernel_size stride
                  output_shape kernels_shape kernels biases
                  None None None None None, g)
  | _ => Py.Raise Py.ValueError
  end.

(** [self.inputs[i, k]] *)
Definition inputs_at (i k : nat) (self : t) : Py.result ndarray :=
  match inputs self with
  | Some x => Np.getitem2 x i k
  | None => Py.Raise Py.AttributeError
  end.

(** Line 140, the body of the forward loops:
    [[
    self.output[i, j] += signal.correlate2d(self.inputs[i, k],
        self.kernels[j, k], mode="valid")[::self.stride, ::self.stride]
    ]] *)
Definition forward_step (i j k : nat) : Py.M t () :=
  Py.modify output set_output (λ self out,
    Np.iadd_at2 out i j (
      let! x := inputs_at i k self in
      let! w := Np.getitem2 (kernels self) j k in
      let! c := Signal.correlate2d_valid x w in
      Np.slice2 c (stride self))).

(** Lines 133-140: the biases are added to the fresh output, then the loops
    run over samples, output channels and input channels. *)
Definition forward_accumulate (n_samples : nat) : Py.M t () :=
  do! _ <- Py.modify output set_output (λ self out,
    Np.iadd out (biases self));
  Py.for_ (seq 0 n_samples) (λ i,
    Py.for_range output_channels (λ j,
      Py.for_range input_channels (λ k,
        forward_step i j k))).

(** Lines 124-140. *)
Definition forward (x : ndarray) : Py.M t () :=
  do! n_samples <- Py.eval (λ _, Np.shape0 x);
  do! _ <- Py.assign (set_inputs (Some x));
  do! out <- Py.eval (λ self,
    Np.zeros (Z.of_nat n_samples :: output_shape self));
  do! _ <- Py.assign (set_output (Some out));
  forward_accumulate n_samples.

(** Lines 174-176, the branch [self.stride == 1]:
    [[
    self.dkernels[j, k] += signal.correlate2d(self.inputs[i, k], delta[i, j], "valid")
    self.dinputs[i, k] += signal.convolve2d(delta[i, j], self.kernels[j, k], "full")
    ]] *)
Definition backward_unit (delta : ndarray) (i j k : nat) : Py.M t () :=
  do! _ <- Py.modify dkernels set_dkernels (λ self dk,
    Np.iadd_at2 dk j k (
      let! x := inputs_at i k self in
      let! d := Np.getitem2 delta i j in
      Signal.correlate2d_valid x d));
  Py.modify dinputs set_dinputs (λ self di,
    Np.iadd_at2 di i k (
      let! d := Np.getitem2 delta i j in
      let! w := Np.getitem2 (kernels self) j k in
      Signal.convolve2d_full d w)).

(** Lines 187-194: the kernel gradient for one sample and one pair of
    channels, from the stored input channel [x] and the dilated gradient.
    [delta_dilated_shape] is the tuple [delta_dilated.shape]; it is compared
    with the int [input_shape - kernel_shape + 1]. *)
Definition kernel_gradient (x delta_dilated : ndarray)
    (input_shape kernel_shape : nat) : Py.result ndarray :=
  let delta_dilated_shape := Np.shape_tuple delta_dilated in
  let target := (Z.of_nat input_shape - Z.of_nat kernel_shape + 1)%Z in
  if Py.eqb delta_dilated_shape (Py.Int target)
  then Signal.correlate2d_valid x delta_dilated
  else
    let new_delta_shape := [target; target] in
    let! delta_dilated_padded := pad_to_shape delta_dilated new_delta_shape in
    Signal.correlate2d_valid x delta_dilated_padded.

(** Lines 201-207: the term added to [self.dinputs[i, k]], for [target] the
    current [self.dinputs[i, k]]. Here both sides of [==] are shape
    tuples. *)
Definition input_gradient (dinput target : ndarray) : Py.result ndarray :=
  if Py.eqb (Np.shape_tuple dinput) (Np.shape_tuple target)
  then Py.Ok dinput
  else pad_to_shape dinput (Z.of_nat <$> Np.shape target).

(** Lines 181-207, the branch taken when [self.stride] is not one. *)
Definition backward_strided (delta : ndarray) (i j k : nat) : Py.M t () :=
  do! delta_dilated <- Py.eval (λ self,
    let! d := Np.getitem2 delta i j in dilate d (stride self));
  do! x <- Py.eval (inputs_at i k);
  do! input_shape <- Py.eval (λ _, Np.shape0 x);
  do! kernel_shape <- Py.eval (λ self,
    match dkernels self with
    | Some dk => let! v := Np.getitem2 dk j k in Np.shape0 v
    | None => Py.Raise Py.AttributeError
    end);
  do! dkernel <- Py.eval (λ _,
    kernel_gradient x delta_dilated input_shape kernel_shape);
  do! _ <- Py.modify dkernels set_dkernels (λ _ dk,
    Np.iadd_at2 dk j k (Py.Ok dkernel));
  do! w <- Py.eval (λ self, Np.getitem2 (kernels self) j k);
  do! dinput <- Py.eval (λ _, Signal.convolve2d_full delta_dilated w);
  Py.modify dinputs set_dinputs (λ _ di,
    let! target := Np.getitem2 di i k in
    Np.iadd_at2 di i k (input_gradient dinput target)).

(** Lines 172-207: the two branches on [self.stride == 1]. *)
Definition backward_step (delta : ndarray) (i j k : nat) : Py.M t () :=
  λ self,
    if decide (stride self = 1%Z)
    then backward_unit delta i j k self
    else backward_strided delta i j k self.

(** Lines 164-207: the loops over samples, output channels and input
    channels, around the statements [step] of lines 172-207. *)
Definition backward_loops (step : nat → nat → nat → Py.M t ())
    (delta : ndarray) (n_samples : nat) : Py.M t () :=
  Py.for_ (seq 0 n_samples) (λ i,
    do! _ <- Py.modify dbiases set_dbiases (λ _ db,
      let! d := Np.getitem delta i in Np.iadd db d);
    Py.for_range output_channels (λ j,
      Py.for_range input_channels (λ k,
        step i j k))).

Definition backward_accumulate (delta : ndarray) (n_samples : nat)
    : Py.M t () :=
  backward_loops (backward_step delta) delta n_samples.

(** Lines 156-161 followed by the loops [loops]. *)
Definition backward_with (loops : nat → Py.M t ()) : Py.M t () :=
  do! _ <- Py.assign (λ self,
    set_dkernels (Some (Np.zeros_like (Np.shape (kernels self)))) self);
  do! _ <- Py.assign (λ self,
    set_dbiases (Some (Np.zeros_like (Np.shape (biases self)))) self);
  do! x <- Py.getattr inputs;
  do! _ <- Py.assign (set_dinputs (Some (Np.zeros_like (Np.shape x))));
  do! n_samples <- Py.eval (λ _, Np.shape0 x);
  loops n_samples.

(** Lines 156-207. *)
Definition backward (delta : ndarray) : Py.M t () :=
  backward_with (backward_accumulate delta).

(** The general path in isolation: [backward] with the test
    [self.stride == 1] removed, so that every step dilates and pads
    (lines 181-207). This is the path that the stride-one specialisation of
    the spec compares with the direct one. *)
Definition backward_general (delta : ndarray) : Py.M t () :=
  backward_with (backward_loops (backward_strided delta) delta).

(** The parameters of [self'] are those of [self]. *)
Definition same_parameters (self self' : t) : Prop :=
  kernels self' = kernels self ∧ biases self' = biases self.

(** Between [self] and [self'] only elements of [output] and of the three
    gradients may differ: the configuration, the parameters and the stored
    inputs are the same, and so is the shape of every array attribute. *)
Definition same_shapes (self self' : t) : Prop :=
  stride self' = stride self ∧
  input_channels self' = input_channels self ∧
  output_channels self' = output_channels self ∧
  kernels self' = kernels self ∧
  biases self' = biases self ∧
  inputs self' = inputs self ∧
  Np.shape <$> output self' = Np.shape <$> output self ∧
  Np.shape <$> dkernels self' = Np.shape <$> dkernels self ∧
  Np.shape <$> dbiases self' = Np.shape <$> dbiases self ∧
  Np.shape <$> dinputs self' = Np.shape <$> dinputs self.

(** The layer is set up, as the constructor does it, for inputs of [ic]
    channels of [H] by [W], with [oc] output channels, kernels of [K] by [K]
    and stride [st]; the kernel fits the input and the stride is positive. *)
Definition configured (self : t) (ic oc K st H W : nat) : Prop :=
  input_channels self = Z.of_nat ic ∧
  output_channels self = Z.of_nat oc ∧
  kernel_size self = Z.of_nat K ∧
  stride self = Z.of_nat st ∧
  output_shape self
  = [Z.of_nat oc; output_size (Z.of_nat H) (Z.of_nat K) (Z.of_nat st);
     output_size (Z.of_nat W) (Z.of_nat K) (Z.of_nat st)] ∧
  Np.shape (kernels self) = [oc; ic; K; K] ∧
  Np.wf (kernels self) ∧
  Np.shape (biases self) = Z.to_nat <$> output_shape self ∧
  Np.wf (biases self) ∧
  1 ≤ st ∧ 1 ≤ K ∧ K ≤ H ∧ K ≤ W.

(** What input channel [k] contributes to the output cell [(i, j, y, x)]:
    the kernel laid on the input with its corner at row [y * stride] and
    column [x * stride], that is the valid cross-correlation taken at every
    [stride]-th row and column. *)
Definition correlation_cell (x kernels : ndarray) (kernel_size stride : nat)
    (i j k y x' : nat) : R :=
  Np.rsum ((λ u, Np.rsum ((λ v,
    rmul (Np.get4 x i k (y * stride + u) (x' * stride + v))
         (Np.get4 kernels j k u v)) <$> seq 0 kernel_size))
    <$> seq 0 kernel_size).

(** The output cell as the spec describes it: the bias of the cell plus the
    sum over the input channels of the subsampled correlations. *)
Definition forward_cell (self : t) (x : ndarray) (i j y x' : nat) : R :=
  radd (Np.get3 (biases self) j y x')
    (Np.rsum ((λ k,
       correlation_cell x (kernels self) (Z.to_nat (kernel_size self))
         (Z.to_nat (stride self)) i j k y x')
       <$> seq 0 (Z.to_nat (input_channels self)))).

(** [self.output] exists, has shape [[n; oc; oh; ow]] and holds [cell] in
    every cell. *)
Definition output_cells (self : t) (n oc oh ow : nat)
    (cell : nat → nat → nat → nat → R) : Prop :=
  ∃ out, output self = Some out ∧ Np.shape out = [n; oc; oh; ow] ∧
         Np.wf out ∧
         ∀ i j y x', i < n → j < oc → y < oh → x' < ow →
           Np.get4 out i j y x' = cell i j y x'.

(** The three gradients of [self'] are those of [self]. *)
Definition same_gradients (self self' : t) : Prop :=
  dkernels self' = dkernels self ∧ dbiases self' = dbiases self ∧
  dinputs self' = dinputs self.

(** What [forward] stores is the same in [self'] as in [self]. *)
Definition same_forward_record (self self' : t) : Prop :=
  inputs self' = inputs self ∧ output self' = output self.

(** [self] and [self'] are the same layer up to what calls leave behind:
    the same configuration and the same parameters. *)
Definition same_model (self self' : t) : Prop :=
  input_channels self' = input_channels self ∧
  output_channels self' = output_channels self ∧
  kernel_size self' = kernel_size self ∧
  stride self' = stride self ∧
  output_shape self' = output_shape self ∧
  kernels_shape self' = kernels_shape self ∧
  kernels self' = kernels self ∧
  biases self' = biases self.

(** The same layer holding the same record of the last [forward]; the
    gradients may differ. *)
Definition same_up_to_gradients (self self' : t) : Prop :=
  same_model self self' ∧ same_forward_record self self'.

(** What sample [i] adds to [dkernels[j, k]] at line 174, cell [(u, v)]:
    the valid cross-correlation of [inputs[i, k]] with [delta[i, j]], an
    array of [oh] by [ow]. *)
Definition dkernels_term (x delta : ndarray) (oh ow : nat)
    (i j k u v : nat) : R :=
  Np.rsum ((λ y, Np.rsum ((λ x',
    rmul (Np.get4 x i k (u + y) (v + x')) (Np.get4 delta i j y x'))
    <$> seq 0 ow)) <$> seq 0 oh).

(** The kernel gradient at stride one: the sum over the samples. *)
Definition dkernels_cell (x delta : ndarray) (n oh ow : nat)
    (j k u v : nat) : R :=
  Np.rsum ((λ i, dkernels_term x delta oh ow i j k u v) <$> seq 0 n).

(** What output channel [j] adds to [dinputs[i, k]] at line 176, cell
    [(y, x')]: the full convolution of [delta[i, j]], an array of [oh] by
    [ow], with [kernels[j, k]], of [K] by [K]. *)
Definition dinputs_term (delta kernels : ndarray) (oh ow K : nat)
    (i j k y x' : nat) : R :=
  Np.rsum ((λ u, Np.rsum ((λ v,
    if decide (u ≤ y < u + K ∧ v ≤ x' < v + K)
    then rmul (Np.get4 delta i j u v) (Np.get4 kernels j k (y - u) (x' - v))
    else rzero) <$> seq 0 ow)) <$> seq 0 oh).

(** The input gradient at stride one: the sum over the output channels. *)
Definition dinputs_cell (delta kernels : ndarray) (oc oh ow K : nat)
    (i k y x' : nat) : R :=
  Np.rsum ((λ j, dinputs_term delta kernels oh ow K i j k y x')
           <$> seq 0 oc).

(** The bias gradient, line 167: the sum of [delta] over the samples. *)
Definition dbiases_cell (delta : ndarray) (n : nat) (j y x' : nat) : R :=
  Np.rsum ((λ i, Np.get4 delta i j y x') <$> seq 0 n).

(** The bias gradient of [self'] is that of [self]. *)
Definition same_dbiases (self self' : t) : Prop :=
  dbiases self' = dbiases self.

(** The attribute [a] exists, has shape [[d0; d1; d2; d3]] and holds [cell]
    in every cell. *)
Definition cells4 (a : option ndarray) (d0 d1 d2 d3 : nat)
    (cell : nat → nat → nat → nat → R) : Prop :=
  ∃ arr, a = Some arr ∧ Np.shape arr = [d0; d1; d2; d3] ∧ Np.wf arr ∧
         ∀ i j y x', i < d0 → j < d1 → y < d2 → x' < d3 →
           Np.get4 arr i j y x' = cell i j y x'.

(** The same for an attribute of shape [[d1; d2; d3]]. *)
Definition cells3 (a : option ndarray) (d1 d2 d3 : nat)
    (cell : nat → nat → nat → R) : Prop :=
  ∃ arr, a = Some arr ∧ Np.shape arr = [d1; d2; d3] ∧ Np.wf arr ∧
         ∀ j y x', j < d1 → y < d2 → x' < d3 →
           Np.get3 arr j y x' = cell j y x'.

(** A caller's use of the layer: a sequence of [forward] and [backward]
    calls, going on after a call that raised. *)
Inductive call :=
  | Forward (x : ndarray)
  | Backward (delta : ndarray).

Definition run_call (c : call) : Py.M t () :=
  match c with
  | Forward x => forward x
  | Backward delta => backward delta
  end.

Definition run (cs : list call) (self : t) : t :=
  foldl (λ s c, (run_call c s).1) self cs.

End ConvolutionalLayer.
Arguments t R : clear implicits.
Arguments call R : clear implicits.
End ConvolutionalLayer.

(** ** Example data *)

(** The layer of the spec's scenario: identity weights, zero biases. *)
Definition dense_example : DenseLayer.t Z :=
  DenseLayer.mk (Np.mk [2; 2] [1; 0; 0; 1]%Z) (Np.mk [2] [0; 0]%Z)
    None None None None None.

(** A generator whose samples are 0, 1, 2, ... *)
Definition counting_rng : Np.rng Z := Np.mk_rng Z.of_nat 0.

(** The layer of the spec's convolution scenario: one input channel, one
    output channel, a 2 by 2 kernel of ones, zero biases, for inputs of
    3 by 3. *)
Definition conv_example (stride : Z) : ConvolutionalLayer.t Z :=
  let o := ConvolutionalLayer.output_size 3 2 stride in
  ConvolutionalLayer.mk 1 1 2 stride [1; o; o]%Z [1; 1; 2; 2]%Z
    (Np.full [1; 1; 2; 2] 1%Z)
    (Np.full [1; Z.to_nat o; Z.to_nat o] 0%Z)
    None None None None None.

Definition ones (s : list nat) : Np.ndarray Z := Np.full s 1%Z.

(** Inputs with three columns, one too many for [dense_example]. *)
Definition wide_inputs : Np.ndarray Z := Np.mk [1; 3] [1; 2; 3]%Z.

(** A layer for 5 by 5 inputs with a 3 by 3 kernel of ones, zero biases and
    stride 2; its output is 2 by 2. *)
Definition conv_example5 : ConvolutionalLayer.t Z :=
  ConvolutionalLayer.mk 1 1 3 2 [1; 2; 2]%Z [1; 1; 3; 3]%Z
    (Np.full [1; 1; 3; 3] 1%Z) (Np.full [1; 2; 2] 0%Z)
    None None None None None.

(** The same layer for inputs of 5 by 7; its output is 2 by 3. *)
Definition conv_example57 : ConvolutionalLayer.t Z :=
  ConvolutionalLayer.mk 1 1 3 2 [1; 2; 3]%Z [1; 1; 3; 3]%Z
    (Np.full [1; 1; 3; 3] 1%Z) (Np.full [1; 2; 3] 0%Z)
    None None None None None.

(** An implementation of [pad_to_shape] that refuses every call: with it, a
    call of the helper shows in the outcome. *)
Definition refusing_pad {R : Type} (a : Np.ndarray R) (target : list Z)
    : Py.result (Np.ndarray R) :=
  Py.Raise Py.ShapeError.

(** A layer for inputs of 3 by 4 with a 2 by 2 kernel of ones, zero biases
    and stride 1; its output is 2 by 3. *)
Definition conv_example_wide : ConvolutionalLayer.t Z :=
  ConvolutionalLayer.mk 1 1 2 1 [1; 2; 3]%Z [1; 1; 2; 2]%Z
    (Np.full [1; 1; 2; 2] 1%Z) (Np.full [1; 2; 3] 0%Z)
    None None None None None.

(** * Properties *)

(** ** Facts about methods *)

Module PyFacts.
Section Frame.
Context {S : Type} (P : S → S → Prop) `{!PreOrder P}.

Lemma preserves_ret {A} (a : A) : Py.preserves P (Py.ret a).
Proof. intros s. simpl. reflexivity. Qed.

Lemma preserves_eval {A} (f : S → Py.result A) : Py.preserves P (Py.eval f).
Proof. intros s. simpl. reflexivity. Qed.

Lemma preserves_getattr {A} (f : S → option A) :
  Py.preserves P (Py.getattr f).
Proof. intros s. simpl. reflexivity. Qed.

Lemma preserves_assign (f : S → S) :
  (∀ s, P s (f s)) → Py.preserves P (Py.assign f).
Proof. intros Hf s. apply Hf. Qed.

Lemma preserves_modify {A} (get : S → option A) set f :
  (∀ s a a', get s = Some a → f s a = Py.Ok a' → P s (set (Some a') s)) →
  Py.preserves P (Py.modify get set f).
Proof.
  intros Hset s. unfold Py.modify.
  destruct (get s) as [a|] eqn:Hget; [|reflexivity].
  destruct (f s a) as [a'| |] eqn:Hf; simpl; [|reflexivity..].
  by eapply Hset.
Qed.

Lemma preserves_mbind {A B} (m : Py.M S A) (k : A → Py.M S B) :
  Py.preserves P m → (∀ a, Py.preserves P (k a)) →
  Py.preserves P (Py.mbind m k).
Proof.
  intros Hm Hk s. unfold Py.mbind. specialize (Hm s).
  destruct (m s) as [s' [a| |]]; simpl in *; [|done..].
  etrans; [exact Hm|]. apply Hk.
Qed.

Lemma preserves_for_ {A} (xs : list A) (body : A → Py.M S ()) :
  (∀ x, Py.preserves P (body x)) → Py.preserves P (Py.for_ xs body).
Proof.
  intros Hbody. induction xs as [|x xs IH]; simpl.
  - apply preserves_ret.
  - apply preserves_mbind; [apply Hbody|]. intros _. exact IH.
Qed.

Lemma preserves_for_range (n : S → Z) (body : nat → Py.M S ()) :
  (∀ i, Py.preserves P (body i)) → Py.preserves P (Py.for_range n body).
Proof. intros Hbody s. unfold Py.for_range. by apply preserves_for_. Qed.

End Frame.
(** Loops that always complete: an invariant indexed by the number of
    iterations done. *)
Section Loops.
Context {S : Type}.

Lemma for_seq_from (I : nat → S → Prop) (a m : nat)
    (body : nat → Py.M S ()) (s : S) :
  I a s →
  (∀ t s, a ≤ t < a + m → I t s →
     ∃ s', body t s = (s', Py.Ok ()) ∧ I (Datatypes.S t) s') →
  ∃ s', Py.for_ (seq a m) body s = (s', Py.Ok ()) ∧ I (a + m) s'.
Proof.
  revert a s. induction m as [|m IH]; intros a s Ha Hbody; simpl.
  - exists s. by rewrite Nat.add_0_r.
  - destruct (Hbody a s) as (s1 & Hs1 & HI1); [lia|done|].
    unfold Py.mbind. rewrite Hs1.
    destruct (IH (Datatypes.S a) s1 HI1) as (s2 & Hs2 & HI2).
    { intros t s' Ht. apply Hbody. lia. }
    exists s2. split; [done|].
    by replace (a + Datatypes.S m) with (Datatypes.S a + m) by lia.
Qed.

Lemma for_seq_inv (I : nat → S → Prop) (m : nat)
    (body : nat → Py.M S ()) (s : S) :
  I 0 s →
  (∀ t s, t < m → I t s →
     ∃ s', body t s = (s', Py.Ok ()) ∧ I (Datatypes.S t) s') →
  ∃ s', Py.for_ (seq 0 m) body s = (s', Py.Ok ()) ∧ I m s'.
Proof.
  intros H0 Hbody.
  apply (for_seq_from I 0 m body s H0).
  intros t s' Ht. apply Hbody. lia.
Qed.


End Loops.

End PyFacts.

(** ** Facts about the array runtime *)

Module NpFacts.
Section NpFacts.
Context {R : Type} `{!Scalar R}.
Local Abbreviation ndarray := (Np.ndarray R).
Implicit Types (a b : ndarray) (s : list nat) (f g : nat → nat → R).

Lemma to_nat_of_nat_list s : Z.to_nat <$> (Z.of_nat <$> s) = s.
Proof.
  induction s as [|n s IH]; csimpl; [done|].
  by rewrite Nat2Z.id, IH.
Qed.

Lemma forallb_leb_of_nat (z : Z) s :
  (z ≤ 0)%Z → forallb (Z.leb z) (Z.of_nat <$> s) = true.
Proof.
  intros Hz. induction s as [|n s IH]; csimpl; [done|].
  rewrite IH, andb_true_r. apply Z.leb_le. lia.
Qed.

Lemma filter_known_of_nat s :
  filter (λ z, z ≠ (-1)%Z) (Z.of_nat <$> s) = Z.of_nat <$> s.
Proof.
  induction s as [|n s IH]; csimpl; [done|].
  rewrite filter_cons_True by lia. by rewrite IH.
Qed.

Lemma as_ints_Int (l : list Z) : Np.as_ints (Py.Int <$> l) = Py.Ok l.
Proof.
  unfold Np.as_ints.
  induction l as [|z l IH]; csimpl; [done|]. by rewrite IH.
Qed.

(** Reshaping to a shape without [-1] keeps the elements and installs the
    new shape, provided the number of elements agrees. *)
Lemma reshape_exact a s :
  Np.size s = Np.size (Np.shape a) →
  Np.reshape a (Py.Int <$> (Z.of_nat <$> s))
  = Py.Ok {| Np.shape := s; Np.data := Np.data a |}.
Proof.
  intros Hsz. unfold Np.reshape.
  rewrite as_ints_Int. simpl.
  rewrite forallb_leb_of_nat by lia. simpl.
  rewrite filter_known_of_nat, to_nat_of_nat_list, length_fmap, Nat.sub_diag.
  by rewrite decide_True.
Qed.

(** *** Matrices given by their elements *)

Lemma tabulate2_wf h w f : Np.wf (Np.tabulate2 h w f).
Proof.
  unfold Np.wf, Np.tabulate2. simpl.
  rewrite length_fmap, length_seq. lia.
Qed.

Lemma divmod_row (w i j : nat) :
  j < w → (i * w + j) `div` w = i ∧ (i * w + j) `mod` w = j.
Proof.
  intros Hj. split.
  - rewrite Nat.div_add_l by lia. rewrite Nat.div_small by done. lia.
  - rewrite Nat.add_comm, Nat.Div0.mod_add. by apply Nat.mod_small.
Qed.

Lemma get2_tabulate2 h w f i j :
  i < h → j < w → Np.get2 (Np.tabulate2 h w f) i j = f i j.
Proof.
  intros Hi Hj. unfold Np.get2, Np.tabulate2. simpl.
  rewrite list_lookup_fmap, lookup_seq_lt by nia. simpl.
  by destruct (divmod_row w i j Hj) as [-> ->].
Qed.

Lemma tabulate2_ext h w f g :
  (∀ i j, i < h → j < w → f i j = g i j) →
  Np.tabulate2 h w f = Np.tabulate2 h w g.
Proof.
  intros Hfg. unfold Np.tabulate2. f_equal.
  apply list_eq. intros p. rewrite !list_lookup_fmap.
  destruct (decide (p < h * w)) as [Hp|Hp].
  - rewrite lookup_seq_lt by done. simpl. f_equal.
    assert (w ≠ 0) by (intros ->; lia).
    apply Hfg.
    + apply Nat.Div0.div_lt_upper_bound. lia.
    + by apply Nat.mod_upper_bound.
  - by rewrite lookup_seq_ge by lia.
Qed.



(** *** Chunks and broadcasting *)

Lemma concat_chunks n m (d : list R) :
  length d = n * m → concat (Np.chunks n m d) = d.
Proof.
  revert d. induction n as [|n IH]; intros d Hd; simpl.
  - symmetry. apply nil_length_inv. lia.
  - rewrite IH by (rewrite length_drop; lia). apply take_drop.
Qed.

Lemma Forall_chunks_length n m (d : list R) :
  length d = n * m → Forall (λ c, length c = m) (Np.chunks n m d).
Proof.
  revert d. induction n as [|n IH]; intros d Hd; simpl; constructor.
  - rewrite length_take. lia.
  - apply IH. rewrite length_drop. lia.
Qed.

(** Broadcasting to the array's own shape changes nothing. *)
Lemma bcast_id s (d : list R) :
  length d = Np.size s → Np.bcast s s d = Some d.
Proof.
  revert d. induction s as [|n s IH]; intros d Hd; simpl; [done|].
  rewrite decide_True by done.
  assert (mapM (Np.bcast s s) (Np.chunks n (Np.size s) d)
          = Some (Np.chunks n (Np.size s) d)) as ->.
  { apply mapM_Some. apply Forall_Forall2_diag.
    pose proof (Forall_chunks_length n (Np.size s) d Hd) as Hall.
    revert Hall. apply Forall_impl. intros c Hc. by apply IH. }
  simpl. f_equal. by apply concat_chunks.
Qed.

(** Broadcasting along a new leading axis repeats the array. *)
Lemma bcast_lead n s (d : list R) :
  length d = Np.size s →
  Np.bcast (1 :: s) (n :: s) d = Some (concat (replicate n d)).
Proof.
  intros Hd. simpl. destruct (decide (1 = n)) as [<-|Hn].
  - simpl. rewrite take_ge by lia. rewrite bcast_id by done.
    simpl. by rewrite app_nil_r.
  - by rewrite bcast_id.
Qed.

Lemma broadcast_to_id a s :
  Np.wf a → Np.shape a = s → Np.broadcast_to a s = Some (Np.data a).
Proof.
  intros Ha <-. unfold Np.broadcast_to.
  rewrite decide_True by done. rewrite Nat.sub_diag. simpl.
  by apply bcast_id.
Qed.

Lemma broadcast_to_lead a n s :
  Np.wf a → Np.shape a = s →
  Np.broadcast_to a (n :: s) = Some (concat (replicate n (Np.data a))).
Proof.
  intros Ha <-. unfold Np.broadcast_to.
  rewrite decide_True by (simpl; lia).
  replace (length (n :: Np.shape a) - length (Np.shape a)) with 1
    by (simpl; lia).
  by apply bcast_lead.
Qed.

Lemma iadd_same_shape a b :
  Np.wf b → Np.shape b = Np.shape a →
  Np.iadd a b
  = Py.Ok {| Np.shape := Np.shape a;
             Np.data := zip_with radd (Np.data a) (Np.data b) |}.
Proof.
  intros Hb Hs. unfold Np.iadd. by rewrite (broadcast_to_id b).
Qed.

(** In-place addition never changes the shape of its target. *)
Lemma iadd_shape a b a' : Np.iadd a b = Py.Ok a' → Np.shape a' = Np.shape a.
Proof.
  unfold Np.iadd. destruct (Np.broadcast_to b (Np.shape a)); [|done].
  by intros [= <-].
Qed.


(** *** Matrix product, transpose, sum over the batch axis *)

Lemma fmap_seq_ext {B} (u v : nat → B) n :
  (∀ i, i < n → u i = v i) → u <$> seq 0 n = v <$> seq 0 n.
Proof.
  intros Huv. apply list_eq. intros i. rewrite !list_lookup_fmap.
  destruct (decide (i < n)).
  - rewrite lookup_seq_lt by done. simpl. f_equal. by apply Huv.
  - by rewrite lookup_seq_ge by lia.
Qed.

Lemma dot_matrix a b n k m :
  Np.shape a = [n; k] → Np.shape b = [k; m] →
  Np.dot a b
  = Py.Ok (Np.tabulate2 n m (λ i j,
      Np.rsum ((λ l, rmul (Np.get2 a i l) (Np.get2 b l j)) <$> seq 0 k))).
Proof.
  intros Ha Hb. unfold Np.dot. rewrite Ha, Hb. by rewrite decide_True.
Qed.

Lemma transpose_matrix a h w :
  Np.shape a = [h; w] →
  Np.transpose a = Py.Ok (Np.tabulate2 w h (λ i j, Np.get2 a j i)).
Proof. intros Ha. unfold Np.transpose. by rewrite Ha. Qed.

Lemma get1_sum_axis0 a n m j :
  Np.shape a = [n; m] → j < m →
  ∃ r, Np.sum_axis0 a = Py.Ok r ∧ Np.shape r = [m] ∧
       Np.get1 r j = Np.rsum ((λ q, Np.get2 a q j) <$> seq 0 n).
Proof.
  intros Ha Hj. unfold Np.sum_axis0. rewrite Ha.
  eexists. split; [done|]. split; [done|].
  unfold Np.get1, Np.get2. simpl.
  rewrite list_lookup_fmap, lookup_seq_lt by lia. simpl.
  rewrite Ha. simpl. by rewrite Nat.mul_1_r.
Qed.


(** Adding a vector to a matrix adds it to every row. *)
Lemma add_matrix_vector a b n m :
  Np.wf a → Np.wf b → Np.shape a = [n; m] → Np.shape b = [m] →
  Np.add a b
  = Py.Ok {| Np.shape := [n; m];
             Np.data := zip_with radd (Np.data a)
                          (concat (replicate n (Np.data b))) |}.
Proof.
  intros Ha Hb Hsa Hsb. unfold Np.add, Np.broadcast_shapes.
  rewrite Hsa, Hsb. simpl. rewrite decide_True by done. simpl.
  change (reverse [m; n]) with [n; m].
  rewrite (broadcast_to_id a) by done.
  by rewrite (broadcast_to_lead b n [m]).
Qed.


(** *** Updates in place keep the shape *)

Lemma setitem2_shape a i j b : Np.shape (Np.setitem2 a i j b) = Np.shape a.
Proof. unfold Np.setitem2. by destruct (Np.getitem a i). Qed.

Lemma iadd_at2_shape a i j rhs a' :
  Np.iadd_at2 a i j rhs = Py.Ok a' → Np.shape a' = Np.shape a.
Proof.
  unfold Np.iadd_at2.
  destruct (Np.getitem2 a i j) as [v| |]; simpl; [|done..].
  destruct rhs as [r| |]; simpl; [|done..].
  destruct (Np.iadd v r) as [v'| |]; simpl; [|done..].
  intros [= <-]. apply setitem2_shape.
Qed.


(** *** Sub-arrays and their elements *)

Lemma getitem_ok a n rest i :
  Np.shape a = n :: rest → i < n →
  Np.getitem a i
  = Py.Ok {| Np.shape := rest;
             Np.data := take (Np.size rest)
                          (drop (i * Np.size rest) (Np.data a)) |}.
Proof. intros Ha Hi. unfold Np.getitem. rewrite Ha. by rewrite decide_True. Qed.

Lemma splice_lookup (d v : list R) o p :
  o + length v ≤ length d →
  (take o d ++ v ++ drop (o + length v) d) !! p
  = if decide (o ≤ p < o + length v) then v !! (p - o) else d !! p.
Proof.
  intros Hlen.
  assert (length (take o d) = o) as Hto by (rewrite length_take; lia).
  destruct (decide (p < o)) as [Hp|Hp].
  - rewrite lookup_app_l by lia. rewrite lookup_take_lt by done.
    by rewrite decide_False by lia.
  - rewrite lookup_app_r by lia. rewrite Hto.
    destruct (decide (p < o + length v)) as [Hp'|Hp'].
    + rewrite lookup_app_l by lia. by rewrite decide_True by lia.
    + rewrite lookup_app_r by lia. rewrite lookup_drop.
      rewrite decide_False by lia. f_equal. lia.
Qed.

Lemma splice_length (d v : list R) o :
  o + length v ≤ length d →
  length (take o d ++ v ++ drop (o + length v) d) = length d.
Proof.
  intros Hlen. rewrite !length_app, length_take, length_drop. lia.
Qed.

(** [a[i, j] = v] overwrites one block of the row-major data. *)
Lemma setitem2_data a d0 d1 d2 d3 i j v :
  Np.wf a → Np.shape a = [d0; d1; d2; d3] → i < d0 → j < d1 →
  length (Np.data v) = d2 * d3 →
  let m := d2 * d3 in
  let o := i * (d1 * m) + j * m in
  Np.data (Np.setitem2 a i j v)
  = take o (Np.data a) ++ Np.data v ++ drop (o + m) (Np.data a).
Proof.
  intros Hwf Ha Hi Hj Hv m o. unfold Np.wf in Hwf. rewrite Ha in Hwf.
  simpl in Hwf. rewrite Nat.mul_1_r in Hwf. fold m in Hwf.
  unfold Np.setitem2. rewrite (getitem_ok a d0 [d1; d2; d3] i) by done.
  unfold Np.setitem. simpl. rewrite Ha. simpl.
  rewrite !Nat.mul_1_r. fold m.
  set (M := d1 * m). set (d := Np.data a) in *.
  assert (i * M + M ≤ length d) by (unfold M in *; nia).
  assert (j * m + m ≤ M) by (unfold M; nia).
  rewrite take_take, Nat.min_l by lia.
  rewrite <- !app_assoc.
  rewrite (app_assoc (take (i * M) d)), take_take_drop.
  f_equal. f_equal.
  rewrite skipn_firstn_comm, drop_drop.
  replace (i * M + (j * m + m)) with (o + m) by (unfold o, M; lia).
  replace (i * M + M) with (o + m + (M - (j * m + m)))
    by (unfold o, M in *; lia).
  rewrite <- (drop_drop d (M - (j * m + m)) (o + m)).
  apply take_drop.
Qed.

Lemma getitem2_get4 a d0 d1 d2 d3 i j :
  Np.wf a → Np.shape a = [d0; d1; d2; d3] → i < d0 → j < d1 →
  ∃ v, Np.getitem2 a i j = Py.Ok v ∧ Np.shape v = [d2; d3] ∧ Np.wf v ∧
       ∀ y x, y < d2 → x < d3 → Np.get2 v y x = Np.get4 a i j y x.
Proof.
  intros Hwf Ha Hi Hj. unfold Np.wf in Hwf. rewrite Ha in Hwf.
  simpl in Hwf. rewrite Nat.mul_1_r in Hwf.
  unfold Np.getitem2. rewrite (getitem_ok a d0 [d1; d2; d3] i) by done.
  simpl. rewrite (getitem_ok _ d1 [d2; d3] j) by done. simpl.
  rewrite !Nat.mul_1_r.
  set (m := d2 * d3) in *. set (M := d1 * m). set (d := Np.data a) in *.
  assert (i * M + M ≤ length d) by (unfold M in *; nia).
  assert (j * m + m ≤ M) by (unfold M; nia).
  eexists. split; [done|]. split; [done|]. split.
  - unfold Np.wf. simpl. rewrite Nat.mul_1_r. fold m.
    rewrite !length_take, !length_drop, length_take, length_drop. lia.
  - intros y x Hy Hx. unfold Np.get2, Np.get4. simpl. rewrite Ha. simpl.
    fold m. fold M. fold d.
    assert (y * d3 + x < m) by (unfold m; nia).
    rewrite lookup_take_lt by done. rewrite lookup_drop.
    rewrite lookup_take_lt by lia. rewrite lookup_drop.
    repeat f_equal; lia.
Qed.

Lemma setitem2_get4 a d0 d1 d2 d3 i j v :
  Np.wf a → Np.shape a = [d0; d1; d2; d3] → i < d0 → j < d1 →
  Np.wf v → Np.shape v = [d2; d3] →
  Np.wf (Np.setitem2 a i j v) ∧
  ∀ i' j' y x, i' < d0 → j' < d1 → y < d2 → x < d3 →
    Np.get4 (Np.setitem2 a i j v) i' j' y x
    = if decide (i' = i ∧ j' = j) then Np.get2 v y x
      else Np.get4 a i' j' y x.
Proof.
  intros Hwf Ha Hi Hj Hwfv Hv.
  assert (length (Np.data v) = d2 * d3) as Hlv.
  { unfold Np.wf in Hwfv. rewrite Hv in Hwfv. simpl in Hwfv. lia. }
  pose proof (setitem2_data a d0 d1 d2 d3 i j v Hwf Ha Hi Hj Hlv) as Hdata.
  simpl in Hdata.
  pose proof (setitem2_shape a i j v) as Hshape.
  unfold Np.wf in Hwf. rewrite Ha in Hwf. simpl in Hwf.
  rewrite Nat.mul_1_r in Hwf.
  set (m := d2 * d3) in *. set (M := d1 * m) in *.
  set (d := Np.data a) in *.
  assert (i * M + j * m + m ≤ length d) by (unfold M in *; nia).
  split.
  - unfold Np.wf. rewrite Hshape, Ha, Hdata. simpl.
    rewrite Nat.mul_1_r. fold m. fold M. rewrite <- Hlv.
    rewrite splice_length by lia. done.
  - intros i' j' y x Hi' Hj' Hy Hx. unfold Np.get4.
    rewrite Hshape, Ha, Hdata. simpl. fold m. fold M. fold d.
    rewrite <- Hlv. rewrite splice_lookup by lia. rewrite Hlv.
    assert (y * d3 + x < m) by (unfold m; nia).
    destruct (decide (i' = i ∧ j' = j)) as [[-> ->]|Hne].
    + rewrite decide_True by lia. unfold Np.get2. rewrite Hv. simpl.
      repeat f_equal; lia.
    + rewrite decide_False; [done|].
      assert (j' * m + m ≤ M) by (unfold M; nia).
      destruct (decide (i' = i)) as [->|Hi''].
      * assert (j' ≠ j) by tauto.
        destruct (decide (j' < j)); [nia|]. assert (j < j') by lia. nia.
      * destruct (decide (i' < i)); [nia|]. assert (i < i') by lia. nia.
Qed.


(** *** Element-wise addition, correlation and slicing *)

Lemma get2_iadd a b h w :
  Np.wf a → Np.wf b → Np.shape a = [h; w] → Np.shape b = [h; w] →
  ∃ c, Np.iadd a b = Py.Ok c ∧ Np.shape c = [h; w] ∧ Np.wf c ∧
       ∀ y x, y < h → x < w →
         Np.get2 c y x = radd (Np.get2 a y x) (Np.get2 b y x).
Proof.
  intros Ha Hb Hsa Hsb.
  rewrite iadd_same_shape by congruence.
  unfold Np.wf in *. rewrite Hsa in Ha. rewrite Hsb in Hb. simpl in Ha, Hb.
  eexists. split; [done|]. split; [done|]. split.
  - unfold Np.wf. simpl. rewrite Hsa. simpl.
    rewrite length_zip_with. lia.
  - intros y x Hy Hx. unfold Np.get2. simpl. rewrite Hsa, Hsb. simpl.
    rewrite lookup_zip_with.
    destruct (lookup_lt_is_Some_2 (Np.data a) (y * w + x)) as [u ->]; [nia|].
    destruct (lookup_lt_is_Some_2 (Np.data b) (y * w + x)) as [v ->]; [nia|].
    done.
Qed.

Lemma correlate2d_valid_ok a b h1 w1 h2 w2 :
  Np.shape a = [h1; w1] → Np.shape b = [h2; w2] →
  1 ≤ h2 ≤ h1 → 1 ≤ w2 ≤ w1 →
  Signal.correlate2d_valid a b = Py.Ok (Signal.xcorr a b h1 w1 h2 w2).
Proof.
  intros Ha Hb Hh Hw. unfold Signal.correlate2d_valid. rewrite Ha, Hb.
  rewrite decide_False by nia. by rewrite decide_True by lia.
Qed.


(** A positive step selects the indices 0, step, 2 * step, ... *)
Lemma slice2_positive a h w (step : nat) :
  Np.shape a = [h; w] → 1 ≤ step →
  Np.slice2 a (Z.of_nat step)
  = Py.Ok (Np.tabulate2 (Np.slice_len h (Z.of_nat step))
             (Np.slice_len w (Z.of_nat step))
             (λ i j, Np.get2 a (i * step) (j * step))).
Proof.
  intros Ha Hstep. unfold Np.slice2. rewrite Ha.
  rewrite decide_False by lia. f_equal.
  apply tabulate2_ext. intros i j _ _. unfold Np.slice_idx.
  rewrite !decide_True by lia. by rewrite Nat2Z.id.
Qed.

Lemma slice_len_positive n (step : nat) :
  1 ≤ step → Np.slice_len n (Z.of_nat step) = (n + step - 1) `div` step.
Proof.
  intros Hstep. unfold Np.slice_len. by rewrite Z.abs_eq, Nat2Z.id by lia.
Qed.

(** Subsampling the [h - k + 1] positions of a valid correlation leaves
    [floor((h - k) / step) + 1] of them. *)
Lemma slice_len_valid h k (step : nat) :
  1 ≤ step → k ≤ h →
  Np.slice_len (h - k + 1) (Z.of_nat step) = (h - k) `div` step + 1.
Proof.
  intros Hstep Hk. rewrite slice_len_positive by done.
  replace (h - k + 1 + step - 1) with (h - k + 1 * step) by lia.
  rewrite Nat.div_add by lia. done.
Qed.

(** *** Sums *)

Lemma foldl_radd_rsum {A} (u : A → R) (l : list A) (x : R) :
  foldl (λ acc k, radd acc (u k)) x l = radd x (Np.rsum (u <$> l)).
Proof.
  revert x. induction l as [|k l IH]; intros x; csimpl.
  - by rewrite radd_0_r.
  - rewrite IH. by rewrite radd_assoc.
Qed.

(** *** The biases broadcast over the batch *)

Lemma lookup_concat_replicate {A} (l : list A) n i r :
  i < n → r < length l →
  concat (replicate n l) !! (i * length l + r) = l !! r.
Proof.
  revert i. induction n as [|n IH]; intros i Hi Hr; [lia|].
  simpl. destruct i as [|i].
  - simpl. by rewrite lookup_app_l.
  - rewrite lookup_app_r by lia.
    replace (S i * length l + r - length l) with (i * length l + r) by lia.
    apply IH; lia.
Qed.

Lemma length_concat_replicate {A} (l : list A) n :
  length (concat (replicate n l)) = n * length l.
Proof. induction n as [|n IH]; simpl; [done|]. rewrite length_app. lia. Qed.

(** [np.zeros((n, oc, oh, ow))] followed by [+= biases]: every sample holds
    the biases. *)
Lemma iadd_zeros_biases b n oc oh ow :
  Np.wf b → Np.shape b = [oc; oh; ow] →
  ∃ out, Np.iadd (Np.zeros_like [n; oc; oh; ow]) b = Py.Ok out ∧
         Np.shape out = [n; oc; oh; ow] ∧ Np.wf out ∧
         ∀ i j y x, i < n → j < oc → y < oh → x < ow →
           Np.get4 out i j y x = Np.get3 b j y x.
Proof.
  intros Hwf Hb. unfold Np.iadd. simpl.
  rewrite (broadcast_to_lead b n [oc; oh; ow]) by done.
  unfold Np.wf in Hwf. rewrite Hb in Hwf. simpl in Hwf.
  rewrite Nat.mul_1_r in Hwf.
  eexists. split; [done|]. split; [done|]. split.
  - unfold Np.wf. simpl. rewrite length_zip_with, length_replicate,
      length_concat_replicate, Hwf. lia.
  - intros i j y x Hi Hj Hy Hx. unfold Np.get4, Np.get3. simpl.
    rewrite Hb. simpl. rewrite lookup_zip_with.
    assert (y * ow + x < oh * ow) by nia.
    assert (j * (oh * ow) + (y * ow + x) < oc * (oh * ow)) by nia.
    rewrite lookup_replicate_2 by nia. simpl.
    rewrite <- Hwf at 1. rewrite lookup_concat_replicate by lia.
    destruct (lookup_lt_is_Some_2 (Np.data b)
                (j * (oh * ow) + (y * ow + x))) as [v ->]; [lia|].
    simpl. by rewrite radd_0_l.
Qed.




End NpFacts.
End NpFacts.

(** ** ReshapeLayer *)

Section ReshapeLayerProps.
Context {R : Type} `{!Scalar R}.
Local Abbreviation ndarray := (Np.ndarray R).

Lemma reshape_backward_eq (self : ReshapeLayer.t R) (delta : ndarray)
    (batch : nat) (dims : list nat) :
  ReshapeLayer.input_shape self = Py.Tuple (Z.of_nat <$> dims) →
  Np.shape delta = [batch; Np.size dims] →
  ReshapeLayer.backward delta self
  = (ReshapeLayer.set_dinputs
       (Some {| Np.shape := batch :: dims; Np.data := Np.data delta |}) self,
     Py.Ok ()).
Proof.
  intros Hin Hsh.
  unfold ReshapeLayer.backward, Py.mbind, Py.eval, Py.assign, Np.shape0.
  rewrite Hsh, Hin. simpl.
  change (Py.Int (Z.of_nat batch) :: (Py.Int <$> (Z.of_nat <$> dims)))
    with (Py.Int <$> (Z.of_nat <$> (batch :: dims))).
  rewrite NpFacts.reshape_exact; [done|].
  rewrite Hsh. simpl. lia.
Qed.

Lemma reshape_forward_eq (self : ReshapeLayer.t R) (x : ndarray)
    (batch : nat) (dims : list nat) :
  ReshapeLayer.output_shape self = Py.Int (Z.of_nat (Np.size dims)) →
  Np.shape x = batch :: dims →
  ReshapeLayer.forward x self
  = (ReshapeLayer.set_output
       (Some {| Np.shape := [batch; Np.size dims]; Np.data := Np.data x |})
       self,
     Py.Ok ()).
Proof.
  intros Hout Hsh.
  unfold ReshapeLayer.forward, Py.mbind, Py.eval, Py.assign, Np.shape0.
  rewrite Hsh, Hout. simpl.
  change [Py.Int (Z.of_nat batch); Py.Int (Z.of_nat (Np.size dims))]
    with (Py.Int <$> (Z.of_nat <$> [batch; Np.size dims])).
  rewrite NpFacts.reshape_exact; [done|].
  rewrite Hsh. simpl. lia.
Qed.

End ReshapeLayerProps.

(** C8. A [ReshapeLayer] whose [output_shape] is the product of its
    [input_shape], given [x] of shape [[batch, *input_shape]]: [forward]
    succeeds and stores an output of shape [[batch, product]], and [backward]
    on that output succeeds and stores a [dinputs] equal to [x], shape and
    elements. *)
Theorem C8_reshape_round_trip {R : Type} `{!Scalar R}
    (self : ReshapeLayer.t R) (x : Np.ndarray R) (batch : nat)
    (dims : list nat) :
  ReshapeLayer.input_shape self = Py.Tuple (Z.of_nat <$> dims) →
  ReshapeLayer.output_shape self = Py.Int (Z.of_nat (Np.size dims)) →
  Np.shape x = batch :: dims →
  ∃ out self1 self2,
    ReshapeLayer.forward x self = (self1, Py.Ok ()) ∧
    ReshapeLayer.output self1 = Some out ∧
    Np.shape out = [batch; Np.size dims] ∧
    ReshapeLayer.backward out self1 = (self2, Py.Ok ()) ∧
    ReshapeLayer.dinputs self2 = Some x.
Proof.
  intros Hin Hout Hsh.
  eexists _, _, _.
  split; [by eapply reshape_forward_eq|].
  split; [reflexivity|]. split; [reflexivity|].
  split; [by eapply reshape_backward_eq|].
  simpl. destruct x as [sx dx]. simpl in *. by subst.
Qed.

Lemma C8_reshape_round_trip_witness :
  ∃ out self1 self2,
    ReshapeLayer.forward (Np.mk [2; 1; 2; 2] (Z.of_nat <$> seq 0 8))
      (ReshapeLayer.__init__ (Py.Tuple [1; 2; 2]%Z) (Py.Int 4))
    = (self1, Py.Ok ()) ∧
    ReshapeLayer.output self1 = Some out ∧
    Np.shape out = [2; 4] ∧
    ReshapeLayer.backward out self1 = (self2, Py.Ok ()) ∧
    ReshapeLayer.dinputs self2
    = Some (Np.mk [2; 1; 2; 2] (Z.of_nat <$> seq 0 8)).
Proof.
  exact (C8_reshape_round_trip
           (ReshapeLayer.__init__ (Py.Tuple [1; 2; 2]%Z) (Py.Int 4))
           (Np.mk [2; 1; 2; 2] (Z.of_nat <$> seq 0 8)) 2 [1; 2; 2]
           eq_refl eq_refl eq_refl).
Defined.

(** C10. [ReshapeLayer.backward] on a layer in any state, in particular a
    freshly constructed one on which [forward] was never called: for [delta]
    of shape [[batch, product(input_shape)]] it completes, and the only
    change is that [dinputs] holds the elements of [delta] under the shape
    [[batch, *input_shape]]. Outcome and [dinputs] are the same on every
    layer with the same [input_shape]: nothing stored by [forward] is
    read. *)
Theorem C10_reshape_backward_without_forward {R : Type} `{!Scalar R}
    (self : ReshapeLayer.t R) (delta : Np.ndarray R) (batch : nat)
    (dims : list nat) :
  ReshapeLayer.input_shape self = Py.Tuple (Z.of_nat <$> dims) →
  Np.shape delta = [batch; Np.size dims] →
  let dinputs := {| Np.shape := batch :: dims; Np.data := Np.data delta |} in
  ReshapeLayer.backward delta self
  = (ReshapeLayer.set_dinputs (Some dinputs) self, Py.Ok ()) ∧
  (∀ output_shape,
     let fresh := ReshapeLayer.__init__ (ReshapeLayer.input_shape self)
                    output_shape in
     ReshapeLayer.output fresh = None ∧
     ReshapeLayer.backward delta fresh
     = (ReshapeLayer.set_dinputs (Some dinputs) fresh, Py.Ok ())) ∧
  (∀ self' : ReshapeLayer.t R,
     ReshapeLayer.input_shape self' = ReshapeLayer.input_shape self →
     (ReshapeLayer.backward delta self').2
     = (ReshapeLayer.backward delta self).2 ∧
     ReshapeLayer.dinputs (ReshapeLayer.backward delta self').1
     = ReshapeLayer.dinputs (ReshapeLayer.backward delta self).1).
Proof.
  intros Hin Hd dinputs.
  pose proof (reshape_backward_eq self delta batch dims Hin Hd) as Hself.
  split; [exact Hself|]. split.
  - intros output_shape fresh. split; [reflexivity|].
    apply reshape_backward_eq; [|done]. simpl. exact Hin.
  - intros self' Hsame. rewrite Hin in Hsame.
    rewrite (reshape_backward_eq self' delta batch dims Hsame Hd).
    by rewrite Hself.
Qed.

Lemma C10_reshape_backward_without_forward_witness :
  let self := ReshapeLayer.__init__ (Py.Tuple [1; 2; 2]%Z) (Py.Int 4) in
  let delta := Np.mk [3; 4] (Z.of_nat <$> seq 0 12) in
  let dinputs := Np.mk [3; 1; 2; 2] (Z.of_nat <$> seq 0 12) in
  ReshapeLayer.backward delta self
  = (ReshapeLayer.set_dinputs (Some dinputs) self, Py.Ok ()) ∧
  (∀ output_shape,
     let fresh := ReshapeLayer.__init__ (ReshapeLayer.input_shape self)
                    output_shape in
     ReshapeLayer.output fresh = None ∧
     ReshapeLayer.backward delta fresh
     = (ReshapeLayer.set_dinputs (Some dinputs) fresh, Py.Ok ())) ∧
  (∀ self' : ReshapeLayer.t Z,
     ReshapeLayer.input_shape self' = ReshapeLayer.input_shape self →
     (ReshapeLayer.backward delta self').2
     = (ReshapeLayer.backward delta self).2 ∧
     ReshapeLayer.dinputs (ReshapeLayer.backward delta self').1
     = ReshapeLayer.dinputs (ReshapeLayer.backward delta self).1).
Proof.
  exact (C10_reshape_backward_without_forward
           (ReshapeLayer.__init__ (Py.Tuple [1; 2; 2]%Z) (Py.Int 4))
           (Np.mk [3; 4] (Z.of_nat <$> seq 0 12)) 3 [1; 2; 2]
           eq_refl eq_refl).
Defined.

(** ** DenseLayer *)

Section DenseLayerProps.
Context {R : Type} `{!Scalar R}.
Local Abbreviation ndarray := (Np.ndarray R).

(** On inputs and parameters of matching shapes [forward] completes: it
    stores the inputs and an output of shape [[batch; n_neurons]]. *)
Lemma dense_forward_ok (self : DenseLayer.t R) (x : ndarray)
    (batch n_inputs n_neurons : nat) :
  Np.shape (DenseLayer.weights self) = [n_inputs; n_neurons] →
  Np.shape (DenseLayer.biases self) = [n_neurons] →
  Np.wf (DenseLayer.biases self) →
  Np.shape x = [batch; n_inputs] →
  ∃ out,
    DenseLayer.forward x self
    = (DenseLayer.set_output (Some out)
         (DenseLayer.set_inputs (Some x) self), Py.Ok ()) ∧
    Np.shape out = [batch; n_neurons].
Proof.
  intros Hw Hb Hwfb Hx.
  unfold DenseLayer.forward, Py.mbind, Py.assign, Py.eval. simpl.
  rewrite (NpFacts.dot_matrix x _ batch n_inputs n_neurons) by done. simpl.
  rewrite (NpFacts.add_matrix_vector _ _ batch n_neurons);
    [|apply NpFacts.tabulate2_wf|done..].
  by eexists.
Qed.

End DenseLayerProps.

(** On matching shapes [forward] and then [backward] complete, and
    [backward] stores the three arrays it computes. *)
Lemma dense_forward_backward {R : Type} `{!Scalar R}
    (self : DenseLayer.t R) (x delta : Np.ndarray R)
    (batch n_inputs n_neurons : nat) :
  Np.shape (DenseLayer.weights self) = [n_inputs; n_neurons] →
  Np.shape (DenseLayer.biases self) = [n_neurons] →
  Np.wf (DenseLayer.biases self) →
  Np.shape x = [batch; n_inputs] →
  Np.shape delta = [batch; n_neurons] →
  ∃ self1 self2 xt wt dw db di,
    DenseLayer.forward x self = (self1, Py.Ok ()) ∧
    DenseLayer.backward delta self1 = (self2, Py.Ok ()) ∧
    (Np.transpose x = Py.Ok xt ∧ Np.dot xt delta = Py.Ok dw ∧
     DenseLayer.dweights self2 = Some dw ∧
     Np.shape dw = [n_inputs; n_neurons]) ∧
    (Np.sum_axis0 delta = Py.Ok db ∧
     DenseLayer.dbiases self2 = Some db ∧
     Np.shape db = [n_neurons]) ∧
    (Np.transpose (DenseLayer.weights self) = Py.Ok wt ∧
     Np.dot delta wt = Py.Ok di ∧
     DenseLayer.dinputs self2 = Some di ∧
     Np.shape di = [batch; n_inputs]).
Proof.
  intros Hw Hb Hwfb Hx Hd.
  destruct (dense_forward_ok self x batch n_inputs n_neurons)
    as (out & Hfwd & _); [done..|].
  pose proof (NpFacts.transpose_matrix x batch n_inputs Hx) as Hxt.
  pose proof (NpFacts.transpose_matrix _ n_inputs n_neurons Hw) as Hwt.
  set (xt := Np.tabulate2 n_inputs batch (λ i j, Np.get2 x j i)) in *.
  set (wt := Np.tabulate2 n_neurons n_inputs
               (λ i j, Np.get2 (DenseLayer.weights self) j i)) in *.
  pose proof (NpFacts.dot_matrix xt delta n_inputs batch n_neurons
                eq_refl Hd) as Hdw.
  pose proof (NpFacts.dot_matrix delta wt batch n_neurons n_inputs
                Hd eq_refl) as Hdi.
  assert (∃ db, Np.sum_axis0 delta = Py.Ok db ∧ Np.shape db = [n_neurons])
    as (db & Hdb & Hsdb).
  { unfold Np.sum_axis0. rewrite Hd. by eexists. }
  eexists _, _, xt, wt, _, db, _.
  split; [exact Hfwd|]. split.
  { unfold DenseLayer.backward, Py.mbind, Py.getattr, Py.assign, Py.eval.
    simpl. rewrite Hxt. simpl. rewrite Hdw. simpl. rewrite Hdb. simpl.
    rewrite Hwt. simpl. rewrite Hdi. reflexivity. }
  by repeat split.
Qed.

(** C7. A [DenseLayer] with weights of shape [[n_inputs; n_neurons]] and
    biases of shape [[n_neurons]]: after [forward] on inputs of shape
    [[batch; n_inputs]], [backward] on a [delta] of shape
    [[batch; n_neurons]] completes and sets
    - [dweights] to [np.dot(inputs.T, delta)], of shape
      [[n_inputs; n_neurons]], whose element [(i, j)] is the sum over the
      batch of [inputs[b, i] * delta[b, j]];
    - [dbiases] to [np.sum(delta, axis=0)], of shape [[n_neurons]], whose
      element [j] is the sum over the batch of [delta[b, j]];
    - [dinputs] to [np.dot(delta, weights.T)], of shape [[batch; n_inputs]],
      whose element [(b, i)] is the sum over the neurons of
      [delta[b, j] * weights[i, j]]. *)
Theorem C7_dense_backward {R : Type} `{!Scalar R}
    (self : DenseLayer.t R) (x delta : Np.ndarray R)
    (batch n_inputs n_neurons : nat) :
  Np.shape (DenseLayer.weights self) = [n_inputs; n_neurons] →
  Np.shape (DenseLayer.biases self) = [n_neurons] →
  Np.wf (DenseLayer.biases self) →
  Np.shape x = [batch; n_inputs] →
  Np.shape delta = [batch; n_neurons] →
  ∃ self1 self2 xt wt dw db di,
    DenseLayer.forward x self = (self1, Py.Ok ()) ∧
    DenseLayer.backward delta self1 = (self2, Py.Ok ()) ∧
    (Np.transpose x = Py.Ok xt ∧ Np.dot xt delta = Py.Ok dw ∧
     DenseLayer.dweights self2 = Some dw ∧
     Np.shape dw = [n_inputs; n_neurons] ∧
     ∀ i j, i < n_inputs → j < n_neurons →
       Np.get2 dw i j
       = Np.rsum ((λ b, rmul (Np.get2 x b i) (Np.get2 delta b j))
                  <$> seq 0 batch)) ∧
    (Np.sum_axis0 delta = Py.Ok db ∧
     DenseLayer.dbiases self2 = Some db ∧
     Np.shape db = [n_neurons] ∧
     ∀ j, j < n_neurons →
       Np.get1 db j = Np.rsum ((λ b, Np.get2 delta b j) <$> seq 0 batch)) ∧
    (Np.transpose (DenseLayer.weights self) = Py.Ok wt ∧
     Np.dot delta wt = Py.Ok di ∧
     DenseLayer.dinputs self2 = Some di ∧
     Np.shape di = [batch; n_inputs] ∧
     ∀ b i, b < batch → i < n_inputs →
       Np.get2 di b i
       = Np.rsum ((λ j, rmul (Np.get2 delta b j)
                          (Np.get2 (DenseLayer.weights self) i j))
                  <$> seq 0 n_neurons)).
Proof.
  intros Hw Hb Hwfb Hx Hd.
  destruct (dense_forward_backward self x delta batch n_inputs n_neurons)
    as (self1 & self2 & xt & wt & dw & db & di & Hfwd & Hback
        & (Hxt & Hdw & Hsdw & Hshw) & (Hdb & Hsdb & Hshb)
        & (Hwt & Hdi & Hsdi & Hshi)); [done..|].
  exists self1, self2, xt, wt, dw, db, di.
  split; [done|]. split; [done|].
  (* the arrays, element by element *)
  pose proof Hxt as Hxt'. pose proof Hwt as Hwt'.
  rewrite (NpFacts.transpose_matrix x batch n_inputs Hx) in Hxt'.
  injection Hxt' as Hxt'.
  rewrite (NpFacts.transpose_matrix _ n_inputs n_neurons Hw) in Hwt'.
  injection Hwt' as Hwt'.
  pose proof Hdw as Hdw'. pose proof Hdi as Hdi'.
  rewrite (NpFacts.dot_matrix xt delta n_inputs batch n_neurons) in Hdw'
    by (by subst xt).
  rewrite (NpFacts.dot_matrix delta wt batch n_neurons n_inputs) in Hdi'
    by (by subst wt).
  split; [|split].
  - split; [done|]. split; [done|]. split; [done|]. split; [done|].
    injection Hdw' as <-. intros i j Hi Hj.
    rewrite NpFacts.get2_tabulate2 by done.
    f_equal. apply NpFacts.fmap_seq_ext. intros b Hb'.
    rewrite <- Hxt'. by rewrite NpFacts.get2_tabulate2.
  - split; [done|]. split; [done|]. split; [done|].
    intros j Hj.
    destruct (NpFacts.get1_sum_axis0 delta batch n_neurons j Hd Hj)
      as (r & Hr & _ & Hget).
    rewrite Hdb in Hr. by injection Hr as <-.
  - split; [done|]. split; [done|]. split; [done|]. split; [done|].
    injection Hdi' as <-. intros b i Hb' Hi.
    rewrite NpFacts.get2_tabulate2 by done.
    f_equal. apply NpFacts.fmap_seq_ext. intros j Hj.
    rewrite <- Hwt'. by rewrite NpFacts.get2_tabulate2.
Qed.

Lemma C7_dense_backward_witness :
  ∃ self1 self2 xt wt dw db di,
    DenseLayer.forward (Np.mk [1; 2] [2; 3]%Z) dense_example
    = (self1, Py.Ok ()) ∧
    DenseLayer.backward (Np.mk [1; 2] [1; 1]%Z) self1 = (self2, Py.Ok ()) ∧
    (Np.transpose (Np.mk [1; 2] [2; 3]%Z) = Py.Ok xt ∧
     Np.dot xt (Np.mk [1; 2] [1; 1]%Z) = Py.Ok dw ∧
     DenseLayer.dweights self2 = Some dw ∧
     Np.shape dw = [2; 2] ∧
     ∀ i j, i < 2 → j < 2 →
       Np.get2 dw i j
       = Np.rsum ((λ b, rmul (Np.get2 (Np.mk [1; 2] [2; 3]%Z) b i)
                          (Np.get2 (Np.mk [1; 2] [1; 1]%Z) b j))
                  <$> seq 0 1)) ∧
    (Np.sum_axis0 (Np.mk [1; 2] [1; 1]%Z) = Py.Ok db ∧
     DenseLayer.dbiases self2 = Some db ∧
     Np.shape db = [2] ∧
     ∀ j, j < 2 →
       Np.get1 db j
       = Np.rsum ((λ b, Np.get2 (Np.mk [1; 2] [1; 1]%Z) b j) <$> seq 0 1)) ∧
    (Np.transpose (DenseLayer.weights dense_example) = Py.Ok wt ∧
     Np.dot (Np.mk [1; 2] [1; 1]%Z) wt = Py.Ok di ∧
     DenseLayer.dinputs self2 = Some di ∧
     Np.shape di = [1; 2] ∧
     ∀ b i, b < 1 → i < 2 →
       Np.get2 di b i
       = Np.rsum ((λ j, rmul (Np.get2 (Np.mk [1; 2] [1; 1]%Z) b j)
                          (Np.get2 (DenseLayer.weights dense_example) i j))
                  <$> seq 0 2)).
Proof.
  exact (C7_dense_backward dense_example (Np.mk [1; 2] [2; 3]%Z)
           (Np.mk [1; 2] [1; 1]%Z) 1 2 2
           eq_refl eq_refl eq_refl eq_refl eq_refl).
Defined.

(** The scenario of the spec, evaluated: [dweights == [[2, 2], [3, 3]]],
    [dbiases == [1, 1]], [dinputs == [[1, 1]]]. *)
Example dense_scenario :
  let self1 := (DenseLayer.forward (Np.mk [1; 2] [2; 3]%Z) dense_example).1 in
  let self2 := (DenseLayer.backward (Np.mk [1; 2] [1; 1]%Z) self1).1 in
  DenseLayer.output self1 = Some (Np.mk [1; 2] [2; 3]%Z) ∧
  DenseLayer.dweights self2 = Some (Np.mk [2; 2] [2; 2; 3; 3]%Z) ∧
  DenseLayer.dbiases self2 = Some (Np.mk [2] [1; 1]%Z) ∧
  DenseLayer.dinputs self2 = Some (Np.mk [1; 2] [1; 1]%Z).
Proof. vm_compute. done. Qed.

(** ** Parameters are never written *)

Ltac frame_step :=
  lazymatch goal with
  | |- Py.preserves _ (Py.mbind _ _) => apply PyFacts.preserves_mbind
  | |- Py.preserves _ (Py.for_ _ _) => apply PyFacts.preserves_for_
  | |- Py.preserves _ (Py.for_range _ _) => apply PyFacts.preserves_for_range
  | |- Py.preserves _ (Py.eval _) => apply PyFacts.preserves_eval
  | |- Py.preserves _ (Py.getattr _) => apply PyFacts.preserves_getattr
  | |- Py.preserves _ (Py.ret _) => apply PyFacts.preserves_ret
  | |- Py.preserves _ (Py.modify _ _ _) => apply PyFacts.preserves_modify
  | |- Py.preserves _ (Py.assign _) => apply PyFacts.preserves_assign
  end.

Ltac frame := repeat (frame_step; try apply _; intros).

Section Parameters.
Context {R : Type} `{!Scalar R}.
Local Abbreviation ndarray := (Np.ndarray R).

#[global] Instance dense_same_parameters_preorder :
  PreOrder (@DenseLayer.same_parameters R).
Proof.
  split.
  - by intros s.
  - intros s1 s2 s3 [H1 H2] [H3 H4]. split; congruence.
Qed.

#[global] Instance conv_same_parameters_preorder :
  PreOrder (@ConvolutionalLayer.same_parameters R).
Proof.
  split.
  - by intros s.
  - intros s1 s2 s3 [H1 H2] [H3 H4]. split; congruence.
Qed.

Lemma dense_forward_parameters (x : ndarray) :
  Py.preserves DenseLayer.same_parameters (DenseLayer.forward x).
Proof. unfold DenseLayer.forward. frame; done. Qed.

Lemma dense_backward_parameters (delta : ndarray) :
  Py.preserves DenseLayer.same_parameters (DenseLayer.backward delta).
Proof. unfold DenseLayer.backward. frame; done. Qed.

Lemma conv_forward_parameters (x : ndarray) :
  Py.preserves ConvolutionalLayer.same_parameters
    (ConvolutionalLayer.forward x).
Proof.
  unfold ConvolutionalLayer.forward, ConvolutionalLayer.forward_accumulate,
    ConvolutionalLayer.forward_step.
  frame; done.
Qed.

Lemma conv_backward_unit_parameters (delta : ndarray) i j k :
  Py.preserves ConvolutionalLayer.same_parameters
    (ConvolutionalLayer.backward_unit delta i j k).
Proof. unfold ConvolutionalLayer.backward_unit. frame; done. Qed.

Lemma conv_backward_strided_parameters dilate pad_to_shape
    (delta : ndarray) i j k :
  Py.preserves ConvolutionalLayer.same_parameters
    (ConvolutionalLayer.backward_strided dilate pad_to_shape delta i j k).
Proof. unfold ConvolutionalLayer.backward_strided. frame; done. Qed.

Lemma conv_backward_parameters dilate pad_to_shape (delta : ndarray) :
  Py.preserves ConvolutionalLayer.same_parameters
    (ConvolutionalLayer.backward dilate pad_to_shape delta).
Proof.
  unfold ConvolutionalLayer.backward, ConvolutionalLayer.backward_with,
    ConvolutionalLayer.backward_accumulate, ConvolutionalLayer.backward_loops.
  frame; try done.
  intros s. unfold ConvolutionalLayer.backward_step. case_decide.
  - apply conv_backward_unit_parameters.
  - apply conv_backward_strided_parameters.
Qed.

End Parameters.

(** C9. Neither [forward] nor [backward] writes the layer's parameters: the
    [weights] and [biases] of a [DenseLayer] and the [kernels] and [biases] of
    a [ConvolutionalLayer] are the same after a call as before it, whether
    the call completes or raises, for every implementation of the two
    helpers, and hence after every sequence of calls. *)
Theorem C9_parameters_unchanged {R : Type} `{!Scalar R} :
  (∀ (self : DenseLayer.t R) x,
     DenseLayer.same_parameters self (DenseLayer.forward x self).1) ∧
  (∀ (self : DenseLayer.t R) delta,
     DenseLayer.same_parameters self (DenseLayer.backward delta self).1) ∧
  (∀ (self : ConvolutionalLayer.t R) x,
     ConvolutionalLayer.same_parameters self
       (ConvolutionalLayer.forward x self).1) ∧
  (∀ dilate pad_to_shape (self : ConvolutionalLayer.t R) delta,
     ConvolutionalLayer.same_parameters self
       (ConvolutionalLayer.backward dilate pad_to_shape delta self).1) ∧
  (∀ (self : DenseLayer.t R) cs,
     DenseLayer.same_parameters self (DenseLayer.run cs self)) ∧
  (∀ dilate pad_to_shape (self : ConvolutionalLayer.t R) cs,
     ConvolutionalLayer.same_parameters self
       (ConvolutionalLayer.run dilate pad_to_shape cs self)).
Proof.
  split; [intros; apply dense_forward_parameters|].
  split; [intros; apply dense_backward_parameters|].
  split; [intros; apply conv_forward_parameters|].
  split; [intros; apply conv_backward_parameters|].
  split.
  - intros self cs. revert self.
    induction cs as [|c cs IH]; intros self; simpl; [done|].
    etrans; [|apply IH].
    destruct c; [apply dense_forward_parameters
                |apply dense_backward_parameters].
  - intros dilate pad self cs. revert self.
    induction cs as [|c cs IH]; intros self; simpl; [done|].
    etrans; [|apply IH].
    destruct c; [apply conv_forward_parameters
                |apply conv_backward_parameters].
Qed.

(** ** Construction of a ConvolutionalLayer *)




(** ** Shapes of the attributes of a ConvolutionalLayer *)

Section ConvShapes.
Context {R : Type} `{!Scalar R}.
Local Abbreviation ndarray := (Np.ndarray R).

#[global] Instance conv_same_shapes_preorder :
  PreOrder (@ConvolutionalLayer.same_shapes R).
Proof.
  split.
  - intros s. unfold ConvolutionalLayer.same_shapes. tauto.
  - intros s1 s2 s3. unfold ConvolutionalLayer.same_shapes.
    intros (?&?&?&?&?&?&?&?&?&?) (?&?&?&?&?&?&?&?&?&?).
    repeat split; congruence.
Qed.

Ltac shapes_step :=
  match goal with
  | H : Np.iadd_at2 _ _ _ _ = Py.Ok _ |- _ =>
      apply NpFacts.iadd_at2_shape in H
  | H : Np.iadd _ _ = Py.Ok _ |- _ => apply NpFacts.iadd_shape in H
  | H : Py.bind ?m _ = Py.Ok _ |- _ =>
      destruct m; simpl in H; [|discriminate H..]
  end.

Ltac shapes :=
  frame; repeat shapes_step;
  unfold ConvolutionalLayer.same_shapes; simpl;
  repeat split; try done;
  match goal with
  | Hget : _ = Some _, Hs : Np.shape _ = Np.shape _ |- _ =>
      rewrite Hget, Hs; reflexivity
  end.

(** The loops of [forward] change nothing but elements of [output]. *)
Lemma conv_forward_accumulate_shapes n_samples :
  Py.preserves (@ConvolutionalLayer.same_shapes R)
    (ConvolutionalLayer.forward_accumulate n_samples).
Proof.
  unfold ConvolutionalLayer.forward_accumulate,
    ConvolutionalLayer.forward_step.
  shapes.
Qed.

Lemma conv_backward_unit_shapes (delta : ndarray) i j k :
  Py.preserves ConvolutionalLayer.same_shapes
    (ConvolutionalLayer.backward_unit delta i j k).
Proof. unfold ConvolutionalLayer.backward_unit. shapes. Qed.

Lemma conv_backward_strided_shapes dilate pad_to_shape
    (delta : ndarray) i j k :
  Py.preserves ConvolutionalLayer.same_shapes
    (ConvolutionalLayer.backward_strided dilate pad_to_shape delta i j k).
Proof. unfold ConvolutionalLayer.backward_strided. shapes. Qed.

(** The loops of [backward] change nothing but elements of the three
    gradients, whatever the helpers do. *)
Lemma conv_backward_accumulate_shapes dilate pad_to_shape
    (delta : ndarray) n_samples :
  Py.preserves ConvolutionalLayer.same_shapes
    (ConvolutionalLayer.backward_accumulate dilate pad_to_shape delta
       n_samples).
Proof.
  unfold ConvolutionalLayer.backward_accumulate,
    ConvolutionalLayer.backward_loops.
  frame.
  - shapes.
  - intros s. unfold ConvolutionalLayer.backward_step. case_decide.
    + apply conv_backward_unit_shapes.
    + apply conv_backward_strided_shapes.
Qed.

End ConvShapes.

Section ConvCalls.
Context {R : Type} `{!Scalar R}.
Local Abbreviation ndarray := (Np.ndarray R).

(** A [forward] that completes has stored its argument and an output, and
    has left the gradients alone. *)
Lemma conv_forward_ok (self : ConvolutionalLayer.t R) (x : ndarray) :
  (ConvolutionalLayer.forward x self).2 = Py.Ok () →
  let self1 := (ConvolutionalLayer.forward x self).1 in
  ConvolutionalLayer.inputs self1 = Some x ∧
  is_Some (ConvolutionalLayer.output self1) ∧
  ConvolutionalLayer.kernels self1 = ConvolutionalLayer.kernels self ∧
  ConvolutionalLayer.biases self1 = ConvolutionalLayer.biases self.
Proof.
  unfold ConvolutionalLayer.forward, Py.mbind, Py.eval, Py.assign.
  destruct (Np.shape0 x) as [n| |]; simpl; [|done..].
  destruct (Np.zeros _) as [out| |]; simpl; [|done..].
  match goal with |- context [ConvolutionalLayer.forward_accumulate n ?s] =>
    pose proof (conv_forward_accumulate_shapes n s) as Hsh;
    destruct (ConvolutionalLayer.forward_accumulate n s) as [s' r]
  end.
  simpl in *. intros _.
  destruct Hsh as (_&_&_&Hk&Hb&Hi&Ho&_).
  assert (is_Some (ConvolutionalLayer.output s')).
  { destruct (ConvolutionalLayer.output s'); [by eexists|done]. }
  by destruct r.
Qed.

(** After [backward], completed or not, on a layer that holds inputs [x]:
    the three gradients exist and have the shapes of the kernels, of the
    biases and of [x]. *)
Lemma conv_backward_shapes dilate pad_to_shape
    (self : ConvolutionalLayer.t R) (x delta : ndarray) :
  ConvolutionalLayer.inputs self = Some x →
  let self2 :=
    (ConvolutionalLayer.backward dilate pad_to_shape delta self).1 in
  Np.shape <$> ConvolutionalLayer.dkernels self2
  = Some (Np.shape (ConvolutionalLayer.kernels self)) ∧
  Np.shape <$> ConvolutionalLayer.dbiases self2
  = Some (Np.shape (ConvolutionalLayer.biases self)) ∧
  Np.shape <$> ConvolutionalLayer.dinputs self2 = Some (Np.shape x) ∧
  ConvolutionalLayer.inputs self2 = Some x.
Proof.
  intros Hx.
  unfold ConvolutionalLayer.backward, ConvolutionalLayer.backward_with,
    Py.mbind, Py.eval, Py.assign, Py.getattr.
  simpl. rewrite Hx. simpl.
  destruct (Np.shape0 x) as [n| |]; simpl; [|done..].
  match goal with
  | |- context [ConvolutionalLayer.backward_accumulate _ _ _ n ?s] =>
    pose proof (conv_backward_accumulate_shapes dilate pad_to_shape delta n s)
      as Hsh;
    destruct (ConvolutionalLayer.backward_accumulate dilate pad_to_shape
                delta n s) as [s' r]
  end.
  simpl in *.
  destruct Hsh as (_&_&_&_&_&Hi&_&Hdk&Hdb&Hdi).
  simpl in Hi, Hdk, Hdb, Hdi. rewrite Hx in Hi. done.
Qed.

End ConvCalls.

(** C3. After a [backward] call that follows a [forward] call, for every
    batch size:
    - [DenseLayer], on inputs [[batch; n_inputs]] and a [delta]
      [[batch; n_neurons]]: both calls complete, [dinputs] has the shape of
      the inputs, [dweights] that of the weights, [dbiases] that of the
      biases;
    - [ConvolutionalLayer], for every stride, every input shape (square or
      not) and every implementation of the helpers: once [forward] has
      completed on [x], after [backward] (whether it completes or raises)
      [dinputs] has the shape of [x], [dkernels] that of the kernels,
      [dbiases] that of the biases;
    - [ReshapeLayer], with [output_shape] the product of [input_shape]: both
      calls complete and [dinputs] has the shape of the inputs. *)
Theorem C3_gradient_shapes {R : Type} `{!Scalar R} :
  (∀ (self : DenseLayer.t R) (x delta : Np.ndarray R)
     (batch n_inputs n_neurons : nat),
     Np.shape (DenseLayer.weights self) = [n_inputs; n_neurons] →
     Np.shape (DenseLayer.biases self) = [n_neurons] →
     Np.wf (DenseLayer.biases self) →
     Np.shape x = [batch; n_inputs] →
     Np.shape delta = [batch; n_neurons] →
     let call1 := DenseLayer.forward x self in
     let call2 := DenseLayer.backward delta call1.1 in
     call1.2 = Py.Ok () ∧ call2.2 = Py.Ok () ∧
     Np.shape <$> DenseLayer.dinputs call2.1 = Some (Np.shape x) ∧
     Np.shape <$> DenseLayer.dweights call2.1
     = Some (Np.shape (DenseLayer.weights call2.1)) ∧
     Np.shape <$> DenseLayer.dbiases call2.1
     = Some (Np.shape (DenseLayer.biases call2.1))) ∧
  (∀ dilate pad_to_shape (self : ConvolutionalLayer.t R)
     (x delta : Np.ndarray R),
     let call1 := ConvolutionalLayer.forward x self in
     let call2 :=
       ConvolutionalLayer.backward dilate pad_to_shape delta call1.1 in
     call1.2 = Py.Ok () →
     Np.shape <$> ConvolutionalLayer.dinputs call2.1 = Some (Np.shape x) ∧
     Np.shape <$> ConvolutionalLayer.dkernels call2.1
     = Some (Np.shape (ConvolutionalLayer.kernels call2.1)) ∧
     Np.shape <$> ConvolutionalLayer.dbiases call2.1
     = Some (Np.shape (ConvolutionalLayer.biases call2.1))) ∧
  (∀ (self : ReshapeLayer.t R) (x delta : Np.ndarray R) (batch : nat)
     (dims : list nat),
     ReshapeLayer.input_shape self = Py.Tuple (Z.of_nat <$> dims) →
     ReshapeLayer.output_shape self = Py.Int (Z.of_nat (Np.size dims)) →
     Np.shape x = batch :: dims →
     Np.shape delta = [batch; Np.size dims] →
     let call1 := ReshapeLayer.forward x self in
     let call2 := ReshapeLayer.backward delta call1.1 in
     call1.2 = Py.Ok () ∧ call2.2 = Py.Ok () ∧
     Np.shape <$> ReshapeLayer.dinputs call2.1 = Some (Np.shape x)).
Proof.
  split; [|split].
  - intros self x delta batch n_inputs n_neurons Hw Hb Hwfb Hx Hd.
    destruct (dense_forward_backward self x delta batch n_inputs n_neurons)
      as (self1 & self2 & xt & wt & dw & db & di & Hf & Hback & Hdw & Hdb & Hdi);
      [done..|].
    simpl. rewrite Hf. simpl. rewrite Hback. simpl.
    destruct Hdw as (_ & _ & -> & Hsdw).
    destruct Hdb as (_ & -> & Hsdb).
    destruct Hdi as (_ & _ & -> & Hsdi).
    pose proof (dense_backward_parameters delta self1) as [Hw2 Hb2].
    pose proof (dense_forward_parameters x self) as [Hw1 Hb1].
    rewrite Hf in Hw1, Hb1. rewrite Hback in Hw2, Hb2. simpl in *.
    rewrite Hw2, Hb2, Hw1, Hb1, Hw, Hb, Hx, Hsdw, Hsdb, Hsdi. done.
  - intros dilate pad self x delta call1 call2 Hok.
    destruct (conv_forward_ok self x Hok) as (Hin & _ & _ & _).
    destruct (conv_backward_shapes dilate pad call1.1 x delta Hin)
      as (Hdk & Hdb & Hdi & _).
    pose proof (conv_backward_parameters dilate pad delta call1.1)
      as [Hk2 Hb2].
    subst call2. by rewrite Hk2, Hb2.
  - intros self x delta batch dims Hin Hout Hx Hd.
    simpl. rewrite (reshape_forward_eq self x batch dims) by done.
    simpl. rewrite (reshape_backward_eq _ delta batch dims) by done.
    simpl. by rewrite Hx.
Qed.

Lemma C3_gradient_shapes_witness :
  (let call1 := DenseLayer.forward (Np.mk [1; 2] [2; 3]%Z) dense_example in
   let call2 := DenseLayer.backward (Np.mk [1; 2] [1; 1]%Z) call1.1 in
   call1.2 = Py.Ok () ∧ call2.2 = Py.Ok () ∧
   Np.shape <$> DenseLayer.dinputs call2.1 = Some [1; 2] ∧
   Np.shape <$> DenseLayer.dweights call2.1 = Some [2; 2] ∧
   Np.shape <$> DenseLayer.dbiases call2.1 = Some [2]) ∧
  (let call1 := ConvolutionalLayer.forward (ones [1; 1; 3; 3])
                  (conv_example 2) in
   let call2 := ConvolutionalLayer.backward Helpers.dilate
                  Helpers.pad_to_shape (ones [1; 1; 1; 1]) call1.1 in
   Np.shape <$> ConvolutionalLayer.dinputs call2.1 = Some [1; 1; 3; 3] ∧
   Np.shape <$> ConvolutionalLayer.dkernels call2.1 = Some [1; 1; 2; 2] ∧
   Np.shape <$> ConvolutionalLayer.dbiases call2.1 = Some [1; 1; 1]) ∧
  (let call1 := ReshapeLayer.forward (Np.mk [2; 1; 2; 2] (Z.of_nat <$> seq 0 8))
                  (ReshapeLayer.__init__ (Py.Tuple [1; 2; 2]%Z) (Py.Int 4)) in
   let call2 := ReshapeLayer.backward (ones [2; 4]) call1.1 in
   call1.2 = Py.Ok () ∧ call2.2 = Py.Ok () ∧
   Np.shape <$> ReshapeLayer.dinputs call2.1 = Some [2; 1; 2; 2]).
Proof.
  pose proof (@C3_gradient_shapes Z _) as (Hdense & Hconv & Hreshape).
  split; [|split].
  - exact (Hdense dense_example (Np.mk [1; 2] [2; 3]%Z)
             (Np.mk [1; 2] [1; 1]%Z) 1 2 2
             eq_refl eq_refl eq_refl eq_refl eq_refl).
  - exact (Hconv Helpers.dilate Helpers.pad_to_shape (conv_example 2)
             (ones [1; 1; 3; 3]) (ones [1; 1; 1; 1]) eq_refl).
  - exact (Hreshape (ReshapeLayer.__init__ (Py.Tuple [1; 2; 2]%Z) (Py.Int 4))
             (Np.mk [2; 1; 2; 2] (Z.of_nat <$> seq 0 8)) (ones [2; 4])
             2 [1; 2; 2] eq_refl eq_refl eq_refl eq_refl).
Defined.

(** ** Calls that raise *)

Section Failures.
Context {R : Type} `{!Scalar R}.
Local Abbreviation ndarray := (Np.ndarray R).

#[global] Instance conv_same_gradients_preorder :
  PreOrder (@ConvolutionalLayer.same_gradients R).
Proof.
  split.
  - by intros s.
  - intros s1 s2 s3 (?&?&?) (?&?&?). repeat split; congruence.
Qed.

#[global] Instance conv_same_forward_record_preorder :
  PreOrder (@ConvolutionalLayer.same_forward_record R).
Proof.
  split.
  - by intros s.
  - intros s1 s2 s3 (?&?) (?&?). split; congruence.
Qed.

Lemma conv_forward_gradients (x : ndarray) :
  Py.preserves ConvolutionalLayer.same_gradients
    (ConvolutionalLayer.forward x).
Proof.
  unfold ConvolutionalLayer.forward, ConvolutionalLayer.forward_accumulate,
    ConvolutionalLayer.forward_step.
  frame; done.
Qed.

Lemma conv_backward_step_forward_record dilate pad_to_shape
    (delta : ndarray) i j k :
  Py.preserves ConvolutionalLayer.same_forward_record
    (ConvolutionalLayer.backward_step dilate pad_to_shape delta i j k).
Proof.
  assert (Py.preserves ConvolutionalLayer.same_forward_record
            (ConvolutionalLayer.backward_unit delta i j k)) as Hunit.
  { unfold ConvolutionalLayer.backward_unit. frame; done. }
  assert (Py.preserves ConvolutionalLayer.same_forward_record
            (ConvolutionalLayer.backward_strided dilate pad_to_shape
               delta i j k)) as Hstrided.
  { unfold ConvolutionalLayer.backward_strided. frame; done. }
  intros s. unfold ConvolutionalLayer.backward_step.
  case_decide; [apply Hunit|apply Hstrided].
Qed.

Lemma conv_backward_forward_record dilate pad_to_shape (delta : ndarray) :
  Py.preserves ConvolutionalLayer.same_forward_record
    (ConvolutionalLayer.backward dilate pad_to_shape delta).
Proof.
  unfold ConvolutionalLayer.backward, ConvolutionalLayer.backward_with,
    ConvolutionalLayer.backward_accumulate, ConvolutionalLayer.backward_loops.
  frame; try done.
  apply conv_backward_step_forward_record.
Qed.

(** A [forward] that does not complete has either done nothing (its argument
    has no first axis) or stored its argument. *)
Lemma conv_forward_failed (self : ConvolutionalLayer.t R) (x : ndarray) :
  let call := ConvolutionalLayer.forward x self in
  call.2 ≠ Py.Ok () →
  call.1 = self ∨ ConvolutionalLayer.inputs call.1 = Some x.
Proof.
  unfold ConvolutionalLayer.forward, Py.mbind, Py.eval, Py.assign.
  destruct (Np.shape0 x) as [n| |]; simpl; [|by left..].
  destruct (Np.zeros _) as [out| |]; simpl; [|by right..].
  match goal with |- context [ConvolutionalLayer.forward_accumulate n ?s] =>
    pose proof (conv_forward_accumulate_shapes n s) as Hsh;
    destruct (ConvolutionalLayer.forward_accumulate n s) as [s' r]
  end.
  destruct Hsh as (_&_&_&_&_&Hi&_). simpl in *.
  intros _. right. by destruct r.
Qed.

(** A [backward] that completes has assigned the three gradients. *)
Lemma conv_backward_ok dilate pad_to_shape
    (self : ConvolutionalLayer.t R) (delta : ndarray) :
  let call := ConvolutionalLayer.backward dilate pad_to_shape delta self in
  call.2 = Py.Ok () →
  is_Some (ConvolutionalLayer.dkernels call.1) ∧
  is_Some (ConvolutionalLayer.dbiases call.1) ∧
  is_Some (ConvolutionalLayer.dinputs call.1).
Proof.
  destruct (ConvolutionalLayer.inputs self) as [x|] eqn:Hx.
  - intros call _.
    destruct (conv_backward_shapes dilate pad_to_shape self x delta Hx)
      as (Hdk & Hdb & Hdi & _).
    fold call in Hdk, Hdb, Hdi.
    destruct (ConvolutionalLayer.dkernels call.1),
      (ConvolutionalLayer.dbiases call.1),
      (ConvolutionalLayer.dinputs call.1); done.
  - unfold ConvolutionalLayer.backward, ConvolutionalLayer.backward_with,
      Py.mbind, Py.eval, Py.assign, Py.getattr.
    simpl. by rewrite Hx.
Qed.

End Failures.

(** C6, as stated, fails: [forward] of the example [DenseLayer] on inputs
    with one column too many raises in [np.dot], after [self.inputs] has
    been assigned; the stored inputs are no longer what they were. *)
Lemma C6_partial_update_counterexample :
  let call := DenseLayer.forward wide_inputs dense_example in
  call.2 = Py.Raise Py.ValueError ∧
  DenseLayer.inputs dense_example = None ∧
  DenseLayer.inputs call.1 = Some wide_inputs ∧
  DenseLayer.inputs call.1 ≠ DenseLayer.inputs dense_example.
Proof. vm_compute. repeat split; done. Qed.

(** C6, amended. A call that completes has assigned every attribute it is
    meant to assign; a call that raises is not rolled back, and the
    attributes assigned before the failing statement keep their new values:
    - a failing [DenseLayer.forward] has stored the new inputs and changed
      nothing else;
    - a failing [DenseLayer.backward] leaves [dinputs] as it was, and every
      [DenseLayer.backward] leaves [inputs] and [output] as they were;
    - a failing [ReshapeLayer] call leaves the layer as it was;
    - a failing [ConvolutionalLayer.forward] has changed nothing or has
      stored the new inputs, and every [ConvolutionalLayer.forward] leaves
      the gradients as they were;
    - every [ConvolutionalLayer.backward] leaves [inputs] and [output] as
      they were. *)
Theorem C6_no_rollback {R : Type} `{!Scalar R} :
  (∀ (self : DenseLayer.t R) x,
     let call := DenseLayer.forward x self in
     (call.2 = Py.Ok () →
        DenseLayer.inputs call.1 = Some x ∧
        is_Some (DenseLayer.output call.1)) ∧
     (call.2 ≠ Py.Ok () → call.1 = DenseLayer.set_inputs (Some x) self)) ∧
  (∀ (self : DenseLayer.t R) delta,
     let call := DenseLayer.backward delta self in
     (call.2 = Py.Ok () →
        is_Some (DenseLayer.dweights call.1) ∧
        is_Some (DenseLayer.dbiases call.1) ∧
        is_Some (DenseLayer.dinputs call.1)) ∧
     (call.2 ≠ Py.Ok () →
        DenseLayer.dinputs call.1 = DenseLayer.dinputs self) ∧
     DenseLayer.inputs call.1 = DenseLayer.inputs self ∧
     DenseLayer.output call.1 = DenseLayer.output self) ∧
  (∀ (self : ReshapeLayer.t R) x,
     let call := ReshapeLayer.forward x self in
     (call.2 = Py.Ok () → is_Some (ReshapeLayer.output call.1)) ∧
     (call.2 ≠ Py.Ok () → call.1 = self)) ∧
  (∀ (self : ReshapeLayer.t R) delta,
     let call := ReshapeLayer.backward delta self in
     (call.2 = Py.Ok () → is_Some (ReshapeLayer.dinputs call.1)) ∧
     (call.2 ≠ Py.Ok () → call.1 = self)) ∧
  (∀ (self : ConvolutionalLayer.t R) x,
     let call := ConvolutionalLayer.forward x self in
     (call.2 = Py.Ok () →
        ConvolutionalLayer.inputs call.1 = Some x ∧
        is_Some (ConvolutionalLayer.output call.1)) ∧
     (call.2 ≠ Py.Ok () →
        call.1 = self ∨ ConvolutionalLayer.inputs call.1 = Some x) ∧
     ConvolutionalLayer.same_gradients self call.1) ∧
  (∀ dilate pad_to_shape (self : ConvolutionalLayer.t R) delta,
     let call := ConvolutionalLayer.backward dilate pad_to_shape delta self in
     (call.2 = Py.Ok () →
        is_Some (ConvolutionalLayer.dkernels call.1) ∧
        is_Some (ConvolutionalLayer.dbiases call.1) ∧
        is_Some (ConvolutionalLayer.dinputs call.1)) ∧
     ConvolutionalLayer.same_forward_record self call.1).
Proof.
  repeat apply conj.
  - intros self x.
    unfold DenseLayer.forward, Py.mbind, Py.eval, Py.assign. simpl.
    destruct (Py.bind _ _) as [out| |]; simpl; split; done.
  - intros self delta.
    unfold DenseLayer.backward, Py.mbind, Py.eval, Py.assign, Py.getattr.
    simpl. destruct (DenseLayer.inputs self) as [x|] eqn:Hx; simpl;
      [|by repeat split].
    destruct (Py.bind (Np.transpose x) _) as [dw| |]; simpl;
      [|by repeat split..].
    destruct (Np.sum_axis0 delta) as [db| |]; simpl; [|by repeat split..].
    destruct (Py.bind _ _) as [di| |]; simpl; [|by repeat split..].
    repeat split; try done; by eexists.
  - intros self x.
    unfold ReshapeLayer.forward, Py.mbind, Py.eval, Py.assign. simpl.
    destruct (Np.shape0 x) as [n| |]; simpl; [|done..].
    destruct (Np.reshape _ _) as [out| |]; simpl; [|done..].
    split; [|done]. intros _. by eexists.
  - intros self delta.
    unfold ReshapeLayer.backward, Py.mbind, Py.eval, Py.assign. simpl.
    destruct (Np.shape0 delta) as [n| |]; simpl; [|done..].
    destruct (Py.bind _ _) as [di| |]; simpl; [|done..].
    split; [|done]. intros _. by eexists.
  - intros self x call. split; [|split].
    + intros Hok. by destruct (conv_forward_ok self x Hok) as (?&?&_).
    + apply conv_forward_failed.
    + apply conv_forward_gradients.
  - intros dilate pad self delta call. split.
    + apply conv_backward_ok.
    + apply conv_backward_forward_record.
Qed.

Lemma C6_no_rollback_witness :
  (DenseLayer.forward wide_inputs dense_example).1
  = DenseLayer.set_inputs (Some wide_inputs) dense_example ∧
  is_Some (DenseLayer.output
             (DenseLayer.forward (Np.mk [1; 2] [2; 3]%Z) dense_example).1).
Proof.
  pose proof (@C6_no_rollback Z _) as (Hforward & _).
  split.
  - apply (Hforward dense_example wide_inputs). vm_compute. discriminate.
  - apply (Hforward dense_example (Np.mk [1; 2] [2; 3]%Z)). reflexivity.
Defined.

(** ** The kernel gradient for a stride above one *)

Section KernelGradient.
Context {R : Type} `{!Scalar R}.
Local Abbreviation ndarray := (Np.ndarray R).

(** The comparison of line 187 has a tuple on its left and an int on its
    right: it is false, whatever the shapes. *)
Lemma shape_tuple_ne_int (a : ndarray) (z : Z) :
  Py.eqb (Np.shape_tuple a) (Py.Int z) = false.
Proof. reflexivity. Qed.

(** Hence the kernel gradient always goes through [pad_to_shape]. *)
Lemma kernel_gradient_pads pad_to_shape (x delta_dilated : ndarray)
    (input_shape kernel_shape : nat) :
  let target := (Z.of_nat input_shape - Z.of_nat kernel_shape + 1)%Z in
  ConvolutionalLayer.kernel_gradient pad_to_shape x delta_dilated
    input_shape kernel_shape
  = Py.bind (pad_to_shape delta_dilated [target; target])
      (Signal.correlate2d_valid x).
Proof.
  unfold ConvolutionalLayer.kernel_gradient.
  by rewrite shape_tuple_ne_int.
Qed.

End KernelGradient.

(** C1, the code at a failing input: a 5 by 5 input, a 3 by 3 kernel,
    stride 2 and a 2 by 2 upstream gradient. The dilated gradient is 3 by 3,
    which is [input_size - kernel_size + 1] on both axes, and correlating the
    input with it directly would succeed. Yet line 187 compares the shape
    tuple with an int, the comparison is false, and the layer calls
    [pad_to_shape] with the target [(3, 3)]: for every implementation of the
    helper the kernel gradient is the correlation with what the helper
    returns, and with a helper that refuses every call [backward] raises.
    On a 5 by 7 input the dilated gradient, 3 by 5, again has the needed
    size on each axis and the direct correlation would give the 3 by 3
    kernel gradient; the layer asks the helper of the spec to pad it to
    [(3, 3)] and [backward] raises. *)
Theorem C1_matching_shape_is_padded :
  let x := ones [1; 1; 5; 5] in
  let delta := ones [1; 1; 2; 2] in
  (∃ x00 d00 dd direct,
    Np.getitem2 x 0 0 = Py.Ok x00 ∧
    Np.getitem2 delta 0 0 = Py.Ok d00 ∧
    Helpers.dilate d00 2 = Py.Ok dd ∧
    Np.shape dd = [3; 3] ∧ (5 - 3 + 1 = 3)%Z ∧
    Signal.correlate2d_valid x00 dd = Py.Ok direct ∧
    Py.eqb (Np.shape_tuple dd) (Py.Int (5 - 3 + 1)) = false ∧
    (∀ pad_to_shape,
       ConvolutionalLayer.kernel_gradient pad_to_shape x00 dd 5 3
       = Py.bind (pad_to_shape dd [3; 3]%Z) (Signal.correlate2d_valid x00)) ∧
    (ConvolutionalLayer.forward x conv_example5).2 = Py.Ok () ∧
    (ConvolutionalLayer.backward Helpers.dilate refusing_pad delta
       (ConvolutionalLayer.forward x conv_example5).1).2
    = Py.Raise Py.ShapeError) ∧
  let x := ones [1; 1; 5; 7] in
  let delta := ones [1; 1; 2; 3] in
  (∃ x00 d00 dd direct,
    Np.getitem2 x 0 0 = Py.Ok x00 ∧
    Np.getitem2 delta 0 0 = Py.Ok d00 ∧
    Helpers.dilate d00 2 = Py.Ok dd ∧
    Np.shape dd = [3; 5] ∧ (5 - 3 + 1 = 3)%Z ∧ (7 - 3 + 1 = 5)%Z ∧
    Signal.correlate2d_valid x00 dd = Py.Ok direct ∧
    Np.shape direct = [3; 3] ∧
    (ConvolutionalLayer.forward x conv_example57).2 = Py.Ok () ∧
    (ConvolutionalLayer.backward Helpers.dilate Helpers.pad_to_shape delta
       (ConvolutionalLayer.forward x conv_example57).1).2
    = Py.Raise Py.ShapeError).
Proof.
  intros x delta. split.
  - eexists _, _, _, _.
    split; [reflexivity|]. split; [reflexivity|].
    split; [vm_compute; reflexivity|].
    split; [reflexivity|]. split; [reflexivity|].
    split; [vm_compute; reflexivity|].
    split; [reflexivity|].
    split; [intros pad; apply kernel_gradient_pads|].
    split; vm_compute; reflexivity.
  - intros x' delta'. eexists _, _, _, _.
    split; [reflexivity|]. split; [reflexivity|].
    split; [vm_compute; reflexivity|].
    split; [reflexivity|]. split; [reflexivity|]. split; [reflexivity|].
    split; [vm_compute; reflexivity|].
    split; [reflexivity|].
    split; vm_compute; reflexivity.
Qed.

(** ** The forward pass of a ConvolutionalLayer *)

Section ConvForward.
Context {R : Type} `{!Scalar R}.
Local Abbreviation ndarray := (Np.ndarray R).

Lemma output_size_nat (h k st : nat) :
  1 ≤ st → k ≤ h →
  ConvolutionalLayer.output_size (Z.of_nat h) (Z.of_nat k) (Z.of_nat st)
  = Z.of_nat ((h - k) `div` st + 1).
Proof.
  intros Hst Hk. unfold ConvolutionalLayer.output_size.
  rewrite Nat2Z.inj_add, Nat2Z.inj_div, Nat2Z.inj_sub by done. done.
Qed.

Lemma strided_index_bound (h k st y : nat) :
  1 ≤ st → k ≤ h → y < (h - k) `div` st + 1 → y * st ≤ h - k.
Proof.
  intros Hst Hk Hy.
  pose proof (Nat.Div0.mul_div_le (h - k) st). nia.
Qed.

(** The state at the head of the loops: a layer holding inputs [x] of shape
    [[n; ic; H; W]], kernels of shape [[oc; ic; K; K]] and a stride
    [st >= 1], the kernel fitting the input. *)
Variables (self0 : ConvolutionalLayer.t R) (x : ndarray).
Variables (n ic oc K st H W : nat).
Hypothesis Hstride : ConvolutionalLayer.stride self0 = Z.of_nat st.
Hypothesis Hic : ConvolutionalLayer.input_channels self0 = Z.of_nat ic.
Hypothesis Hoc : ConvolutionalLayer.output_channels self0 = Z.of_nat oc.
Hypothesis Hkernels :
  Np.shape (ConvolutionalLayer.kernels self0) = [oc; ic; K; K].
Hypothesis Hkernels_wf : Np.wf (ConvolutionalLayer.kernels self0).
Hypothesis Hinputs : ConvolutionalLayer.inputs self0 = Some x.
Hypothesis Hx : Np.shape x = [n; ic; H; W].
Hypothesis Hx_wf : Np.wf x.
Hypothesis Hst : 1 ≤ st.
Hypothesis HK : 1 ≤ K.
Hypothesis HKH : K ≤ H.
Hypothesis HKW : K ≤ W.

Let oh := (H - K) `div` st + 1.
Let ow := (W - K) `div` st + 1.
Let corr := ConvolutionalLayer.correlation_cell x
              (ConvolutionalLayer.kernels self0) K st.

Lemma output_cells_ext s cell cell' :
  (∀ i j y x', i < n → j < oc → y < oh → x' < ow →
     cell i j y x' = cell' i j y x') →
  ConvolutionalLayer.output_cells s n oc oh ow cell →
  ConvolutionalLayer.output_cells s n oc oh ow cell'.
Proof.
  intros Hext (out & Hout & Hsh & Hwf & Hcells).
  exists out. repeat split; try done.
  intros i j y x' ????. rewrite Hcells by done. by apply Hext.
Qed.

(** One execution of line 140 adds to the cells of [output[i, j]] the
    contribution of input channel [k], and touches nothing else. *)
Lemma forward_step_cells s cell i j k :
  ConvolutionalLayer.same_shapes self0 s →
  ConvolutionalLayer.output_cells s n oc oh ow cell →
  i < n → j < oc → k < ic →
  ∃ s', ConvolutionalLayer.forward_step i j k s = (s', Py.Ok ()) ∧
        ConvolutionalLayer.same_shapes self0 s' ∧
        ConvolutionalLayer.output_cells s' n oc oh ow (λ i' j' y x',
          if decide (i' = i ∧ j' = j)
          then radd (cell i j y x') (corr i j k y x')
          else cell i' j' y x').
Proof.
  intros Hsame (out & Hout & Hsh & Hwf & Hcells) Hi Hj Hk.
  pose proof Hsame as (Hs1 & Hs2 & Hs3 & Hs4 & Hs5 & Hs6 & Hs7 & Hs8 & Hs9 & Hs10).
  destruct (NpFacts.getitem2_get4 out n oc oh ow i j)
    as (v & Hv & Hvs & Hvwf & Hvget); [done..|].
  destruct (NpFacts.getitem2_get4 x n ic H W i k)
    as (xk & Hxk & Hxks & Hxkwf & Hxkget); [done..|].
  destruct (NpFacts.getitem2_get4 (ConvolutionalLayer.kernels self0)
              oc ic K K j k)
    as (wk & Hwk & Hwks & Hwkwf & Hwkget); [done..|].
  set (c := Signal.xcorr xk wk H W K K).
  set (t := Np.tabulate2 oh ow (λ y x', Np.get2 c (y * st) (x' * st))).
  assert (Np.slice2 c (Z.of_nat st) = Py.Ok t) as Hslice.
  { rewrite (NpFacts.slice2_positive c (H - K + 1) (W - K + 1) st)
      by done.
    by rewrite !NpFacts.slice_len_valid by done. }
  destruct (NpFacts.get2_iadd v t oh ow)
    as (v' & Hv' & Hv's & Hv'wf & Hv'get);
    [done|apply NpFacts.tabulate2_wf|done|done|].
  destruct (NpFacts.setitem2_get4 out n oc oh ow i j v')
    as (Hset_wf & Hset_get); [done..|].
  exists (ConvolutionalLayer.set_output (Some (Np.setitem2 out i j v')) s).
  split; [|split].
  - unfold ConvolutionalLayer.forward_step, Py.modify. rewrite Hout.
    unfold Np.iadd_at2. rewrite Hv. simpl.
    unfold ConvolutionalLayer.inputs_at. rewrite Hs6, Hinputs, Hxk. simpl.
    rewrite Hs4, Hwk. simpl.
    rewrite (NpFacts.correlate2d_valid_ok xk wk H W K K) by done. simpl.
    fold c. rewrite Hs1, Hstride, Hslice. simpl. by rewrite Hv'.
  - unfold ConvolutionalLayer.same_shapes in *. simpl.
    repeat split; try done.
    rewrite <- Hs7, Hout. simpl. by rewrite NpFacts.setitem2_shape.
  - exists (Np.setitem2 out i j v'). split; [done|].
    split; [by rewrite NpFacts.setitem2_shape|]. split; [done|].
    intros i' j' y x' Hi' Hj' Hy Hx'. rewrite Hset_get by done.
    case_decide as Hij; [|by apply Hcells].
    rewrite Hv'get, Hvget, Hcells by done. f_equal.
    unfold t. rewrite NpFacts.get2_tabulate2 by done.
    pose proof (strided_index_bound H K st y Hst HKH Hy).
    pose proof (strided_index_bound W K st x' Hst HKW Hx').
    unfold c, Signal.xcorr. rewrite NpFacts.get2_tabulate2 by lia.
    unfold corr, ConvolutionalLayer.correlation_cell.
    f_equal. apply NpFacts.fmap_seq_ext. intros u Hu.
    f_equal. apply NpFacts.fmap_seq_ext. intros w Hw.
    rewrite Hxkget, Hwkget by lia. done.
Qed.

(** The cells after [c i j] input channels have been added to
    [output[i, j]], starting from the biases. *)
Let acc (c : nat → nat → nat) (i j y x' : nat) : R :=
  foldl (λ a k, radd a (corr i j k y x'))
    (Np.get3 (ConvolutionalLayer.biases self0) j y x') (seq 0 (c i j)).

(** The loop over the input channels, for one sample and one output
    channel. *)
Lemma forward_channels s c i j :
  ConvolutionalLayer.same_shapes self0 s →
  ConvolutionalLayer.output_cells s n oc oh ow (acc c) →
  c i j = 0 → i < n → j < oc →
  ∃ s', Py.for_range ConvolutionalLayer.input_channels
          (λ k, ConvolutionalLayer.forward_step i j k) s = (s', Py.Ok ()) ∧
        ConvolutionalLayer.same_shapes self0 s' ∧
        ConvolutionalLayer.output_cells s' n oc oh ow
          (acc (λ i' j', if decide (i' = i ∧ j' = j) then ic else c i' j')).
Proof.
  intros Hsame Hcells Hc Hi Hj.
  pose proof Hsame as (_ & Hs2 & _).
  unfold Py.for_range, Py.range. rewrite Hs2, Hic, Nat2Z.id.
  pose (I := λ (t : nat) (s : ConvolutionalLayer.t R),
    ConvolutionalLayer.same_shapes self0 s ∧
    ConvolutionalLayer.output_cells s n oc oh ow
      (acc (λ i' j', if decide (i' = i ∧ j' = j) then t else c i' j'))).
  apply (PyFacts.for_seq_inv I); unfold I.
  - split; [done|]. revert Hcells. apply output_cells_ext.
    intros i' j' y x' _ _ _ _. unfold acc.
    case_decide as Hij; [|done]. destruct Hij as [-> ->]. by rewrite Hc.
  - intros t s1 Ht [Hsame1 Hcells1].
    destruct (forward_step_cells s1 _ i j t Hsame1 Hcells1)
      as (s2 & Hs & Hsame2 & Hcells2); [done..|].
    exists s2. split; [done|]. split; [done|].
    revert Hcells2. apply output_cells_ext.
    intros i' j' y x' _ _ _ _. unfold acc.
    case_decide as Hij; [|done].
    rewrite !decide_True by done. destruct Hij as [-> ->].
    by rewrite seq_S, foldl_snoc.
Qed.

(** The loop over the output channels, for one sample. *)
Lemma forward_output_channels s c i :
  ConvolutionalLayer.same_shapes self0 s →
  ConvolutionalLayer.output_cells s n oc oh ow (acc c) →
  (∀ j, c i j = 0) → i < n →
  ∃ s', Py.for_range ConvolutionalLayer.output_channels (λ j,
          Py.for_range ConvolutionalLayer.input_channels
            (λ k, ConvolutionalLayer.forward_step i j k)) s
        = (s', Py.Ok ()) ∧
        ConvolutionalLayer.same_shapes self0 s' ∧
        ConvolutionalLayer.output_cells s' n oc oh ow
          (acc (λ i' j', if decide (i' = i ∧ j' < oc) then ic else c i' j')).
Proof.
  intros Hsame Hcells Hc Hi.
  pose proof Hsame as (_ & _ & Hs3 & _).
  unfold Py.for_range at 1. unfold Py.range. rewrite Hs3, Hoc, Nat2Z.id.
  pose (I := λ (t : nat) (s : ConvolutionalLayer.t R),
    ConvolutionalLayer.same_shapes self0 s ∧
    ConvolutionalLayer.output_cells s n oc oh ow
      (acc (λ i' j', if decide (i' = i ∧ j' < t) then ic else c i' j'))).
  apply (PyFacts.for_seq_inv I); unfold I.
  - split; [done|]. revert Hcells. apply output_cells_ext.
    intros i' j' y x' _ _ _ _. unfold acc.
    by rewrite decide_False by lia.
  - intros t s1 Ht [Hsame1 Hcells1].
    destruct (forward_channels s1 _ i t Hsame1 Hcells1)
      as (s2 & Hs & Hsame2 & Hcells2); [|done..|].
    { rewrite decide_False by lia. apply Hc. }
    exists s2. split; [done|]. split; [done|].
    revert Hcells2. apply output_cells_ext.
    intros i' j' y x' _ _ _ _. unfold acc.
    repeat case_decide; try done; lia.
Qed.

(** The loop over the samples. *)
Lemma forward_samples s :
  ConvolutionalLayer.same_shapes self0 s →
  ConvolutionalLayer.output_cells s n oc oh ow (acc (λ _ _, 0)) →
  ∃ s', Py.for_ (seq 0 n) (λ i,
          Py.for_range ConvolutionalLayer.output_channels (λ j,
            Py.for_range ConvolutionalLayer.input_channels
              (λ k, ConvolutionalLayer.forward_step i j k))) s
        = (s', Py.Ok ()) ∧
        ConvolutionalLayer.same_shapes self0 s' ∧
        ConvolutionalLayer.output_cells s' n oc oh ow (acc (λ _ _, ic)).
Proof.
  intros Hsame Hcells.
  pose (I := λ (t : nat) (s : ConvolutionalLayer.t R),
    ConvolutionalLayer.same_shapes self0 s ∧
    ConvolutionalLayer.output_cells s n oc oh ow
      (acc (λ i' _, if decide (i' < t) then ic else 0))).
  destruct (PyFacts.for_seq_inv I n
    (λ i, Py.for_range ConvolutionalLayer.output_channels (λ j,
            Py.for_range ConvolutionalLayer.input_channels
              (λ k, ConvolutionalLayer.forward_step i j k))) s)
    as (s' & Hs' & Hsame' & Hcells').
  - split; [done|]. revert Hcells. apply output_cells_ext.
    intros i' j' y x' _ _ _ _. unfold acc.
    by rewrite decide_False by lia.
  - intros t s1 Ht [Hsame1 Hcells1].
    destruct (forward_output_channels s1 _ t Hsame1 Hcells1)
      as (s2 & Hs & Hsame2 & Hcells2); [|done|].
    { intros j. by rewrite decide_False by lia. }
    exists s2. split; [done|]. split; [done|].
    revert Hcells2. apply output_cells_ext.
    intros i' j' y x' _ Hj' _ _. unfold acc.
    repeat case_decide; try done; lia.
  - exists s'. split; [done|]. split; [done|].
    revert Hcells'. apply output_cells_ext.
    intros i' j' y x' Hi' _ _ _. unfold acc.
    by rewrite decide_True by done.
Qed.


End ConvForward.

(** C2. A [ConvolutionalLayer] set up for inputs of [ic] channels of [H] by
    [W] (kernel fitting the input, stride at least one), on a batch [x] of
    shape [[n; ic; H; W]]: [forward] completes, stores [x], and stores an
    output of shape [[n; oc; output_height; output_width]] with
    [output_height = floor((H - K) / stride) + 1] and the same for the width,
    whose cell [(i, j, y, x)] is the bias of the cell plus the sum over the
    input channels [k] of the valid cross-correlation of [x[i, k]] with
    [kernels[j, k]] at row [y * stride] and column [x * stride]. *)
Theorem C2_forward_output {R : Type} `{!Scalar R}
    (self : ConvolutionalLayer.t R) (x : Np.ndarray R)
    (n ic oc K st H W : nat) :
  ConvolutionalLayer.configured self ic oc K st H W →
  Np.shape x = [n; ic; H; W] →
  Np.wf x →
  let output_height :=
    ConvolutionalLayer.output_size (Z.of_nat H) (Z.of_nat K) (Z.of_nat st) in
  let output_width :=
    ConvolutionalLayer.output_size (Z.of_nat W) (Z.of_nat K) (Z.of_nat st) in
  ∃ self' out,
    ConvolutionalLayer.forward x self = (self', Py.Ok ()) ∧
    ConvolutionalLayer.inputs self' = Some x ∧
    ConvolutionalLayer.output self' = Some out ∧
    Np.shape_tuple out
    = Py.Tuple [Z.of_nat n; Z.of_nat oc; output_height; output_width] ∧
    ∀ i j y x', i < n → j < oc →
      (Z.of_nat y < output_height)%Z → (Z.of_nat x' < output_width)%Z →
      Np.get4 out i j y x' = ConvolutionalLayer.forward_cell self x i j y x'.
Proof.
  intros (Hic & Hoc & HK & Hst & Hos & Hks & Hkwf & Hbs & Hbwf
          & Hst1 & HK1 & HKH & HKW) Hx Hxwf oh ow.
  subst oh ow. rewrite !output_size_nat in * by done.
  set (oh := (H - K) `div` st + 1) in *.
  set (ow := (W - K) `div` st + 1) in *.
  rewrite Hos in Hbs. simpl in Hbs. rewrite !Nat2Z.id in Hbs.
  (* the head of [forward]: the inputs are stored, the output allocated *)
  unfold ConvolutionalLayer.forward, Py.mbind, Py.eval, Py.assign, Np.shape0.
  rewrite Hx. simpl. rewrite Hos.
  change (Z.of_nat n :: [Z.of_nat oc; Z.of_nat oh; Z.of_nat ow])
    with (Z.of_nat <$> [n; oc; oh; ow]).
  unfold Np.zeros.
  rewrite NpFacts.forallb_leb_of_nat, NpFacts.to_nat_of_nat_list by lia.
  (* the biases are added *)
  destruct (NpFacts.iadd_zeros_biases (ConvolutionalLayer.biases self)
              n oc oh ow Hbwf Hbs) as (out1 & Hout1 & Hs1 & Hwf1 & Hcells1).
  unfold ConvolutionalLayer.forward_accumulate, Py.mbind, Py.modify. simpl.
  rewrite Hout1.
  (* the loops *)
  match goal with
  | |- context [Py.for_ (seq 0 n) ?body ?s] =>
      destruct (forward_samples s x n ic oc K st H W Hst Hic Hoc Hks Hkwf
                  eq_refl Hx Hxwf Hst1 HK1 HKH HKW s)
        as (s' & Hs' & Hsame & Hc)
  end.
  { reflexivity. }
  { by exists out1. }
  rewrite Hs'.
  destruct Hsame as (_ & _ & _ & _ & _ & Hin & _).
  destruct Hc as (out & Hout & Hsh & _ & Hcells).
  exists s', out. split; [done|]. split; [by rewrite Hin|].
  split; [done|]. split.
  { unfold Np.shape_tuple. by rewrite Hsh. }
  intros i j y x' Hi Hj Hy Hx'. rewrite Hcells by lia.
  rewrite NpFacts.foldl_radd_rsum. simpl.
  unfold ConvolutionalLayer.forward_cell.
  by rewrite HK, Hst, Hic, !Nat2Z.id.
Qed.

Lemma C2_forward_output_witness :
  ∃ self' out,
    ConvolutionalLayer.forward (ones [1; 1; 3; 3]) (conv_example 2)
    = (self', Py.Ok ()) ∧
    ConvolutionalLayer.inputs self' = Some (ones [1; 1; 3; 3]) ∧
    ConvolutionalLayer.output self' = Some out ∧
    Np.shape_tuple out = Py.Tuple [1; 1; 1; 1]%Z ∧
    ∀ i j y x', i < 1 → j < 1 →
      (Z.of_nat y < 1)%Z → (Z.of_nat x' < 1)%Z →
      Np.get4 out i j y x'
      = ConvolutionalLayer.forward_cell (conv_example 2)
          (ones [1; 1; 3; 3]) i j y x'.
Proof.
  apply (C2_forward_output (conv_example 2) (ones [1; 1; 3; 3])
           1 1 1 2 2 3 3).
  - unfold ConvolutionalLayer.configured. simpl.
    repeat split; try reflexivity; lia.
  - reflexivity.
  - reflexivity.
Defined.

(** The scenarios of the spec, evaluated: on a 3 by 3 input of ones with a
    2 by 2 kernel of ones and zero biases, every output cell is 4, four of
    them for stride 1 and a single one for stride 2. *)
Example conv_scenario :
  ConvolutionalLayer.output
    (ConvolutionalLayer.forward (ones [1; 1; 3; 3]) (conv_example 1)).1
  = Some (Np.mk [1; 1; 2; 2] [4; 4; 4; 4]%Z) ∧
  ConvolutionalLayer.output
    (ConvolutionalLayer.forward (ones [1; 1; 3; 3]) (conv_example 2)).1
  = Some (Np.mk [1; 1; 1; 1] [4]%Z).
Proof. split; vm_compute; reflexivity. Qed.

(** The constructor sets a layer up as [configured] asks. *)
Lemma init_configured {R : Type} `{!Scalar R} (g g' : Np.rng R)
    (self : ConvolutionalLayer.t R) (ic oc K st H W : nat) :
  1 ≤ st → 1 ≤ K → K ≤ H → K ≤ W →
  ConvolutionalLayer.__init__ [Z.of_nat ic; Z.of_nat H; Z.of_nat W]
    (Z.of_nat oc) (Z.of_nat K) (Z.of_nat st) g = Py.Ok (self, g') →
  ConvolutionalLayer.configured self ic oc K st H W.
Proof.
  intros Hst HK HKH HKW. unfold ConvolutionalLayer.__init__.
  rewrite decide_False by lia.
  rewrite !output_size_nat by done.
  unfold Np.randn.
  change [Z.of_nat oc; Z.of_nat ic; Z.of_nat K; Z.of_nat K]
    with (Z.of_nat <$> [oc; ic; K; K]).
  change [Z.of_nat oc; Z.of_nat ((H - K) `div` st + 1);
          Z.of_nat ((W - K) `div` st + 1)]
    with (Z.of_nat <$> [oc; (H - K) `div` st + 1; (W - K) `div` st + 1]).
  rewrite !NpFacts.forallb_leb_of_nat, !NpFacts.to_nat_of_nat_list by lia.
  simpl. intros [= <- _].
  unfold ConvolutionalLayer.configured. simpl.
  rewrite !output_size_nat, !Nat2Z.id by done.
  repeat split; try done.
  - unfold Np.wf. simpl. by rewrite length_fmap, length_seq.
  - unfold Np.wf. simpl. by rewrite length_fmap, length_seq.
Qed.

(** ** The helpers at stride one *)

Section HelpersProps.
Context {R : Type} `{!Scalar R}.
Local Abbreviation ndarray := (Np.ndarray R).



End HelpersProps.

(** ** The general path at stride one *)

Section ConvStrideOne.
Context {R : Type} `{!Scalar R}.
Local Abbreviation ndarray := (Np.ndarray R).

(** A stride-one layer in the loops of [backward], on square inputs: [x] has
    shape [[n; ic; H; H]], the kernels [[oc; ic; K; K]] and the upstream
    gradient [[n; oc; H - K + 1; H - K + 1]]. *)
Variables (x delta : ndarray) (n ic oc K H : nat).
Hypothesis Hx : Np.shape x = [n; ic; H; H].
Hypothesis Hdelta : Np.shape delta = [n; oc; H - K + 1; H - K + 1].
Hypothesis Hdelta_wf : Np.wf delta.
Hypothesis HK : 1 ≤ K.
Hypothesis HKH : K ≤ H.


End ConvStrideOne.

Section BackwardLoops.
Context {R : Type} `{!Scalar R}.
Local Abbreviation ndarray := (Np.ndarray R).



End BackwardLoops.


Section ConvStrideOneBackward.
Context {R : Type} `{!Scalar R}.
Local Abbreviation ndarray := (Np.ndarray R).





End ConvStrideOneBackward.


(** The stride-one scenario evaluated on both paths: the same gradients. *)
Example stride_one_scenario :
  let x := ones [1; 1; 3; 3] in
  let delta := ones [1; 1; 2; 2] in
  let self := (ConvolutionalLayer.forward x (conv_example 1)).1 in
  let direct := (ConvolutionalLayer.backward Helpers.dilate
                   Helpers.pad_to_shape delta self).1 in
  let general := (ConvolutionalLayer.backward_general Helpers.dilate
                    Helpers.pad_to_shape delta self).1 in
  ConvolutionalLayer.dkernels direct
  = Some (Np.mk [1; 1; 2; 2] [4; 4; 4; 4]%Z) ∧
  ConvolutionalLayer.dinputs direct
  = Some (Np.mk [1; 1; 3; 3] [1; 2; 1; 2; 4; 2; 1; 2; 1]%Z) ∧
  ConvolutionalLayer.dkernels general = ConvolutionalLayer.dkernels direct ∧
  ConvolutionalLayer.dinputs general = ConvolutionalLayer.dinputs direct.
Proof. vm_compute. repeat split; reflexivity. Qed.

(** * Further properties of the layers *)

(** ** DenseLayer: the forward pass and the failures of both passes *)

(** [np.dot(x, w) + b] for a matrix [x], a matrix [w] and a vector [b] of
    matching shapes, element by element. *)
Lemma dot_add_get2 {R : Type} `{!Scalar R} (x w b : Np.ndarray R)
    (batch n m : nat) :
  Np.shape x = [batch; n] → Np.shape w = [n; m] →
  Np.shape b = [m] → Np.wf b →
  ∃ out,
    (let! p := Np.dot x w in Np.add p b) = Py.Ok out ∧
    Np.shape out = [batch; m] ∧
    ∀ r j, r < batch → j < m →
      Np.get2 out r j
      = radd (Np.rsum ((λ i, rmul (Np.get2 x r i) (Np.get2 w i j))
                       <$> seq 0 n))
             (Np.get1 b j).
Proof.
  intros Hx Hw Hb Hwfb.
  rewrite (NpFacts.dot_matrix x w batch n m) by done. simpl.
  rewrite (NpFacts.add_matrix_vector _ _ batch m);
    [|apply NpFacts.tabulate2_wf|done..].
  eexists. split; [done|]. split; [done|].
  intros r j Hr Hj. unfold Np.get2, Np.get1. simpl.
  assert (length (Np.data b) = m) as Hlen.
  { unfold Np.wf in Hwfb. rewrite Hb in Hwfb. simpl in Hwfb. lia. }
  rewrite lookup_zip_with.
  rewrite list_lookup_fmap, lookup_seq_lt by nia. simpl.
  destruct (NpFacts.divmod_row m r j Hj) as [-> ->].
  rewrite <- Hlen at 1.
  rewrite NpFacts.lookup_concat_replicate by lia.
  destruct (lookup_lt_is_Some_2 (Np.data b) j) as [v ->]; [lia|].
  simpl. by rewrite Hx, Hw.
Qed.

(** X1. [DenseLayer.forward] (lines 49-51) on inputs [[batch; n_inputs]], for
    every batch size: it completes, stores the inputs and an output of shape
    [[batch; n_neurons]] whose element [(b, j)] is the sum over the inputs of
    [inputs[b, i] * weights[i, j]], plus [biases[j]]. *)
Theorem dense_forward_output {R : Type} `{!Scalar R}
    (self : DenseLayer.t R) (x : Np.ndarray R)
    (batch n_inputs n_neurons : nat) :
  Np.shape (DenseLayer.weights self) = [n_inputs; n_neurons] →
  Np.shape (DenseLayer.biases self) = [n_neurons] →
  Np.wf (DenseLayer.biases self) →
  Np.shape x = [batch; n_inputs] →
  ∃ out,
    DenseLayer.forward x self
    = (DenseLayer.set_output (Some out)
         (DenseLayer.set_inputs (Some x) self), Py.Ok ()) ∧
    Np.shape out = [batch; n_neurons] ∧
    ∀ b j, b < batch → j < n_neurons →
      Np.get2 out b j
      = radd (Np.rsum ((λ i, rmul (Np.get2 x b i)
                               (Np.get2 (DenseLayer.weights self) i j))
                       <$> seq 0 n_inputs))
             (Np.get1 (DenseLayer.biases self) j).
Proof.
  intros Hw Hb Hwfb Hx.
  destruct (dot_add_get2 x (DenseLayer.weights self)
              (DenseLayer.biases self) batch n_inputs n_neurons)
    as (out & Hout & Hsh & Hval); [done..|].
  exists out. split; [|done].
  unfold DenseLayer.forward, Py.mbind, Py.assign, Py.eval. simpl.
  by rewrite Hout.
Qed.

Lemma dense_forward_output_witness :
  ∃ out,
    DenseLayer.forward (Np.mk [1; 2] [2; 3]%Z) dense_example
    = (DenseLayer.set_output (Some out)
         (DenseLayer.set_inputs (Some (Np.mk [1; 2] [2; 3]%Z))
            dense_example), Py.Ok ()) ∧
    Np.shape out = [1; 2] ∧
    ∀ b j, b < 1 → j < 2 →
      Np.get2 out b j
      = radd (Np.rsum ((λ i, rmul (Np.get2 (Np.mk [1; 2] [2; 3]%Z) b i)
                               (Np.get2 (DenseLayer.weights dense_example)
                                  i j))
                       <$> seq 0 2))
             (Np.get1 (DenseLayer.biases dense_example) j).
Proof.
  exact (dense_forward_output dense_example (Np.mk [1; 2] [2; 3]%Z) 1 2 2
           eq_refl eq_refl eq_refl eq_refl).
Defined.

(** X2. [DenseLayer.forward] on a matrix whose number of columns is not the
    number of rows of the weights: [np.dot] raises [ValueError]; by then the
    inputs are stored, and nothing else has changed. *)
Theorem dense_forward_shape_mismatch {R : Type} `{!Scalar R}
    (self : DenseLayer.t R) (x : Np.ndarray R)
    (batch k n_inputs n_neurons : nat) :
  Np.shape (DenseLayer.weights self) = [n_inputs; n_neurons] →
  Np.shape x = [batch; k] →
  k ≠ n_inputs →
  DenseLayer.forward x self
  = (DenseLayer.set_inputs (Some x) self, Py.Raise Py.ValueError).
Proof.
  intros Hw Hx Hk.
  unfold DenseLayer.forward, Py.mbind, Py.assign, Py.eval, Np.dot. simpl.
  rewrite Hx, Hw. by rewrite decide_False.
Qed.

Lemma dense_forward_shape_mismatch_witness :
  DenseLayer.forward wide_inputs dense_example
  = (DenseLayer.set_inputs (Some wide_inputs) dense_example,
     Py.Raise Py.ValueError).
Proof.
  apply (dense_forward_shape_mismatch dense_example wide_inputs 1 3 2 2);
    [reflexivity|reflexivity|lia].
Defined.

(** X3. [DenseLayer.backward] (line 66) on a layer that holds no inputs, that
    is before any [forward]: it raises [AttributeError] and changes
    nothing.  (The attributes of a layer are those that [layers.py]
    assigns; the base class [Layer] is taken to add none.) *)
Theorem dense_backward_before_forward {R : Type} `{!Scalar R}
    (self : DenseLayer.t R) (delta : Np.ndarray R) :
  DenseLayer.inputs self = None →
  DenseLayer.backward delta self = (self, Py.Raise Py.AttributeError).
Proof.
  intros Hin.
  unfold DenseLayer.backward, Py.mbind, Py.getattr. by rewrite Hin.
Qed.

Lemma dense_backward_before_forward_witness :
  DenseLayer.backward (Np.mk [1; 2] [1; 1]%Z) dense_example
  = (dense_example, Py.Raise Py.AttributeError).
Proof.
  exact (dense_backward_before_forward dense_example
           (Np.mk [1; 2] [1; 1]%Z) eq_refl).
Defined.

(** X4. [DenseLayer.backward] (line 66) with a [delta] whose batch size is not
    that of the stored inputs: the first product raises [ValueError] and the
    layer is unchanged, whatever gradients it held. *)
Theorem dense_backward_batch_mismatch {R : Type} `{!Scalar R}
    (self : DenseLayer.t R) (x delta : Np.ndarray R)
    (batch batch' n_inputs m : nat) :
  DenseLayer.inputs self = Some x →
  Np.shape x = [batch; n_inputs] →
  Np.shape delta = [batch'; m] →
  batch ≠ batch' →
  DenseLayer.backward delta self = (self, Py.Raise Py.ValueError).
Proof.
  intros Hin Hx Hd Hne.
  unfold DenseLayer.backward, Py.mbind, Py.getattr, Py.eval.
  rewrite Hin. rewrite (NpFacts.transpose_matrix x batch n_inputs Hx).
  simpl. unfold Np.dot. simpl. rewrite Hd. by rewrite decide_False.
Qed.

Lemma dense_backward_batch_mismatch_witness :
  let self1 := (DenseLayer.forward (Np.mk [1; 2] [2; 3]%Z) dense_example).1 in
  DenseLayer.backward (Np.mk [2; 2] [1; 1; 1; 1]%Z) self1
  = (self1, Py.Raise Py.ValueError).
Proof.
  intros self1.
  refine (dense_backward_batch_mismatch self1 (Np.mk [1; 2] [2; 3]%Z)
            (Np.mk [2; 2] [1; 1; 1; 1]%Z) 1 2 2 2 eq_refl eq_refl eq_refl _).
  lia.
Defined.

(** X5. [DenseLayer.backward] (lines 66-68) with a [delta] of the right batch
    size but [m] columns, for a layer of [n_neurons <> m] neurons: only the
    third statement raises [ValueError].  By then [dweights] and [dbiases]
    are assigned, with the shapes [[n_inputs; m]] and [[m]] that fit [delta]
    and not the parameters, and [dinputs] is as before. *)
Theorem dense_backward_partial_update {R : Type} `{!Scalar R}
    (self : DenseLayer.t R) (x delta : Np.ndarray R)
    (batch n_inputs n_neurons m : nat) :
  DenseLayer.inputs self = Some x →
  Np.shape x = [batch; n_inputs] →
  Np.shape delta = [batch; m] →
  Np.shape (DenseLayer.weights self) = [n_inputs; n_neurons] →
  m ≠ n_neurons →
  ∃ dw db,
    DenseLayer.backward delta self
    = (DenseLayer.set_dbiases (Some db)
         (DenseLayer.set_dweights (Some dw) self),
       Py.Raise Py.ValueError) ∧
    Np.shape dw = [n_inputs; m] ∧ Np.shape db = [m].
Proof.
  intros Hin Hx Hd Hw Hne.
  unfold DenseLayer.backward, Py.mbind, Py.getattr, Py.eval, Py.assign.
  rewrite Hin. rewrite (NpFacts.transpose_matrix x batch n_inputs Hx).
  simpl.
  rewrite (NpFacts.dot_matrix _ delta n_inputs batch m) by done.
  unfold Np.sum_axis0. rewrite Hd. simpl.
  rewrite (NpFacts.transpose_matrix _ n_inputs n_neurons Hw). simpl.
  unfold Np.dot. rewrite Hd. simpl. rewrite decide_False by done.
  by eexists _, _.
Qed.

Lemma dense_backward_partial_update_witness :
  let self1 := (DenseLayer.forward (Np.mk [1; 2] [2; 3]%Z) dense_example).1 in
  ∃ dw db,
    DenseLayer.backward (Np.mk [1; 3] [1; 1; 1]%Z) self1
    = (DenseLayer.set_dbiases (Some db)
         (DenseLayer.set_dweights (Some dw) self1),
       Py.Raise Py.ValueError) ∧
    Np.shape dw = [2; 3] ∧ Np.shape db = [3].
Proof.
  intros self1.
  refine (dense_backward_partial_update self1 (Np.mk [1; 2] [2; 3]%Z)
            (Np.mk [1; 3] [1; 1; 1]%Z) 1 2 2 3
            eq_refl eq_refl eq_refl eq_refl _).
  lia.
Defined.

(** ** DenseLayer: the constructor *)

(** X6. [DenseLayer.__init__] (lines 31-33) with dimensions that are not
    negative: it returns a layer whose weights have shape
    [[n_inputs; n_neurons]] and are the next [n_inputs * n_neurons] samples
    of the generator in row-major order, each scaled by the constant; whose
    biases are the zero vector of length [n_neurons]; and that holds no
    inputs, output or gradient.  The generator has advanced by exactly the
    number of weights. *)
Theorem dense_init_ok {R : Type} `{!Scalar R}
    (tenth : R) (n_inputs n_neurons : Z) (g : Np.rng R) :
  (0 ≤ n_inputs)%Z → (0 ≤ n_neurons)%Z →
  ∃ self g',
    DenseLayer.__init__ tenth n_inputs n_neurons g = Py.Ok (self, g') ∧
    Np.shape (DenseLayer.weights self)
    = [Z.to_nat n_inputs; Z.to_nat n_neurons] ∧
    Np.wf (DenseLayer.weights self) ∧
    (∀ i j, i < Z.to_nat n_inputs → j < Z.to_nat n_neurons →
       Np.get2 (DenseLayer.weights self) i j
       = rmul tenth
           (Np.sample g (Np.pos g + (i * Z.to_nat n_neurons + j)))) ∧
    DenseLayer.biases self = Np.zeros_like [Z.to_nat n_neurons] ∧
    DenseLayer.inputs self = None ∧ DenseLayer.output self = None ∧
    DenseLayer.dweights self = None ∧ DenseLayer.dbiases self = None ∧
    DenseLayer.dinputs self = None ∧
    Np.sample g' = Np.sample g ∧
    Np.pos g' = Np.pos g + Z.to_nat n_inputs * Z.to_nat n_neurons.
Proof.
  intros Hi Hn.
  unfold DenseLayer.__init__, Np.randn, Np.zeros. simpl.
  rewrite !(proj2 (Z.leb_le _ _)) by done. simpl.
  eexists _, _. split; [done|]. simpl.
  split; [done|].
  split; [unfold Np.wf; simpl; by rewrite !length_fmap, length_seq|].
  split.
  { intros i j Hi' Hj. unfold Np.get2. simpl.
    rewrite !list_lookup_fmap, lookup_seq_lt by nia. done. }
  repeat (split; [done|]). simpl. f_equal. lia.
Qed.

Lemma dense_init_ok_witness :
  ∃ self g',
    DenseLayer.__init__ 1%Z 2 3 counting_rng = Py.Ok (self, g') ∧
    Np.shape (DenseLayer.weights self) = [Z.to_nat 2; Z.to_nat 3] ∧
    Np.wf (DenseLayer.weights self) ∧
    (∀ i j, i < Z.to_nat 2 → j < Z.to_nat 3 →
       Np.get2 (DenseLayer.weights self) i j
       = rmul 1%Z
           (Np.sample counting_rng
              (Np.pos counting_rng + (i * Z.to_nat 3 + j)))) ∧
    DenseLayer.biases self = Np.zeros_like [Z.to_nat 3] ∧
    DenseLayer.inputs self = None ∧ DenseLayer.output self = None ∧
    DenseLayer.dweights self = None ∧ DenseLayer.dbiases self = None ∧
    DenseLayer.dinputs self = None ∧
    Np.sample g' = Np.sample counting_rng ∧
    Np.pos g' = Np.pos counting_rng + Z.to_nat 2 * Z.to_nat 3.
Proof.
  apply (dense_init_ok 1%Z 2 3 counting_rng); lia.
Defined.


(** X8. The first [forward] of a freshly constructed dense layer, on a matrix
    with [n_inputs] columns: it completes, and since the biases are zero the
    output is the plain matrix product of the inputs and the weights. *)
Theorem dense_init_forward {R : Type} `{!Scalar R}
    (tenth : R) (n_inputs n_neurons : Z) (g g' : Np.rng R)
    (self : DenseLayer.t R) (x : Np.ndarray R) (batch : nat) :
  DenseLayer.__init__ tenth n_inputs n_neurons g = Py.Ok (self, g') →
  Np.shape x = [batch; Z.to_nat n_inputs] →
  ∃ out,
    DenseLayer.forward x self
    = (DenseLayer.set_output (Some out)
         (DenseLayer.set_inputs (Some x) self), Py.Ok ()) ∧
    Np.shape out = [batch; Z.to_nat n_neurons] ∧
    ∀ b j, b < batch → j < Z.to_nat n_neurons →
      Np.get2 out b j
      = Np.rsum ((λ i, rmul (Np.get2 x b i)
                         (Np.get2 (DenseLayer.weights self) i j))
                 <$> seq 0 (Z.to_nat n_inputs)).
Proof.
  intros Hinit Hx.
  unfold DenseLayer.__init__, Np.randn, Np.zeros in Hinit. simpl in Hinit.
  destruct (Z.leb_spec 0 n_inputs); [|done].
  destruct (Z.leb_spec 0 n_neurons); [|done].
  simpl in Hinit. injection Hinit as <- <-.
  set (w := Np.scale tenth _).
  destruct (dot_add_get2 x w (Np.zeros_like [Z.to_nat n_neurons]) batch
              (Z.to_nat n_inputs) (Z.to_nat n_neurons))
    as (out & Hout & Hsh & Hval);
    [done|done|done|unfold Np.wf; simpl; rewrite length_replicate; lia|].
  exists out. split; [|split; [done|]].
  - unfold DenseLayer.forward, Py.mbind, Py.assign, Py.eval. simpl.
    fold w. by rewrite Hout.
  - intros b j Hb Hj. rewrite (Hval b j Hb Hj).
    unfold Np.get1, Np.zeros_like, Np.full. simpl.
    rewrite lookup_replicate_2 by lia. simpl. apply radd_0_r.
Qed.

Lemma dense_init_forward_witness :
  ∃ self g',
    DenseLayer.__init__ 1%Z 2 3 counting_rng = Py.Ok (self, g') ∧
    ∃ out,
      DenseLayer.forward (Np.mk [1; 2] [2; 3]%Z) self
      = (DenseLayer.set_output (Some out)
           (DenseLayer.set_inputs (Some (Np.mk [1; 2] [2; 3]%Z)) self),
         Py.Ok ()) ∧
      Np.shape out = [1; Z.to_nat 3] ∧
      ∀ b j, b < 1 → j < Z.to_nat 3 →
        Np.get2 out b j
        = Np.rsum ((λ i, rmul (Np.get2 (Np.mk [1; 2] [2; 3]%Z) b i)
                           (Np.get2 (DenseLayer.weights self) i j))
                   <$> seq 0 (Z.to_nat 2)).
Proof.
  eexists _, _. split; [reflexivity|].
  exact (dense_init_forward 1%Z 2 3 counting_rng _ _
           (Np.mk [1; 2] [2; 3]%Z) 1 eq_refl eq_refl).
Defined.

(** ** ReshapeLayer: what a reshape keeps, and when it fails *)

Section ReshapeMore.
Context {R : Type} `{!Scalar R}.
Local Abbreviation ndarray := (Np.ndarray R).



End ReshapeMore.





(** X11. [ReshapeLayer.forward] on a layer whose [output_shape] is a tuple, the
    kind of value that [input_shape] must be: line 218 nests it in the new
    shape without unpacking it, [np.reshape] raises [TypeError], and the
    layer is unchanged. *)
Theorem reshape_forward_tuple_output_shape {R : Type} `{!Scalar R}
    (self : ReshapeLayer.t R) (x : Np.ndarray R) (l : list Z) :
  ReshapeLayer.output_shape self = Py.Tuple l →
  Np.shape x ≠ [] →
  ReshapeLayer.forward x self = (self, Py.Raise Py.TypeError).
Proof.
  intros Hout Hx.
  unfold ReshapeLayer.forward, Py.mbind, Py.eval, Np.shape0.
  destruct (Np.shape x) as [|batch rest]; [done|]. simpl.
  unfold Np.reshape, Np.as_ints. by rewrite Hout.
Qed.

Lemma reshape_forward_tuple_output_shape_witness :
  ReshapeLayer.forward (ones [2; 1; 2; 2])
    (ReshapeLayer.__init__ (Py.Tuple [1; 2; 2]%Z) (Py.Tuple [4]%Z))
  = (ReshapeLayer.__init__ (Py.Tuple [1; 2; 2]%Z) (Py.Tuple [4]%Z),
     Py.Raise Py.TypeError).
Proof.
  refine (reshape_forward_tuple_output_shape
            (ReshapeLayer.__init__ (Py.Tuple [1; 2; 2]%Z) (Py.Tuple [4]%Z))
            (ones [2; 1; 2; 2]) [4]%Z eq_refl _).
  discriminate.
Defined.

(** X12. [ReshapeLayer.backward] on a layer whose [input_shape] is an int, the
    kind of value that [output_shape] must be: line 223 unpacks it, which
    raises [TypeError], and the layer is unchanged. *)
Theorem reshape_backward_int_input_shape {R : Type} `{!Scalar R}
    (self : ReshapeLayer.t R) (delta : Np.ndarray R) (z : Z) :
  ReshapeLayer.input_shape self = Py.Int z →
  Np.shape delta ≠ [] →
  ReshapeLayer.backward delta self = (self, Py.Raise Py.TypeError).
Proof.
  intros Hin Hd.
  unfold ReshapeLayer.backward, Py.mbind, Py.eval, Np.shape0.
  destruct (Np.shape delta) as [|batch rest]; [done|]. simpl.
  by rewrite Hin.
Qed.

Lemma reshape_backward_int_input_shape_witness :
  ReshapeLayer.backward (ones [2; 4])
    (ReshapeLayer.__init__ (Py.Int 4) (Py.Int 4))
  = (ReshapeLayer.__init__ (Py.Int 4) (Py.Int 4), Py.Raise Py.TypeError).
Proof.
  refine (reshape_backward_int_input_shape
            (ReshapeLayer.__init__ (Py.Int 4) (Py.Int 4))
            (ones [2; 4]) 4 eq_refl _).
  discriminate.
Defined.

(** X13. Both methods of [ReshapeLayer] read [shape[0]] of their argument first
    (lines 217 and 222): on an array without axes they raise [IndexError]
    and leave the layer unchanged, whatever it holds. *)
Theorem reshape_scalar_argument {R : Type} `{!Scalar R}
    (self : ReshapeLayer.t R) (a : Np.ndarray R) :
  Np.shape a = [] →
  ReshapeLayer.forward a self = (self, Py.Raise Py.IndexError) ∧
  ReshapeLayer.backward a self = (self, Py.Raise Py.IndexError).
Proof.
  intros Ha.
  unfold ReshapeLayer.forward, ReshapeLayer.backward, Py.mbind, Py.eval,
    Np.shape0.
  by rewrite Ha.
Qed.

Lemma reshape_scalar_argument_witness :
  ReshapeLayer.forward (Np.mk [] [7%Z])
    (ReshapeLayer.__init__ (Py.Tuple [1; 2; 2]%Z) (Py.Int 4))
  = (ReshapeLayer.__init__ (Py.Tuple [1; 2; 2]%Z) (Py.Int 4),
     Py.Raise Py.IndexError) ∧
  ReshapeLayer.backward (Np.mk [] [7%Z])
    (ReshapeLayer.__init__ (Py.Tuple [1; 2; 2]%Z) (Py.Int 4))
  = (ReshapeLayer.__init__ (Py.Tuple [1; 2; 2]%Z) (Py.Int 4),
     Py.Raise Py.IndexError).
Proof.
  exact (reshape_scalar_argument
           (ReshapeLayer.__init__ (Py.Tuple [1; 2; 2]%Z) (Py.Int 4))
           (Np.mk [] [7%Z]) eq_refl).
Defined.

(** X14. [ReshapeLayer.forward] with [output_shape] an int [m >= 0], on inputs
    of shape [[batch, *dims]]: it completes exactly when
    [batch * m = batch * product(dims)], that is when [m] is the number of
    elements of a sample or the batch is empty; otherwise it raises
    [ValueError] and leaves the layer unchanged.  No comparison with
    [input_shape] is made. *)
Theorem reshape_forward_completes_iff {R : Type} `{!Scalar R}
    (self : ReshapeLayer.t R) (x : Np.ndarray R) (batch m : nat)
    (dims : list nat) :
  ReshapeLayer.output_shape self = Py.Int (Z.of_nat m) →
  Np.shape x = batch :: dims →
  ReshapeLayer.forward x self
  = if decide (batch = 0 ∨ m = Np.size dims)
    then (ReshapeLayer.set_output
            (Some {| Np.shape := [batch; m]; Np.data := Np.data x |}) self,
          Py.Ok ())
    else (self, Py.Raise Py.ValueError).
Proof.
  intros Hout Hx.
  unfold ReshapeLayer.forward, Py.mbind, Py.eval, Py.assign, Np.shape0.
  rewrite Hx, Hout. simpl.
  unfold Np.reshape. simpl.
  rewrite !(proj2 (Z.leb_le _ _)) by lia. simpl.
  rewrite !filter_cons_True by lia. simpl. rewrite !Nat2Z.id.
  destruct (decide (batch = 0 ∨ m = Np.size dims)) as [Hok|Hno].
  - rewrite decide_True; [done|].
    rewrite Hx. simpl. destruct Hok as [->| ->]; lia.
  - rewrite decide_False; [done|].
    rewrite Hx. simpl. nia.
Qed.

Lemma reshape_forward_completes_iff_witness :
  ReshapeLayer.forward (Np.mk [0; 1; 2; 2] [])
    (ReshapeLayer.__init__ (Py.Tuple [1; 2; 2]%Z) (Py.Int 5))
  = (ReshapeLayer.set_output (Some (Np.mk (R := Z) [0; 5] []))
       (ReshapeLayer.__init__ (Py.Tuple [1; 2; 2]%Z) (Py.Int 5)),
     Py.Ok ()) ∧
  ReshapeLayer.forward (ones [2; 1; 2; 2])
    (ReshapeLayer.__init__ (Py.Tuple [1; 2; 2]%Z) (Py.Int 5))
  = (ReshapeLayer.__init__ (Py.Tuple [1; 2; 2]%Z) (Py.Int 5),
     Py.Raise Py.ValueError).
Proof.
  split.
  - exact (reshape_forward_completes_iff
             (ReshapeLayer.__init__ (Py.Tuple [1; 2; 2]%Z) (Py.Int 5))
             (Np.mk [0; 1; 2; 2] []) 0 5 [1; 2; 2] eq_refl eq_refl).
  - exact (reshape_forward_completes_iff
             (ReshapeLayer.__init__ (Py.Tuple [1; 2; 2]%Z) (Py.Int 5))
             (ones [2; 1; 2; 2]) 2 5 [1; 2; 2] eq_refl eq_refl).
Defined.

(** X15. [ReshapeLayer.forward] with [output_shape = -1], on inputs of shape
    [[batch, *dims]]: for a batch that is not empty, [np.reshape] infers the
    number of columns and the output is the flattened batch, of shape
    [[batch, product(dims)]]; on an empty batch the number of columns
    cannot be inferred and the call raises [ValueError]. *)
Theorem reshape_forward_infers_columns {R : Type} `{!Scalar R}
    (self : ReshapeLayer.t R) (x : Np.ndarray R) (batch : nat)
    (dims : list nat) :
  ReshapeLayer.output_shape self = Py.Int (-1) →
  Np.shape x = batch :: dims →
  ReshapeLayer.forward x self
  = if decide (batch = 0) then (self, Py.Raise Py.ValueError)
    else (ReshapeLayer.set_output
            (Some {| Np.shape := [batch; Np.size dims];
                     Np.data := Np.data x |}) self,
          Py.Ok ()).
Proof.
  intros Hout Hx.
  unfold ReshapeLayer.forward, Py.mbind, Py.eval, Py.assign, Np.shape0.
  rewrite Hx, Hout. simpl.
  unfold Np.reshape. simpl.
  rewrite (proj2 (Z.leb_le (-1) (Z.of_nat batch))) by lia. simpl.
  rewrite filter_cons_True, filter_cons_False by lia.
  simpl. rewrite !Nat2Z.id, Hx. simpl.
  rewrite Nat.mul_1_r.
  destruct (decide (batch = 0)) as [->|Hb].
  - by rewrite decide_False by (intros [? _]; done).
  - rewrite decide_True.
    + rewrite decide_False by lia.
      rewrite (Nat.mul_comm batch), Nat.div_mul by done. done.
    + split; [done|]. rewrite Nat.mul_comm. by apply Nat.Div0.mod_mul.
Qed.

Lemma reshape_forward_infers_columns_witness :
  ReshapeLayer.forward (ones [2; 1; 2; 2])
    (ReshapeLayer.__init__ (Py.Tuple [1; 2; 2]%Z) (Py.Int (-1)))
  = if decide (2 = 0)
    then (ReshapeLayer.__init__ (Py.Tuple [1; 2; 2]%Z) (Py.Int (-1)),
          Py.Raise Py.ValueError)
    else (ReshapeLayer.set_output
            (Some {| Np.shape := [2; Np.size [1; 2; 2]];
                     Np.data := Np.data (ones [2; 1; 2; 2]) |})
            (ReshapeLayer.__init__ (Py.Tuple [1; 2; 2]%Z) (Py.Int (-1))),
          Py.Ok ()).
Proof.
  exact (reshape_forward_infers_columns
           (ReshapeLayer.__init__ (Py.Tuple [1; 2; 2]%Z) (Py.Int (-1)))
           (ones [2; 1; 2; 2]) 2 [1; 2; 2] eq_refl eq_refl).
Defined.

(** X16. The round trip in the other direction: [backward] on a [delta] of shape
    [[batch, product(input_shape)]], then [forward] on the [dinputs] it
    stored, on a layer whose [output_shape] is that product: both complete
    and the output stored is [delta], shape and elements. *)
Theorem reshape_backward_forward_round_trip {R : Type} `{!Scalar R}
    (self : ReshapeLayer.t R) (delta : Np.ndarray R) (batch : nat)
    (dims : list nat) :
  ReshapeLayer.input_shape self = Py.Tuple (Z.of_nat <$> dims) →
  ReshapeLayer.output_shape self = Py.Int (Z.of_nat (Np.size dims)) →
  Np.shape delta = [batch; Np.size dims] →
  ∃ di self1 self2,
    ReshapeLayer.backward delta self = (self1, Py.Ok ()) ∧
    ReshapeLayer.dinputs self1 = Some di ∧
    Np.shape di = batch :: dims ∧
    ReshapeLayer.forward di self1 = (self2, Py.Ok ()) ∧
    ReshapeLayer.output self2 = Some delta ∧
    ReshapeLayer.dinputs self2 = Some di.
Proof.
  intros Hin Hout Hd.
  eexists _, _, _.
  split; [by eapply reshape_backward_eq|].
  split; [reflexivity|]. split; [reflexivity|].
  split; [by eapply reshape_forward_eq|].
  simpl. split; [|done].
  destruct delta as [sd dd]. simpl in *. by subst.
Qed.

Lemma reshape_backward_forward_round_trip_witness :
  ∃ di self1 self2,
    ReshapeLayer.backward (Np.mk [2; 4] (Z.of_nat <$> seq 0 8))
      (ReshapeLayer.__init__ (Py.Tuple [1; 2; 2]%Z) (Py.Int 4))
    = (self1, Py.Ok ()) ∧
    ReshapeLayer.dinputs self1 = Some di ∧
    Np.shape di = [2; 1; 2; 2] ∧
    ReshapeLayer.forward di self1 = (self2, Py.Ok ()) ∧
    ReshapeLayer.output self2 = Some (Np.mk [2; 4] (Z.of_nat <$> seq 0 8)) ∧
    ReshapeLayer.dinputs self2 = Some di.
Proof.
  exact (reshape_backward_forward_round_trip
           (ReshapeLayer.__init__ (Py.Tuple [1; 2; 2]%Z) (Py.Int 4))
           (Np.mk [2; 4] (Z.of_nat <$> seq 0 8)) 2 [1; 2; 2]
           eq_refl eq_refl eq_refl).
Defined.

(** ** Calls that read only part of the object *)

Module PySim.
Section Simulation.
Context {S : Type} (P : S → S → Prop).

Lemma simulates_ret {A} (a : A) : Py.simulates P (Py.ret a).
Proof. by intros s s' H. Qed.

Lemma simulates_eval {A} (f : S → Py.result A) :
  (∀ s s', P s s' → f s = f s') → Py.simulates P (Py.eval f).
Proof. intros Hf s s' H. simpl. split; [done|by apply Hf]. Qed.

Lemma simulates_assign (f : S → S) :
  (∀ s s', P s s' → P (f s) (f s')) → Py.simulates P (Py.assign f).
Proof. intros Hf s s' H. simpl. split; [by apply Hf|done]. Qed.

Lemma simulates_modify {A} (get : S → option A) set f :
  (∀ s s', P s s' → get s = get s') →
  (∀ s s' a, P s s' → f s a = f s' a) →
  (∀ s s' v, P s s' → P (set v s) (set v s')) →
  Py.simulates P (Py.modify get set f).
Proof.
  intros Hget Hf Hset s s' H. unfold Py.modify.
  rewrite <- (Hget s s' H). destruct (get s) as [a|]; [|done].
  rewrite <- (Hf s s' a H). destruct (f s a); simpl; [|done..].
  split; [by apply Hset|done].
Qed.

Lemma simulates_mbind {A B} (m : Py.M S A) (k : A → Py.M S B) :
  Py.simulates P m → (∀ a, Py.simulates P (k a)) →
  Py.simulates P (Py.mbind m k).
Proof.
  intros Hm Hk s s' H. unfold Py.mbind.
  destruct (Hm s s' H) as [HP Hr].
  destruct (m s) as [s1 r1], (m s') as [s1' r1']. simpl in *. subst r1'.
  destruct r1 as [a| |]; simpl; [|done..].
  by apply Hk.
Qed.

Lemma simulates_for_ {A} (xs : list A) (body : A → Py.M S ()) :
  (∀ x, Py.simulates P (body x)) → Py.simulates P (Py.for_ xs body).
Proof.
  intros Hbody. induction xs as [|x xs IH]; simpl.
  - apply simulates_ret.
  - apply simulates_mbind; [apply Hbody|]. intros _. exact IH.
Qed.

Lemma simulates_for_range (n : S → Z) (body : nat → Py.M S ()) :
  (∀ s s', P s s' → n s = n s') →
  (∀ i, Py.simulates P (body i)) → Py.simulates P (Py.for_range n body).
Proof.
  intros Hn Hbody s s' H. unfold Py.for_range.
  rewrite <- (Hn s s' H). by apply simulates_for_.
Qed.

End Simulation.
End PySim.

Ltac simulation_step :=
  lazymatch goal with
  | |- Py.simulates _ (Py.mbind _ _) => apply PySim.simulates_mbind
  | |- Py.simulates _ (Py.for_ _ _) => apply PySim.simulates_for_
  | |- Py.simulates _ (Py.for_range _ _) => apply PySim.simulates_for_range
  | |- Py.simulates _ (Py.eval _) => apply PySim.simulates_eval
  | |- Py.simulates _ (Py.ret _) => apply PySim.simulates_ret
  | |- Py.simulates _ (Py.modify _ _ _) => apply PySim.simulates_modify
  | |- Py.simulates _ (Py.assign _) => apply PySim.simulates_assign
  end.

Ltac simulation := repeat (simulation_step; intros).

(** ** ConvolutionalLayer: what a call owes to the calls before it *)

Section ConvHistory.
Context {R : Type} `{!Scalar R}.
Local Abbreviation ndarray := (Np.ndarray R).

#[global] Instance conv_same_model_preorder :
  PreOrder (@ConvolutionalLayer.same_model R).
Proof.
  split.
  - by intros s.
  - intros s1 s2 s3 (?&?&?&?&?&?&?&?) (?&?&?&?&?&?&?&?).
    repeat split; congruence.
Qed.

(** A layer is its configuration, its parameters, the record of the last
    [forward] and the gradients. *)
Lemma conv_layer_eq (self self' : ConvolutionalLayer.t R) :
  ConvolutionalLayer.same_model self self' →
  ConvolutionalLayer.same_forward_record self self' →
  ConvolutionalLayer.same_gradients self self' →
  self' = self.
Proof.
  destruct self, self'.
  unfold ConvolutionalLayer.same_model, ConvolutionalLayer.same_gradients,
    ConvolutionalLayer.same_forward_record. simpl.
  intros (?&?&?&?&?&?&?&?) (?&?) (?&?&?). by subst.
Qed.

Ltac same_fields :=
  unfold ConvolutionalLayer.same_up_to_gradients,
    ConvolutionalLayer.same_model, ConvolutionalLayer.same_forward_record,
    ConvolutionalLayer.inputs_at in *;
  simpl in *;
  repeat match goal with
         | H : _ ∧ _ |- _ => destruct H
         end;
  repeat match goal with
         | H : ?f ?s' = ?f ?s |- _ => rewrite H; clear H
         end;
  repeat split; try done.

Lemma conv_forward_accumulate_simulates n :
  Py.simulates (@ConvolutionalLayer.same_up_to_gradients R)
    (ConvolutionalLayer.forward_accumulate n).
Proof.
  unfold ConvolutionalLayer.forward_accumulate,
    ConvolutionalLayer.forward_step.
  simulation; same_fields.
Qed.

Lemma conv_forward_accumulate_model n :
  Py.preserves (@ConvolutionalLayer.same_model R)
    (ConvolutionalLayer.forward_accumulate n).
Proof.
  unfold ConvolutionalLayer.forward_accumulate,
    ConvolutionalLayer.forward_step.
  frame; done.
Qed.

Lemma conv_forward_accumulate_gradients n :
  Py.preserves (@ConvolutionalLayer.same_gradients R)
    (ConvolutionalLayer.forward_accumulate n).
Proof.
  unfold ConvolutionalLayer.forward_accumulate,
    ConvolutionalLayer.forward_step.
  frame; done.
Qed.

Lemma conv_backward_step_model dilate pad_to_shape (delta : ndarray) i j k :
  Py.preserves (@ConvolutionalLayer.same_model R)
    (ConvolutionalLayer.backward_step dilate pad_to_shape delta i j k).
Proof.
  assert (Py.preserves ConvolutionalLayer.same_model
            (ConvolutionalLayer.backward_unit delta i j k)) as Hunit.
  { unfold ConvolutionalLayer.backward_unit. frame; done. }
  assert (Py.preserves ConvolutionalLayer.same_model
            (ConvolutionalLayer.backward_strided dilate pad_to_shape
               delta i j k)) as Hstrided.
  { unfold ConvolutionalLayer.backward_strided. frame; done. }
  intros s. unfold ConvolutionalLayer.backward_step.
  case_decide; [apply Hunit|apply Hstrided].
Qed.

Lemma conv_backward_model dilate pad_to_shape (delta : ndarray) :
  Py.preserves (@ConvolutionalLayer.same_model R)
    (ConvolutionalLayer.backward dilate pad_to_shape delta).
Proof.
  unfold ConvolutionalLayer.backward, ConvolutionalLayer.backward_with,
    ConvolutionalLayer.backward_accumulate, ConvolutionalLayer.backward_loops.
  frame; try done.
  apply conv_backward_step_model.
Qed.

(** [backward] on a layer that holds inputs [x]: lines 156-158 replace the
    three gradients by zeros, and the loops start from there. *)
Lemma conv_backward_from_zeros dilate pad_to_shape
    (self : ConvolutionalLayer.t R) (x delta : ndarray) :
  ConvolutionalLayer.inputs self = Some x →
  ConvolutionalLayer.backward dilate pad_to_shape delta self
  = (do! n_samples <- Py.eval (λ _, Np.shape0 x);
     ConvolutionalLayer.backward_accumulate dilate pad_to_shape delta
       n_samples)
      (ConvolutionalLayer.set_dinputs (Some (Np.zeros_like (Np.shape x)))
         (ConvolutionalLayer.set_dbiases
            (Some (Np.zeros_like
                     (Np.shape (ConvolutionalLayer.biases self))))
            (ConvolutionalLayer.set_dkernels
               (Some (Np.zeros_like
                        (Np.shape (ConvolutionalLayer.kernels self))))
               self))).
Proof.
  intros Hx.
  unfold ConvolutionalLayer.backward, ConvolutionalLayer.backward_with,
    Py.mbind, Py.eval, Py.assign, Py.getattr.
  simpl. by rewrite Hx.
Qed.

End ConvHistory.

(** X17. [ConvolutionalLayer.forward] (lines 124-140) reads only the
    configuration, the parameters and its argument: on two layers with the
    same configuration and parameters, whatever inputs, output and gradients
    earlier calls left in them, it has the same outcome, and when it
    completes it stores the same inputs and the same output.  The output is
    rebuilt from zeros at line 130, so nothing of an earlier output is
    added to. *)
Theorem conv_forward_history_independent {R : Type} `{!Scalar R}
    (self self' : ConvolutionalLayer.t R) (x : Np.ndarray R) :
  ConvolutionalLayer.same_model self self' →
  let call := ConvolutionalLayer.forward x self in
  let call' := ConvolutionalLayer.forward x self' in
  call'.2 = call.2 ∧
  ConvolutionalLayer.same_model call.1 call'.1 ∧
  (call.2 = Py.Ok () →
   ConvolutionalLayer.same_forward_record call.1 call'.1).
Proof.
  intros Hmodel.
  unfold ConvolutionalLayer.forward, Py.mbind, Py.eval, Py.assign.
  destruct (Np.shape0 x) as [n| |]; simpl; [|done..].
  pose proof Hmodel as (_&_&_&_&Hos&_).
  rewrite Hos.
  destruct (Np.zeros _) as [out| |]; simpl; [|done..].
  match goal with
  | |- context [ConvolutionalLayer.forward_accumulate n ?s0] =>
    match goal with
    | |- context [(ConvolutionalLayer.forward_accumulate n ?s0').2
                  = (ConvolutionalLayer.forward_accumulate n s0).2] =>
      destruct (conv_forward_accumulate_simulates n s0 s0')
        as [[Hm Hr] Hout]; [by split|];
      destruct (ConvolutionalLayer.forward_accumulate n s0) as [s1 r1];
      destruct (ConvolutionalLayer.forward_accumulate n s0') as [s1' r1']
    end
  end.
  simpl in *. subst r1'.
  destruct r1 as [[]| |]; done.
Qed.

Lemma conv_forward_history_independent_witness :
  let used :=
    (ConvolutionalLayer.backward Helpers.dilate Helpers.pad_to_shape
       (ones [1; 1; 2; 2])
       (ConvolutionalLayer.forward (Np.full [1; 1; 3; 3] 5%Z)
          (conv_example 1)).1).1 in
  let call := ConvolutionalLayer.forward (ones [1; 1; 3; 3])
                (conv_example 1) in
  let call' := ConvolutionalLayer.forward (ones [1; 1; 3; 3]) used in
  call'.2 = call.2 ∧
  ConvolutionalLayer.same_model call.1 call'.1 ∧
  (call.2 = Py.Ok () →
   ConvolutionalLayer.same_forward_record call.1 call'.1).
Proof.
  intros used.
  apply (conv_forward_history_independent (conv_example 1) used
           (ones [1; 1; 3; 3])).
  vm_compute. repeat split; reflexivity.
Defined.

(** X18. Calling [ConvolutionalLayer.forward] again on the same inputs changes
    nothing: the second call has the outcome of the first and leaves the
    layer as the first left it, whether the calls complete or raise. *)
Theorem conv_forward_idempotent {R : Type} `{!Scalar R}
    (self : ConvolutionalLayer.t R) (x : Np.ndarray R) :
  ConvolutionalLayer.forward x (ConvolutionalLayer.forward x self).1
  = ConvolutionalLayer.forward x self.
Proof.
  assert (∀ s : ConvolutionalLayer.t R,
            ConvolutionalLayer.forward x s
            = match Np.shape0 x with
              | Py.Ok n =>
                  match Np.zeros (Z.of_nat n
                                  :: ConvolutionalLayer.output_shape s) with
                  | Py.Ok out =>
                      ConvolutionalLayer.forward_accumulate n
                        (ConvolutionalLayer.set_output (Some out)
                           (ConvolutionalLayer.set_inputs (Some x) s))
                  | Py.Raise e =>
                      (ConvolutionalLayer.set_inputs (Some x) s, Py.Raise e)
                  | Py.Unmodelled =>
                      (ConvolutionalLayer.set_inputs (Some x) s,
                       Py.Unmodelled)
                  end
              | Py.Raise e => (s, Py.Raise e)
              | Py.Unmodelled => (s, Py.Unmodelled)
              end) as Hforward.
  { intros s.
    unfold ConvolutionalLayer.forward, Py.mbind, Py.eval, Py.assign.
    destruct (Np.shape0 x) as [n| |]; simpl; [|done..].
    destruct (Np.zeros _) as [out| |]; simpl; [|done..].
    by destruct (ConvolutionalLayer.forward_accumulate _ _) as [? [[]| |]]. }
  rewrite (Hforward self).
  destruct (Np.shape0 x) as [n| |]; [|by rewrite Hforward..].
  destruct (Np.zeros _) as [out| |] eqn:Hzeros;
    [|by rewrite Hforward; simpl; rewrite Hzeros..].
  set (s0 := ConvolutionalLayer.set_output _ _).
  pose proof (conv_forward_accumulate_model n s0) as Hmodel.
  pose proof (conv_forward_accumulate_gradients n s0) as Hgrad.
  destruct (ConvolutionalLayer.forward_accumulate n s0) as [s1 r1] eqn:Hacc.
  simpl in Hmodel, Hgrad |- *.
  rewrite Hforward.
  replace (ConvolutionalLayer.output_shape s1)
    with (ConvolutionalLayer.output_shape self)
    by (by destruct Hmodel as (_&_&_&_&->&_)).
  rewrite Hzeros.
  set (s0' := ConvolutionalLayer.set_output _ _).
  destruct (conv_forward_accumulate_simulates n s0 s0')
    as [[Hm Hr] Hout]; [by split|].
  pose proof (conv_forward_accumulate_gradients n s0') as Hgrad'.
  rewrite Hacc in Hm, Hr, Hout.
  destruct (ConvolutionalLayer.forward_accumulate n s0') as [s2 r2].
  simpl in *. subst r2.
  rewrite (conv_layer_eq s1 s2 Hm Hr); [done|].
  destruct Hgrad as (?&?&?), Hgrad' as (?&?&?).
  subst s0 s0'. simpl in *. by repeat split.
Qed.

(** X19. [ConvolutionalLayer.backward] on a layer that holds inputs: the
    gradients left by earlier calls are replaced by zeros at lines 156-158
    before anything is added, so two layers that differ only in their
    gradients end in the same state with the same outcome.  Gradients do
    not accumulate from one call to the next. *)
Theorem conv_backward_ignores_old_gradients {R : Type} `{!Scalar R}
    dilate pad_to_shape (self self' : ConvolutionalLayer.t R)
    (delta : Np.ndarray R) :
  ConvolutionalLayer.same_up_to_gradients self self' →
  is_Some (ConvolutionalLayer.inputs self) →
  ConvolutionalLayer.backward dilate pad_to_shape delta self'
  = ConvolutionalLayer.backward dilate pad_to_shape delta self.
Proof.
  intros [Hmodel Hrecord] [x Hx].
  pose proof Hrecord as [Hin _]. rewrite Hx in Hin.
  rewrite (conv_backward_from_zeros _ _ self x delta Hx).
  rewrite (conv_backward_from_zeros _ _ self' x delta Hin).
  f_equal. apply conv_layer_eq.
  - destruct Hmodel as (?&?&?&?&?&?&?&?). by repeat split.
  - destruct Hrecord. by split.
  - destruct Hmodel as (_&_&_&_&_&_&Hk&Hb). simpl.
    rewrite Hk, Hb. by repeat split.
Qed.

Lemma conv_backward_ignores_old_gradients_witness :
  let self1 :=
    (ConvolutionalLayer.forward (ones [1; 1; 3; 3]) (conv_example 1)).1 in
  let self2 :=
    (ConvolutionalLayer.backward Helpers.dilate Helpers.pad_to_shape
       (Np.full [1; 1; 2; 2] 7%Z) self1).1 in
  ConvolutionalLayer.backward Helpers.dilate Helpers.pad_to_shape
    (ones [1; 1; 2; 2]) self2
  = ConvolutionalLayer.backward Helpers.dilate Helpers.pad_to_shape
      (ones [1; 1; 2; 2]) self1.
Proof.
  intros self1 self2.
  apply (conv_backward_ignores_old_gradients Helpers.dilate
           Helpers.pad_to_shape self1 self2 (ones [1; 1; 2; 2])).
  - vm_compute. repeat split; reflexivity.
  - vm_compute. eexists. reflexivity.
Defined.

(** X20. Calling [ConvolutionalLayer.backward] again with the same [delta]
    changes nothing, for every implementation of the helpers: the second
    call has the outcome of the first and leaves the layer as the first left
    it, whether the calls complete or raise. *)
Theorem conv_backward_idempotent {R : Type} `{!Scalar R}
    dilate pad_to_shape (self : ConvolutionalLayer.t R)
    (delta : Np.ndarray R) :
  ConvolutionalLayer.backward dilate pad_to_shape delta
    (ConvolutionalLayer.backward dilate pad_to_shape delta self).1
  = ConvolutionalLayer.backward dilate pad_to_shape delta self.
Proof.
  destruct (ConvolutionalLayer.inputs self) as [x|] eqn:Hx.
  - pose proof (conv_backward_model dilate pad_to_shape delta self)
      as Hmodel.
    pose proof (conv_backward_forward_record dilate pad_to_shape delta self)
      as Hrecord.
    set (self1 :=
           (ConvolutionalLayer.backward dilate pad_to_shape delta self).1)
      in *.
    pose proof Hrecord as [Hin _]. rewrite Hx in Hin.
    rewrite (conv_backward_from_zeros _ _ self1 x delta Hin).
    rewrite (conv_backward_from_zeros _ _ self x delta Hx).
    f_equal. apply conv_layer_eq.
    + destruct Hmodel as (?&?&?&?&?&?&?&?). by repeat split.
    + destruct Hrecord. by split.
    + destruct Hmodel as (_&_&_&_&_&_&Hk&Hb). simpl.
      rewrite Hk, Hb. by repeat split.
  - unfold ConvolutionalLayer.backward, ConvolutionalLayer.backward_with,
      Py.mbind, Py.eval, Py.assign, Py.getattr.
    simpl. rewrite Hx. simpl. by rewrite Hx.
Qed.

(** X21. [ConvolutionalLayer.backward] on a layer that holds no inputs, that is
    before any [forward], for every [delta] and every implementation of the
    helpers: line 158 raises [AttributeError]; by then lines 156-157 have
    replaced [dkernels] and [dbiases] by zeros of the shapes of the
    parameters, and nothing else has changed.  (The attributes of a layer
    are those that [layers.py] assigns; the base class [Layer] is taken to
    add none.) *)
Theorem conv_backward_before_forward {R : Type} `{!Scalar R}
    dilate pad_to_shape (self : ConvolutionalLayer.t R)
    (delta : Np.ndarray R) :
  ConvolutionalLayer.inputs self = None →
  ConvolutionalLayer.backward dilate pad_to_shape delta self
  = (ConvolutionalLayer.set_dbiases
       (Some (Np.zeros_like (Np.shape (ConvolutionalLayer.biases self))))
       (ConvolutionalLayer.set_dkernels
          (Some (Np.zeros_like (Np.shape (ConvolutionalLayer.kernels self))))
          self),
     Py.Raise Py.AttributeError).
Proof.
  intros Hx.
  unfold ConvolutionalLayer.backward, ConvolutionalLayer.backward_with,
    Py.mbind, Py.eval, Py.assign, Py.getattr.
  simpl. by rewrite Hx.
Qed.

Lemma conv_backward_before_forward_witness :
  ConvolutionalLayer.backward Helpers.dilate Helpers.pad_to_shape
    (ones [1; 1; 2; 2]) (conv_example 1)
  = (ConvolutionalLayer.set_dbiases
       (Some (Np.zeros_like [1; 2; 2]))
       (ConvolutionalLayer.set_dkernels
          (Some (Np.zeros_like [1; 1; 2; 2])) (conv_example 1)),
     Py.Raise Py.AttributeError).
Proof.
  exact (conv_backward_before_forward Helpers.dilate Helpers.pad_to_shape
           (conv_example 1) (ones [1; 1; 2; 2]) eq_refl).
Defined.

(** X22. [ConvolutionalLayer.forward] on an array without axes: line 124 raises
    [IndexError] before line 127 stores the inputs, so the layer is
    unchanged. *)
Theorem conv_forward_scalar_input {R : Type} `{!Scalar R}
    (self : ConvolutionalLayer.t R) (x : Np.ndarray R) :
  Np.shape x = [] →
  ConvolutionalLayer.forward x self = (self, Py.Raise Py.IndexError).
Proof.
  intros Hx.
  unfold ConvolutionalLayer.forward, Py.mbind, Py.eval, Np.shape0.
  by rewrite Hx.
Qed.

Lemma conv_forward_scalar_input_witness :
  ConvolutionalLayer.forward (Np.mk [] [7%Z]) (conv_example 1)
  = (conv_example 1, Py.Raise Py.IndexError).
Proof.
  exact (conv_forward_scalar_input (conv_example 1) (Np.mk [] [7%Z])
           eq_refl).
Defined.

(** X23. [ConvolutionalLayer.backward] on a layer whose stored inputs are an
    empty batch: the loops of lines 164-207 run no iteration, so [delta] is
    never read; for every [delta], of any shape, and every implementation
    of the helpers the call completes and the three gradients are zeros of
    the shapes of the kernels, of the biases and of the inputs. *)
Theorem conv_backward_empty_batch {R : Type} `{!Scalar R}
    dilate pad_to_shape (self : ConvolutionalLayer.t R)
    (x delta : Np.ndarray R) (rest : list nat) :
  ConvolutionalLayer.inputs self = Some x →
  Np.shape x = 0 :: rest →
  ConvolutionalLayer.backward dilate pad_to_shape delta self
  = (ConvolutionalLayer.set_dinputs (Some (Np.zeros_like (0 :: rest)))
       (ConvolutionalLayer.set_dbiases
          (Some (Np.zeros_like (Np.shape (ConvolutionalLayer.biases self))))
          (ConvolutionalLayer.set_dkernels
             (Some (Np.zeros_like
                      (Np.shape (ConvolutionalLayer.kernels self))))
             self)),
     Py.Ok ()).
Proof.
  intros Hx Hsh.
  rewrite (conv_backward_from_zeros _ _ self x delta Hx).
  unfold Py.mbind, Py.eval, Np.shape0. rewrite Hsh. done.
Qed.

Lemma conv_backward_empty_batch_witness :
  let self1 :=
    (ConvolutionalLayer.forward (Np.mk [0; 1; 3; 3] []) (conv_example 1)).1 in
  ConvolutionalLayer.backward Helpers.dilate Helpers.pad_to_shape
    (ones [5]) self1
  = (ConvolutionalLayer.set_dinputs (Some (Np.zeros_like [0; 1; 3; 3]))
       (ConvolutionalLayer.set_dbiases (Some (Np.zeros_like [1; 2; 2]))
          (ConvolutionalLayer.set_dkernels
             (Some (Np.zeros_like [1; 1; 2; 2])) self1)),
     Py.Ok ()).
Proof.
  intros self1.
  exact (conv_backward_empty_batch Helpers.dilate Helpers.pad_to_shape
           self1 (Np.mk [0; 1; 3; 3] []) (ones [5]) [1; 3; 3]
           eq_refl eq_refl).
Defined.

(** ** ConvolutionalLayer: the gradients at stride one *)

Section ArrayCells.
Context {R : Type} `{!Scalar R}.
Local Abbreviation ndarray := (Np.ndarray R).

Lemma zeros_like_wf (s : list nat) : Np.wf (Np.zeros_like (R := R) s).
Proof. unfold Np.wf. simpl. by rewrite length_replicate. Qed.

Lemma zeros_like_get4 (s : list nat) i j y x' :
  Np.get4 (Np.zeros_like (R := R) s) i j y x' = rzero.
Proof.
  unfold Np.get4. simpl.
  destruct (replicate _ _ !! _) as [r|] eqn:Hr; [|done].
  by apply lookup_replicate in Hr as [-> _].
Qed.

Lemma zeros_like_get3 (s : list nat) j y x' :
  Np.get3 (Np.zeros_like (R := R) s) j y x' = rzero.
Proof.
  unfold Np.get3. simpl.
  destruct (replicate _ _ !! _) as [r|] eqn:Hr; [|done].
  by apply lookup_replicate in Hr as [-> _].
Qed.

(** [a[i, j] += v], cell by cell. *)
Lemma iadd_at2_get4 (a v : ndarray) d0 d1 d2 d3 i j :
  Np.wf a → Np.shape a = [d0; d1; d2; d3] → i < d0 → j < d1 →
  Np.wf v → Np.shape v = [d2; d3] →
  ∃ a', Np.iadd_at2 a i j (Py.Ok v) = Py.Ok a' ∧
        Np.shape a' = [d0; d1; d2; d3] ∧ Np.wf a' ∧
        ∀ i' j' y x', i' < d0 → j' < d1 → y < d2 → x' < d3 →
          Np.get4 a' i' j' y x'
          = if decide (i' = i ∧ j' = j)
            then radd (Np.get4 a i j y x') (Np.get2 v y x')
            else Np.get4 a i' j' y x'.
Proof.
  intros Hwf Ha Hi Hj Hwfv Hv.
  destruct (NpFacts.getitem2_get4 a d0 d1 d2 d3 i j)
    as (t & Ht & Hts & Htwf & Htget); [done..|].
  destruct (NpFacts.get2_iadd t v d2 d3)
    as (t' & Ht' & Ht's & Ht'wf & Ht'get); [done..|].
  destruct (NpFacts.setitem2_get4 a d0 d1 d2 d3 i j t')
    as (Hset_wf & Hset_get); [done..|].
  exists (Np.setitem2 a i j t'). split.
  { unfold Np.iadd_at2. rewrite Ht. simpl. by rewrite Ht'. }
  split; [by rewrite NpFacts.setitem2_shape|]. split; [done|].
  intros i' j' y x' ????. rewrite Hset_get by done.
  case_decide; [|done]. by rewrite Ht'get, Htget.
Qed.

(** [b += a[i]] for [b] of the shape of [a[i]], cell by cell. *)
Lemma iadd_getitem_get3 (b a : ndarray) d0 d1 d2 d3 i :
  Np.wf b → Np.shape b = [d1; d2; d3] →
  Np.wf a → Np.shape a = [d0; d1; d2; d3] → i < d0 →
  ∃ b', (let! d := Np.getitem a i in Np.iadd b d) = Py.Ok b' ∧
        Np.shape b' = [d1; d2; d3] ∧ Np.wf b' ∧
        ∀ j y x', j < d1 → y < d2 → x' < d3 →
          Np.get3 b' j y x'
          = radd (Np.get3 b j y x') (Np.get4 a i j y x').
Proof.
  intros Hwfb Hb Hwfa Ha Hi.
  unfold Np.wf in Hwfa, Hwfb. rewrite Ha in Hwfa. rewrite Hb in Hwfb.
  simpl in Hwfa, Hwfb. rewrite Nat.mul_1_r in Hwfa, Hwfb.
  set (M := d1 * (d2 * d3)) in *.
  assert (i * M + M ≤ length (Np.data a)) by nia.
  rewrite (NpFacts.getitem_ok a d0 [d1; d2; d3] i) by done. simpl.
  rewrite Nat.mul_1_r. fold M.
  rewrite NpFacts.iadd_same_shape; cycle 1.
  { unfold Np.wf. simpl. rewrite Nat.mul_1_r. fold M.
    rewrite length_take, length_drop. lia. }
  { simpl. by rewrite Hb. }
  eexists. split; [done|]. simpl. split; [done|]. split.
  - unfold Np.wf. simpl. rewrite Hb. simpl. rewrite Nat.mul_1_r. fold M.
    rewrite length_zip_with, length_take, length_drop. lia.
  - intros j y x' Hj Hy Hx'. unfold Np.get3, Np.get4. simpl.
    rewrite Hb, Ha. simpl.
    assert (y * d3 + x' < d2 * d3) by nia.
    assert (j * (d2 * d3) + (y * d3 + x') < M) by (unfold M; nia).
    rewrite lookup_zip_with.
    rewrite lookup_take_lt by done. rewrite lookup_drop. fold M.
    destruct (lookup_lt_is_Some_2 (Np.data b)
                (j * (d2 * d3) + (y * d3 + x'))) as [u ->]; [lia|].
    destruct (lookup_lt_is_Some_2 (Np.data a)
                (i * M + (j * (d2 * d3) + (y * d3 + x')))) as [v ->];
      [lia|].
    done.
Qed.

End ArrayCells.

Section ConvBackwardStrideOne.
Context {R : Type} `{!Scalar R}.
Local Abbreviation ndarray := (Np.ndarray R).

Variable dilate : ndarray → Z → Py.result ndarray.
Variable pad_to_shape : ndarray → list Z → Py.result ndarray.

(** The state at the head of the loops of [backward]: a layer of stride one
    holding inputs [x] of shape [[n; ic; H; W]] and kernels of shape
    [[oc; ic; K; K]], the kernel fitting the input, and a [delta] of the
    shape of the output. *)
Variables (self0 : ConvolutionalLayer.t R) (x delta : ndarray).
Variables (n ic oc K H W : nat).
Hypothesis Hstride : ConvolutionalLayer.stride self0 = 1%Z.
Hypothesis Hic : ConvolutionalLayer.input_channels self0 = Z.of_nat ic.
Hypothesis Hoc : ConvolutionalLayer.output_channels self0 = Z.of_nat oc.
Hypothesis Hkernels :
  Np.shape (ConvolutionalLayer.kernels self0) = [oc; ic; K; K].
Hypothesis Hkernels_wf : Np.wf (ConvolutionalLayer.kernels self0).
Hypothesis Hinputs : ConvolutionalLayer.inputs self0 = Some x.
Hypothesis Hx : Np.shape x = [n; ic; H; W].
Hypothesis Hx_wf : Np.wf x.
Hypothesis Hdelta : Np.shape delta = [n; oc; H - K + 1; W - K + 1].
Hypothesis Hdelta_wf : Np.wf delta.
Hypothesis HK : 1 ≤ K.
Hypothesis HKH : K ≤ H.
Hypothesis HKW : K ≤ W.

Let oh := H - K + 1.
Let ow := W - K + 1.
Let termK := ConvolutionalLayer.dkernels_term x delta oh ow.
Let termI := ConvolutionalLayer.dinputs_term delta
               (ConvolutionalLayer.kernels self0) oh ow K.

(** The three gradients of [s] hold [fk], [fi] and [fb], and nothing else
    of the layer has changed. *)
Let gradients (s : ConvolutionalLayer.t R)
    (fk fi : nat → nat → nat → nat → R) (fb : nat → nat → nat → R) : Prop :=
  ConvolutionalLayer.same_shapes self0 s ∧
  ConvolutionalLayer.cells4 (ConvolutionalLayer.dkernels s) oc ic K K fk ∧
  ConvolutionalLayer.cells4 (ConvolutionalLayer.dinputs s) n ic H W fi ∧
  ConvolutionalLayer.cells3 (ConvolutionalLayer.dbiases s) oc oh ow fb.

Lemma gradients_ext s fk fi fb fk' fi' fb' :
  (∀ j k u v, j < oc → k < ic → u < K → v < K →
     fk j k u v = fk' j k u v) →
  (∀ i k y x', i < n → k < ic → y < H → x' < W →
     fi i k y x' = fi' i k y x') →
  (∀ j y x', j < oc → y < oh → x' < ow → fb j y x' = fb' j y x') →
  gradients s fk fi fb → gradients s fk' fi' fb'.
Proof.
  intros Hk Hi Hb (Hsame & (dk & ? & ? & ? & Hdk) & (di & ? & ? & ? & Hdi)
                   & (db & ? & ? & ? & Hdb)).
  split; [done|]. split; [|split].
  - exists dk. repeat split; try done.
    intros ???? ????. rewrite Hdk by done. by apply Hk.
  - exists di. repeat split; try done.
    intros ???? ????. rewrite Hdi by done. by apply Hi.
  - exists db. repeat split; try done.
    intros ??? ???. rewrite Hdb by done. by apply Hb.
Qed.

(** One execution of lines 174 and 176 adds to the cells of [dkernels[j, k]]
    what sample [i] contributes, to the cells of [dinputs[i, k]] what output
    channel [j] contributes, and touches nothing else. *)
Lemma backward_step_cells s fk fi fb i j k :
  gradients s fk fi fb → i < n → j < oc → k < ic →
  ∃ s', ConvolutionalLayer.backward_step dilate pad_to_shape delta i j k s
        = (s', Py.Ok ()) ∧
        gradients s'
          (λ j' k' u v, if decide (j' = j ∧ k' = k)
                        then radd (fk j k u v) (termK i j k u v)
                        else fk j' k' u v)
          (λ i' k' y x', if decide (i' = i ∧ k' = k)
                         then radd (fi i k y x') (termI i j k y x')
                         else fi i' k' y x')
          fb.
Proof.
  intros (Hsame & (dk & Hdk & Hdks & Hdkwf & Hdkc)
          & (di & Hdi & Hdis & Hdiwf & Hdic) & Hb) Hi Hj Hk.
  pose proof Hsame
    as (Hs1 & Hs2 & Hs3 & Hs4 & Hs5 & Hs6 & Hs7 & Hs8 & Hs9 & Hs10).
  assert (1 ≤ oh ∧ oh ≤ H ∧ 1 ≤ ow ∧ ow ≤ W) as (?&?&?&?)
    by (unfold oh, ow; lia).
  assert (H - oh + 1 = K ∧ W - ow + 1 = K) as [HhK HwK]
    by (unfold oh, ow; lia).
  assert (oh + K - 1 = H ∧ ow + K - 1 = W) as [HhH HwW]
    by (unfold oh, ow; lia).
  destruct (NpFacts.getitem2_get4 x n ic H W i k)
    as (xk & Hxk & Hxks & Hxkwf & Hxkget); [done..|].
  destruct (NpFacts.getitem2_get4 delta n oc oh ow i j)
    as (d & Hd & Hds & Hdwf & Hdget); [done..|].
  destruct (NpFacts.getitem2_get4 (ConvolutionalLayer.kernels self0)
              oc ic K K j k)
    as (wk & Hwk & Hwks & Hwkwf & Hwkget); [done..|].
  (* line 174 *)
  set (c := Signal.xcorr xk d H W oh ow).
  assert (Signal.correlate2d_valid xk d = Py.Ok c) as Hc.
  { apply NpFacts.correlate2d_valid_ok; [done|done|lia|lia]. }
  assert (Np.shape c = [K; K]) as Hcs.
  { unfold c, Signal.xcorr. simpl. by rewrite HhK, HwK. }
  destruct (iadd_at2_get4 dk c oc ic K K j k)
    as (dk' & Hdk' & Hdk's & Hdk'wf & Hdk'get);
    [done|done|done|done|apply NpFacts.tabulate2_wf|done|].
  (* line 176 *)
  destruct (Signal.convolve2d_full d wk) as [cv| |] eqn:Hcv;
    unfold Signal.convolve2d_full in Hcv; rewrite Hds, Hwks in Hcv;
    rewrite decide_False in Hcv by nia; [|done..].
  injection Hcv as Hcv.
  assert (Np.shape cv = [H; W]) as Hcvs.
  { rewrite <- Hcv. simpl. by rewrite HhH, HwW. }
  assert (Np.wf cv) as Hcvwf.
  { rewrite <- Hcv. apply NpFacts.tabulate2_wf. }
  destruct (iadd_at2_get4 di cv n ic H W i k)
    as (di' & Hdi' & Hdi's & Hdi'wf & Hdi'get); [done..|].
  exists (ConvolutionalLayer.set_dinputs (Some di')
            (ConvolutionalLayer.set_dkernels (Some dk') s)).
  split; [|split; [|split; [|split]]].
  - unfold ConvolutionalLayer.backward_step.
    rewrite decide_True by (by rewrite Hs1).
    unfold ConvolutionalLayer.backward_unit, Py.mbind, Py.modify.
    rewrite Hdk. unfold ConvolutionalLayer.inputs_at.
    rewrite Hs6, Hinputs, Hxk. cbn [Py.bind]. rewrite Hd. cbn [Py.bind].
    rewrite Hc, Hdk'. cbv beta iota.
    cbn [ConvolutionalLayer.dinputs ConvolutionalLayer.set_dkernels
         ConvolutionalLayer.kernels].
    rewrite Hdi, Hs4, Hwk. cbn [Py.bind].
    unfold Signal.convolve2d_full. rewrite Hds, Hwks.
    rewrite decide_False by nia. rewrite Hcv, Hdi'. done.
  - unfold ConvolutionalLayer.same_shapes in *. simpl.
    repeat split; try done.
    + rewrite <- Hs8, Hdk. simpl. congruence.
    + rewrite <- Hs10, Hdi. simpl. congruence.
  - exists dk'. simpl. repeat split; try done.
    intros j' k' u v Hj' Hk' Hu Hv. rewrite Hdk'get by done.
    case_decide as Hjk; [|by apply Hdkc].
    rewrite Hdkc by done. f_equal.
    unfold c, Signal.xcorr.
    rewrite NpFacts.get2_tabulate2 by lia.
    unfold termK, ConvolutionalLayer.dkernels_term.
    f_equal. apply NpFacts.fmap_seq_ext. intros y Hy.
    f_equal. apply NpFacts.fmap_seq_ext. intros x' Hx'.
    rewrite Hxkget, Hdget by (unfold oh, ow in *; lia). done.
  - exists di'. simpl. repeat split; try done.
    intros i' k' y x' Hi' Hk' Hy Hx'. rewrite Hdi'get by done.
    case_decide as Hik; [|by apply Hdic].
    rewrite Hdic by done. f_equal.
    rewrite <- Hcv.
    rewrite NpFacts.get2_tabulate2 by lia.
    unfold termI, ConvolutionalLayer.dinputs_term.
    f_equal. apply NpFacts.fmap_seq_ext. intros u Hu.
    f_equal. apply NpFacts.fmap_seq_ext. intros v Hv.
    case_decide as Hin; [|done].
    rewrite Hdget, Hwkget by lia. done.
  - done.
Qed.

(** The cells after [c j k] samples have been added to [dkernels[j, k]],
    after [c i k] output channels have been added to [dinputs[i, k]], and
    after [t] samples have been added to [dbiases], starting from zeros. *)
Let accK (c : nat → nat → nat) (j k u v : nat) : R :=
  foldl (λ a i, radd a (termK i j k u v)) rzero (seq 0 (c j k)).
Let accI (c : nat → nat → nat) (i k y x' : nat) : R :=
  foldl (λ a j, radd a (termI i j k y x')) rzero (seq 0 (c i k)).
Let accB (t : nat) (j y x' : nat) : R :=
  foldl (λ a i, radd a (Np.get4 delta i j y x')) rzero (seq 0 t).

(** The loop over the input channels, for one sample and one output
    channel. *)
Lemma backward_input_channels s cK cI fb i j :
  gradients s (accK cK) (accI cI) fb →
  (∀ k, cK j k = i) → (∀ k, cI i k = j) → i < n → j < oc →
  ∃ s', Py.for_range ConvolutionalLayer.input_channels
          (λ k, ConvolutionalLayer.backward_step dilate pad_to_shape
                  delta i j k) s
        = (s', Py.Ok ()) ∧
        gradients s'
          (accK (λ j' k', if decide (j' = j) then S i else cK j' k'))
          (accI (λ i' k', if decide (i' = i) then S j else cI i' k'))
          fb.
Proof.
  intros Hg HcK HcI Hi Hj.
  pose proof Hg as [(_ & Hs2 & _) _].
  unfold Py.for_range, Py.range. rewrite Hs2, Hic, Nat2Z.id.
  pose (I := λ (t : nat) (s : ConvolutionalLayer.t R),
    gradients s
      (accK (λ j' k', if decide (j' = j ∧ k' < t) then S i else cK j' k'))
      (accI (λ i' k', if decide (i' = i ∧ k' < t) then S j else cI i' k'))
      fb).
  destruct (PyFacts.for_seq_inv I ic
    (λ k, ConvolutionalLayer.backward_step dilate pad_to_shape delta i j k)
    s) as (s' & Hs' & HI); unfold I in *.
  - revert Hg. apply gradients_ext; [| |done].
    + intros j' k' u v _ _ _ _. unfold accK.
      by rewrite decide_False by lia.
    + intros i' k' y x' _ _ _ _. unfold accI.
      by rewrite decide_False by lia.
  - intros t s1 Ht Hg1.
    destruct (backward_step_cells s1 _ _ _ i j t Hg1)
      as (s2 & Hs & Hg2); [done..|].
    exists s2. split; [done|].
    revert Hg2. apply gradients_ext; [| |done].
    + intros j' k' u v _ _ _ _. unfold accK.
      case_decide as Hjk.
      * destruct Hjk as [-> ->].
        rewrite decide_False by lia. rewrite decide_True by lia.
        by rewrite HcK, seq_S, foldl_snoc.
      * repeat case_decide; try done; lia.
    + intros i' k' y x' _ _ _ _. unfold accI.
      case_decide as Hik.
      * destruct Hik as [-> ->].
        rewrite decide_False by lia. rewrite decide_True by lia.
        by rewrite HcI, seq_S, foldl_snoc.
      * repeat case_decide; try done; lia.
  - exists s'. split; [done|].
    revert HI. apply gradients_ext; [| |done].
    + intros j' k' u v _ Hk' _ _. unfold accK.
      repeat case_decide; try done; lia.
    + intros i' k' y x' _ Hk' _ _. unfold accI.
      repeat case_decide; try done; lia.
Qed.

(** The loop over the output channels, for one sample. *)
Lemma backward_output_channels s cI fb i :
  gradients s (accK (λ _ _, i)) (accI cI) fb →
  (∀ k, cI i k = 0) → i < n →
  ∃ s', Py.for_range ConvolutionalLayer.output_channels (λ j,
          Py.for_range ConvolutionalLayer.input_channels
            (λ k, ConvolutionalLayer.backward_step dilate pad_to_shape
                    delta i j k)) s
        = (s', Py.Ok ()) ∧
        gradients s'
          (accK (λ _ _, S i))
          (accI (λ i' k', if decide (i' = i) then oc else cI i' k'))
          fb.
Proof.
  intros Hg HcI Hi.
  pose proof Hg as [(_ & _ & Hs3 & _) _].
  unfold Py.for_range at 1. unfold Py.range. rewrite Hs3, Hoc, Nat2Z.id.
  pose (I := λ (t : nat) (s : ConvolutionalLayer.t R),
    gradients s
      (accK (λ j' _, if decide (j' < t) then S i else i))
      (accI (λ i' k', if decide (i' = i) then t else cI i' k'))
      fb).
  destruct (PyFacts.for_seq_inv I oc
    (λ j, Py.for_range ConvolutionalLayer.input_channels
            (λ k, ConvolutionalLayer.backward_step dilate pad_to_shape
                    delta i j k))
    s) as (s' & Hs' & HI); unfold I in *.
  - revert Hg. apply gradients_ext; [| |done].
    + intros j' k' u v _ _ _ _. unfold accK.
      by rewrite decide_False by lia.
    + intros i' k' y x' _ _ _ _. unfold accI.
      case_decide as Hi'; [|done]. subst i'. by rewrite HcI.
  - intros t s1 Ht Hg1.
    destruct (backward_input_channels s1 _ _ fb i t Hg1)
      as (s2 & Hs & Hg2); [| |done..|].
    { intros k. by rewrite decide_False by lia. }
    { intros k. by rewrite decide_True by done. }
    exists s2. split; [done|].
    revert Hg2. apply gradients_ext; [| |done].
    + intros j' k' u v _ _ _ _. unfold accK.
      repeat case_decide; try done; lia.
    + intros i' k' y x' _ _ _ _. unfold accI.
      repeat case_decide; try done; lia.
  - exists s'. split; [done|].
    revert HI. apply gradients_ext; [| |done].
    + intros j' k' u v Hj' _ _ _. unfold accK.
      by rewrite decide_True by done.
    + done.
Qed.

(** Line 167, for sample [i]. *)
Lemma backward_biases_step s fk fi t :
  gradients s fk fi (accB t) → t < n →
  ∃ s', Py.modify ConvolutionalLayer.dbiases ConvolutionalLayer.set_dbiases
          (λ _ db, let! d := Np.getitem delta t in Np.iadd db d) s
        = (s', Py.Ok ()) ∧
        gradients s' fk fi (accB (S t)).
Proof.
  intros (Hsame & Hdk & Hdi & (db & Hdb & Hdbs & Hdbwf & Hdbc)) Ht.
  destruct (iadd_getitem_get3 db delta n oc oh ow t)
    as (db' & Hdb' & Hdb's & Hdb'wf & Hdb'get); [done..|].
  exists (ConvolutionalLayer.set_dbiases (Some db') s). split.
  { unfold Py.modify. by rewrite Hdb, Hdb'. }
  split; [|split; [done|split; [done|]]].
  - unfold ConvolutionalLayer.same_shapes in *. simpl.
    destruct Hsame as (?&?&?&?&?&?&?&?&Hs9&?).
    repeat split; try done.
    rewrite <- Hs9, Hdb. simpl. congruence.
  - exists db'. simpl. repeat split; try done.
    intros j y x' Hj Hy Hx'. rewrite Hdb'get, Hdbc by done.
    unfold accB. by rewrite seq_S, foldl_snoc.
Qed.

(** The loop over the samples. *)
Lemma backward_samples s :
  gradients s (accK (λ _ _, 0)) (accI (λ _ _, 0)) (accB 0) →
  ∃ s', ConvolutionalLayer.backward_accumulate dilate pad_to_shape delta n s
        = (s', Py.Ok ()) ∧
        gradients s' (accK (λ _ _, n)) (accI (λ _ _, oc)) (accB n).
Proof.
  intros Hg.
  unfold ConvolutionalLayer.backward_accumulate,
    ConvolutionalLayer.backward_loops.
  pose (I := λ (t : nat) (s : ConvolutionalLayer.t R),
    gradients s (accK (λ _ _, t))
      (accI (λ i' _, if decide (i' < t) then oc else 0)) (accB t)).
  match goal with
  | |- ∃ s', Py.for_ _ ?body s = _ ∧ _ =>
    destruct (PyFacts.for_seq_inv I n body s) as (s' & Hs' & HI)
  end; unfold I in *.
  - revert Hg. apply gradients_ext; [done| |done].
    intros i' k' y x' _ _ _ _. unfold accI.
    by rewrite decide_False by lia.
  - intros t s1 Ht Hg1.
    destruct (backward_biases_step s1 _ _ t Hg1 Ht) as (s2 & Hs2 & Hg2).
    destruct (backward_output_channels s2 _ _ t Hg2) as (s3 & Hs3 & Hg3);
      [|done|].
    { intros k. by rewrite decide_False by lia. }
    exists s3. split.
    { unfold Py.mbind. by rewrite Hs2. }
    revert Hg3. apply gradients_ext; [done| |done].
    intros i' k' y x' _ _ _ _. unfold accI.
    repeat case_decide; try done; lia.
  - exists s'. split; [done|].
    revert HI. apply gradients_ext; [done| |done].
    intros i' k' y x' Hi' _ _ _. unfold accI.
    by rewrite decide_True by done.
Qed.

End ConvBackwardStrideOne.

(** X24. [ConvolutionalLayer.backward] (lines 156-176) at stride one, on a layer
    that holds inputs [x] of shape [[n; ic; H; W]] (square or not), with a
    [delta] of the shape of the output, [[n; oc; H - K + 1; W - K + 1]]: for
    every implementation of the helpers, which are not called, the call
    completes and
    - [dkernels[j, k, u, v]] is the sum over the samples [i] of the valid
      cross-correlation of [x[i, k]] with [delta[i, j]] at [(u, v)];
    - [dbiases[j, y, x']] is the sum over the samples of
      [delta[i, j, y, x']];
    - [dinputs[i, k, y, x']] is the sum over the output channels [j] of the
      full convolution of [delta[i, j]] with [kernels[j, k]] at [(y, x')].
    Whatever gradients the layer held before are not part of the sums. *)
Theorem conv_backward_stride_one_gradients {R : Type} `{!Scalar R}
    dilate pad_to_shape (self : ConvolutionalLayer.t R)
    (x delta : Np.ndarray R) (n ic oc K H W : nat) :
  ConvolutionalLayer.stride self = 1%Z →
  ConvolutionalLayer.input_channels self = Z.of_nat ic →
  ConvolutionalLayer.output_channels self = Z.of_nat oc →
  Np.shape (ConvolutionalLayer.kernels self) = [oc; ic; K; K] →
  Np.wf (ConvolutionalLayer.kernels self) →
  Np.shape (ConvolutionalLayer.biases self) = [oc; H - K + 1; W - K + 1] →
  ConvolutionalLayer.inputs self = Some x →
  Np.shape x = [n; ic; H; W] → Np.wf x →
  Np.shape delta = [n; oc; H - K + 1; W - K + 1] → Np.wf delta →
  1 ≤ K → K ≤ H → K ≤ W →
  ∃ self',
    ConvolutionalLayer.backward dilate pad_to_shape delta self
    = (self', Py.Ok ()) ∧
    ConvolutionalLayer.cells4 (ConvolutionalLayer.dkernels self') oc ic K K
      (ConvolutionalLayer.dkernels_cell x delta n (H - K + 1) (W - K + 1)) ∧
    ConvolutionalLayer.cells3 (ConvolutionalLayer.dbiases self')
      oc (H - K + 1) (W - K + 1)
      (ConvolutionalLayer.dbiases_cell delta n) ∧
    ConvolutionalLayer.cells4 (ConvolutionalLayer.dinputs self') n ic H W
      (ConvolutionalLayer.dinputs_cell delta
         (ConvolutionalLayer.kernels self) oc (H - K + 1) (W - K + 1) K).
Proof.
  intros Hst Hic Hoc Hks Hkwf Hbs Hin Hx Hxwf Hd Hdwf HK HKH HKW.
  rewrite (conv_backward_from_zeros _ _ self x delta Hin).
  unfold Py.mbind, Py.eval, Np.shape0. rewrite Hx, Hks, Hbs.
  match goal with
  | |- context [ConvolutionalLayer.backward_accumulate _ _ _ n ?s0] =>
    destruct (backward_samples dilate pad_to_shape s0 x delta n ic oc K H W
                Hst Hic Hoc Hks Hkwf Hin Hx Hxwf Hd Hdwf HK HKH HKW s0)
      as (self' & Hrun & _ & Hdk & Hdi & Hdb)
  end.
  { split; [reflexivity|]. simpl. split; [|split].
    - eexists. split; [done|]. split; [done|].
      split; [apply zeros_like_wf|]. intros. apply zeros_like_get4.
    - eexists. split; [done|]. split; [done|].
      split; [apply zeros_like_wf|]. intros. apply zeros_like_get4.
    - eexists. split; [done|]. split; [done|].
      split; [apply zeros_like_wf|]. intros. apply zeros_like_get3. }
  exists self'. split; [by rewrite Hrun|].
  destruct Hdk as (dk & ? & ? & ? & Hdkc), Hdi as (di & ? & ? & ? & Hdic),
    Hdb as (db & ? & ? & ? & Hdbc).
  split; [|split].
  - exists dk. repeat split; try done.
    intros j k u v ????. rewrite Hdkc by done.
    rewrite NpFacts.foldl_radd_rsum. apply radd_0_l.
  - exists db. repeat split; try done.
    intros j y x' ???. rewrite Hdbc by done.
    rewrite NpFacts.foldl_radd_rsum. apply radd_0_l.
  - exists di. repeat split; try done.
    intros i k y x' ????. rewrite Hdic by done.
    rewrite NpFacts.foldl_radd_rsum. apply radd_0_l.
Qed.

Lemma conv_backward_stride_one_gradients_witness :
  let x := Np.mk [1; 1; 3; 4] (Z.of_nat <$> seq 0 12) in
  let delta := Np.mk [1; 1; 2; 3] (Z.of_nat <$> seq 1 6) in
  ∃ self',
    ConvolutionalLayer.backward (λ _ _, Py.Unmodelled) refusing_pad delta
      (ConvolutionalLayer.forward x conv_example_wide).1
    = (self', Py.Ok ()) ∧
    ConvolutionalLayer.cells4 (ConvolutionalLayer.dkernels self') 1 1 2 2
      (ConvolutionalLayer.dkernels_cell x delta 1 (3 - 2 + 1) (4 - 2 + 1)) ∧
    ConvolutionalLayer.cells3 (ConvolutionalLayer.dbiases self')
      1 (3 - 2 + 1) (4 - 2 + 1)
      (ConvolutionalLayer.dbiases_cell delta 1) ∧
    ConvolutionalLayer.cells4 (ConvolutionalLayer.dinputs self') 1 1 3 4
      (ConvolutionalLayer.dinputs_cell delta
         (ConvolutionalLayer.kernels
            (ConvolutionalLayer.forward x conv_example_wide).1)
         1 (3 - 2 + 1) (4 - 2 + 1) 2).
Proof.
  intros x delta.
  apply (conv_backward_stride_one_gradients (λ _ _, Py.Unmodelled)
           refusing_pad
           (ConvolutionalLayer.forward x conv_example_wide).1 x delta
           1 1 1 2 3 4);
    try reflexivity; lia.
Defined.

(** ** ConvolutionalLayer: the constructor *)




(** ** ConvolutionalLayer: the bias gradient, for every stride *)

Section ConvBiasGradient.
Context {R : Type} `{!Scalar R}.
Local Abbreviation ndarray := (Np.ndarray R).

(** A loop that has completed has established its invariant, when every
    iteration that completes carries it over. *)
Lemma for_seq_completed {S : Type} (I : nat → S → Prop) (a m : nat)
    (body : nat → Py.M S ()) (s s' : S) :
  I a s →
  (∀ t s1 s2, a ≤ t < a + m → I t s1 → body t s1 = (s2, Py.Ok ()) →
     I (Datatypes.S t) s2) →
  Py.for_ (seq a m) body s = (s', Py.Ok ()) →
  I (a + m) s'.
Proof.
  revert a s. induction m as [|m IH]; intros a s Ha Hbody; simpl.
  - intros [= <-]. by rewrite Nat.add_0_r.
  - unfold Py.mbind.
    destruct (body a s) as [s1 [[]| |]] eqn:Hs1; [|done..].
    intros Hrest.
    replace (a + Datatypes.S m) with (Datatypes.S a + m) by lia.
    apply (IH (Datatypes.S a) s1); [|intros t s2 s3 Ht; apply Hbody; lia|
                                    done].
    apply (Hbody a s s1); [lia|done..].
Qed.

#[global] Instance conv_same_dbiases_preorder :
  PreOrder (@ConvolutionalLayer.same_dbiases R).
Proof.
  split.
  - by intros s.
  - intros s1 s2 s3 H1 H2. unfold ConvolutionalLayer.same_dbiases in *.
    congruence.
Qed.

(** Lines 172-207 never assign [dbiases], on either branch. *)
Lemma conv_backward_step_dbiases dilate pad_to_shape
    (delta : ndarray) i j k :
  Py.preserves ConvolutionalLayer.same_dbiases
    (ConvolutionalLayer.backward_step dilate pad_to_shape delta i j k).
Proof.
  assert (Py.preserves ConvolutionalLayer.same_dbiases
            (ConvolutionalLayer.backward_unit delta i j k)) as Hunit.
  { unfold ConvolutionalLayer.backward_unit. frame; done. }
  assert (Py.preserves ConvolutionalLayer.same_dbiases
            (ConvolutionalLayer.backward_strided dilate pad_to_shape
               delta i j k)) as Hstrided.
  { unfold ConvolutionalLayer.backward_strided. frame; done. }
  intros s. unfold ConvolutionalLayer.backward_step.
  case_decide; [apply Hunit|apply Hstrided].
Qed.

Lemma conv_backward_channels_dbiases dilate pad_to_shape
    (delta : ndarray) i :
  Py.preserves ConvolutionalLayer.same_dbiases
    (Py.for_range ConvolutionalLayer.output_channels (λ j,
       Py.for_range ConvolutionalLayer.input_channels (λ k,
         ConvolutionalLayer.backward_step dilate pad_to_shape delta i j k))).
Proof. frame. apply conv_backward_step_dbiases. Qed.

End ConvBiasGradient.

(** X27. The bias gradient of [ConvolutionalLayer.backward] (lines 157 and 167)
    is the same on both branches of the stride test: for every stride,
    every configuration of channels and kernels and every implementation of
    the helpers, on a layer that holds a batch of [n] inputs and whose
    biases have the shape of a sample of [delta], a [backward] that
    completes leaves in [dbiases[j, y, x']] the sum over the samples of
    [delta[i, j, y, x']]. *)
Theorem conv_backward_dbiases {R : Type} `{!Scalar R}
    dilate pad_to_shape (self self' : ConvolutionalLayer.t R)
    (x delta : Np.ndarray R) (n oc oh ow : nat) (rest : list nat) :
  ConvolutionalLayer.inputs self = Some x →
  Np.shape x = n :: rest →
  Np.shape (ConvolutionalLayer.biases self) = [oc; oh; ow] →
  Np.shape delta = [n; oc; oh; ow] → Np.wf delta →
  ConvolutionalLayer.backward dilate pad_to_shape delta self
  = (self', Py.Ok ()) →
  ConvolutionalLayer.cells3 (ConvolutionalLayer.dbiases self') oc oh ow
    (ConvolutionalLayer.dbiases_cell delta n).
Proof.
  intros Hin Hx Hbs Hd Hdwf.
  rewrite (conv_backward_from_zeros _ _ self x delta Hin).
  unfold Py.mbind, Py.eval, Np.shape0. rewrite Hx, Hbs.
  unfold ConvolutionalLayer.backward_accumulate,
    ConvolutionalLayer.backward_loops.
  set (s0 := ConvolutionalLayer.set_dinputs _ _).
  set (accB := λ (t j y x' : nat),
         foldl (λ a i, radd a (Np.get4 delta i j y x')) rzero (seq 0 t)).
  pose (I := λ (t : nat) (s : ConvolutionalLayer.t R),
         ConvolutionalLayer.cells3 (ConvolutionalLayer.dbiases s) oc oh ow
           (accB t)).
  intros Hrun.
  match type of Hrun with
  | Py.for_ _ ?body s0 = _ =>
    pose proof (for_seq_completed I 0 n body s0 self') as Hinv
  end.
  destruct Hinv as (db & Hdb & Hdbs & Hdbwf & Hdbc); [| |done|].
  - unfold I, s0. simpl. eexists. split; [done|]. split; [done|].
    split; [apply zeros_like_wf|]. intros. apply zeros_like_get3.
  - intros t s1 s2 Ht (db & Hdb & Hdbs & Hdbwf & Hdbc). unfold Py.mbind.
    destruct (iadd_getitem_get3 db delta n oc oh ow t)
      as (db' & Hdb' & Hdb's & Hdb'wf & Hdb'get); [done..|lia|].
    unfold Py.modify. rewrite Hdb, Hdb'.
    match goal with
    | |- context [Py.for_range _ ?inner ?s] =>
      pose proof (conv_backward_channels_dbiases dilate pad_to_shape
                    delta t s) as Hsame;
      destruct (Py.for_range ConvolutionalLayer.output_channels inner s)
        as [s3 r3]
    end.
    intros [= -> ->]. unfold I.
    unfold ConvolutionalLayer.same_dbiases in Hsame. simpl in Hsame.
    rewrite Hsame. exists db'. repeat split; try done.
    intros j y x' Hj Hy Hx'. rewrite Hdb'get, Hdbc by done.
    unfold accB. by rewrite seq_S, foldl_snoc.
  - exists db. repeat split; try done.
    intros j y x' Hj Hy Hx'. rewrite Hdbc by done.
    unfold accB, ConvolutionalLayer.dbiases_cell.
    rewrite NpFacts.foldl_radd_rsum. apply radd_0_l.
Qed.

Lemma conv_backward_dbiases_witness :
  let self1 :=
    (ConvolutionalLayer.forward (ones [2; 1; 5; 5]) conv_example5).1 in
  let delta := Np.mk [2; 1; 2; 2] (Z.of_nat <$> seq 0 8) in
  ConvolutionalLayer.cells3
    (ConvolutionalLayer.dbiases
       (ConvolutionalLayer.backward Helpers.dilate Helpers.pad_to_shape
          delta self1).1) 1 2 2
    (ConvolutionalLayer.dbiases_cell delta 2).
Proof.
  intros self1 delta.
  apply (conv_backward_dbiases Helpers.dilate Helpers.pad_to_shape self1 _
           (ones [2; 1; 5; 5]) delta 2 1 2 2 [1; 5; 5]);
    reflexivity.
Defined.

(** ** ConvolutionalLayer: construction, forward and backward in sequence *)

(** [forward] on a batch of the shape the layer is set up for completes,
    and leaves the configuration and the parameters as they were. *)
Lemma conv_forward_completes {R : Type} `{!Scalar R}
    (self : ConvolutionalLayer.t R) (x : Np.ndarray R)
    (n ic oc K st H W : nat) :
  ConvolutionalLayer.configured self ic oc K st H W →
  Np.shape x = [n; ic; H; W] → Np.wf x →
  ∃ self1,
    ConvolutionalLayer.forward x self = (self1, Py.Ok ()) ∧
    ConvolutionalLayer.inputs self1 = Some x ∧
    ConvolutionalLayer.stride self1 = ConvolutionalLayer.stride self ∧
    ConvolutionalLayer.input_channels self1
    = ConvolutionalLayer.input_channels self ∧
    ConvolutionalLayer.output_channels self1
    = ConvolutionalLayer.output_channels self ∧
    ConvolutionalLayer.kernels self1 = ConvolutionalLayer.kernels self ∧
    ConvolutionalLayer.biases self1 = ConvolutionalLayer.biases self.
Proof.
  intros (Hic & Hoc & HK & Hst & Hos & Hks & Hkwf & Hbs & Hbwf
          & Hst1 & HK1 & HKH & HKW) Hx Hxwf.
  rewrite !output_size_nat in * by done.
  set (oh := (H - K) `div` st + 1) in *.
  set (ow := (W - K) `div` st + 1) in *.
  rewrite Hos in Hbs. simpl in Hbs. rewrite !Nat2Z.id in Hbs.
  unfold ConvolutionalLayer.forward, Py.mbind, Py.eval, Py.assign, Np.shape0.
  rewrite Hx. simpl. rewrite Hos.
  change (Z.of_nat n :: [Z.of_nat oc; Z.of_nat oh; Z.of_nat ow])
    with (Z.of_nat <$> [n; oc; oh; ow]).
  unfold Np.zeros.
  rewrite NpFacts.forallb_leb_of_nat, NpFacts.to_nat_of_nat_list by lia.
  destruct (NpFacts.iadd_zeros_biases (ConvolutionalLayer.biases self)
              n oc oh ow Hbwf Hbs) as (out1 & Hout1 & Hs1 & Hwf1 & Hcells1).
  unfold ConvolutionalLayer.forward_accumulate, Py.mbind, Py.modify. simpl.
  rewrite Hout1.
  match goal with
  | |- context [Py.for_ (seq 0 n) ?body ?s] =>
      destruct (forward_samples s x n ic oc K st H W Hst Hic Hoc Hks Hkwf
                  eq_refl Hx Hxwf Hst1 HK1 HKH HKW s)
        as (s' & Hs' & Hsame & _)
  end.
  { reflexivity. }
  { by exists out1. }
  rewrite Hs'.
  destruct Hsame as (? & ? & ? & ? & ? & ? & _).
  by exists s'.
Qed.

(** X28. A stride-one layer from construction to gradients: for a kernel that
    fits the input, a batch [x] of the input shape given to the constructor
    (square or not, of any size) and a [delta] of the shape of the output,
    [__init__], [forward] and [backward] complete one after the other, for
    every implementation of the helpers; the gradients then have the shapes
    of the kernels, of the biases and of [x], and the layer still holds the
    parameters that were drawn and the output of [forward]. *)
Theorem conv_stride_one_pipeline {R : Type} `{!Scalar R}
    dilate pad_to_shape (g : Np.rng R) (x delta : Np.ndarray R)
    (n ic oc K H W : nat) :
  1 ≤ K → K ≤ H → K ≤ W →
  Np.shape x = [n; ic; H; W] → Np.wf x →
  Np.shape delta = [n; oc; H - K + 1; W - K + 1] → Np.wf delta →
  ∃ self g' self1 self2,
    ConvolutionalLayer.__init__ [Z.of_nat ic; Z.of_nat H; Z.of_nat W]
      (Z.of_nat oc) (Z.of_nat K) 1 g = Py.Ok (self, g') ∧
    ConvolutionalLayer.forward x self = (self1, Py.Ok ()) ∧
    ConvolutionalLayer.backward dilate pad_to_shape delta self1
    = (self2, Py.Ok ()) ∧
    Np.shape <$> ConvolutionalLayer.dkernels self2 = Some [oc; ic; K; K] ∧
    Np.shape <$> ConvolutionalLayer.dbiases self2
    = Some [oc; H - K + 1; W - K + 1] ∧
    Np.shape <$> ConvolutionalLayer.dinputs self2 = Some [n; ic; H; W] ∧
    ConvolutionalLayer.kernels self2 = ConvolutionalLayer.kernels self ∧
    ConvolutionalLayer.biases self2 = ConvolutionalLayer.biases self ∧
    ConvolutionalLayer.output self2 = ConvolutionalLayer.output self1.
Proof.
  intros HK HKH HKW Hx Hxwf Hd Hdwf.
  assert (∃ self g',
            ConvolutionalLayer.__init__
              [Z.of_nat ic; Z.of_nat H; Z.of_nat W] (Z.of_nat oc)
              (Z.of_nat K) 1 g = Py.Ok (self, g')) as (self & g' & Hinit).
  { unfold ConvolutionalLayer.__init__, Np.randn.
    rewrite decide_False by lia.
    rewrite !(output_size_nat _ _ 1) by lia.
    change [Z.of_nat oc; Z.of_nat ic; Z.of_nat K; Z.of_nat K]
      with (Z.of_nat <$> [oc; ic; K; K]).
    change [Z.of_nat oc; Z.of_nat ((H - K) `div` 1 + 1);
            Z.of_nat ((W - K) `div` 1 + 1)]
      with (Z.of_nat <$> [oc; (H - K) `div` 1 + 1; (W - K) `div` 1 + 1]).
    rewrite !NpFacts.forallb_leb_of_nat by lia. simpl. by eexists _, _. }
  pose proof (init_configured g g' self ic oc K 1 H W
                (le_n 1) HK HKH HKW Hinit) as Hconf.
  destruct (conv_forward_completes self x n ic oc K 1 H W Hconf Hx Hxwf)
    as (self1 & Hforward & Hin1 & Hst1 & Hic1 & Hoc1 & Hk1 & Hb1).
  destruct Hconf as (Hic & Hoc & _ & Hst & Hos & Hks & Hkwf & Hbs & _).
  rewrite Hos in Hbs. simpl in Hbs.
  rewrite !(output_size_nat _ _ 1), !Nat2Z.id, !Nat.div_1_r in Hbs by lia.
  pose proof (conv_backward_forward_record dilate pad_to_shape delta self1)
    as [_ Hout].
  revert Hout.
  rewrite (conv_backward_from_zeros _ _ self1 x delta Hin1).
  unfold Py.mbind, Py.eval, Np.shape0. rewrite Hx, Hk1, Hb1, Hks, Hbs.
  match goal with
  | |- context [ConvolutionalLayer.backward_accumulate _ _ _ n ?s0] =>
    destruct (backward_samples dilate pad_to_shape s0 x delta n ic oc K H W)
      with (s := s0)
      as (self2 & Hrun & Hsame & (dk & Hdk & Hdks & _)
          & (di & Hdi & Hdis & _) & (db & Hdb & Hdbs & _))
  end;
    [simpl; by rewrite Hst1, Hst|simpl; congruence|simpl; congruence
    |simpl; by rewrite Hk1|simpl; by rewrite Hk1|done..| |].
  { split; [reflexivity|]. simpl. split; [|split].
    - eexists. split; [done|]. split; [done|].
      split; [apply zeros_like_wf|]. intros. apply zeros_like_get4.
    - eexists. split; [done|]. split; [done|].
      split; [apply zeros_like_wf|]. intros. apply zeros_like_get4.
    - eexists. split; [done|]. split; [done|].
      split; [apply zeros_like_wf|]. intros. apply zeros_like_get3. }
  rewrite Hrun. simpl. intros Hout.
  exists self, g', self1, self2. split; [done|]. split; [done|].
  split.
  { rewrite (conv_backward_from_zeros _ _ self1 x delta Hin1).
    unfold Py.mbind, Py.eval, Np.shape0.
    rewrite Hx, Hk1, Hb1, Hks, Hbs. by rewrite Hrun. }
  rewrite Hdk, Hdi, Hdb. simpl. rewrite Hdks, Hdis, Hdbs.
  destruct Hsame as (_ & _ & _ & Hk2 & Hb2 & _). simpl in Hk2, Hb2.
  repeat split; congruence.
Qed.

Lemma conv_stride_one_pipeline_witness :
  ∃ self g' self1 self2,
    ConvolutionalLayer.__init__ [Z.of_nat 1; Z.of_nat 3; Z.of_nat 4]
      (Z.of_nat 2) (Z.of_nat 2) 1 counting_rng = Py.Ok (self, g') ∧
    ConvolutionalLayer.forward (ones [2; 1; 3; 4]) self
    = (self1, Py.Ok ()) ∧
    ConvolutionalLayer.backward Helpers.dilate refusing_pad
      (ones [2; 2; 2; 3]) self1 = (self2, Py.Ok ()) ∧
    Np.shape <$> ConvolutionalLayer.dkernels self2 = Some [2; 1; 2; 2] ∧
    Np.shape <$> ConvolutionalLayer.dbiases self2
    = Some [2; 3 - 2 + 1; 4 - 2 + 1] ∧
    Np.shape <$> ConvolutionalLayer.dinputs self2 = Some [2; 1; 3; 4] ∧
    ConvolutionalLayer.kernels self2 = ConvolutionalLayer.kernels self ∧
    ConvolutionalLayer.biases self2 = ConvolutionalLayer.biases self ∧
    ConvolutionalLayer.output self2 = ConvolutionalLayer.output self1.
Proof.
  apply (conv_stride_one_pipeline Helpers.dilate refusing_pad counting_rng
           (ones [2; 1; 3; 4]) (ones [2; 2; 2; 3]) 2 1 2 2 3 4);
    try reflexivity; lia.
Defined.

(** ** ConvolutionalLayer: inputs of another size than the layer's *)

Section ConvWrongSize.
Context {R : Type} `{!Scalar R}.
Local Abbreviation ndarray := (Np.ndarray R).

(** Two matrix shapes that numpy cannot broadcast: along some axis the
    lengths differ and the source's is not one. *)
Lemma bcast_mismatch (a b c d : nat) (data : list R) :
  1 ≤ a → (a ≠ c ∧ a ≠ 1) ∨ (b ≠ d ∧ b ≠ 1) →
  Np.bcast [a; b] [c; d] data = None.
Proof.
  intros Ha Hne.
  assert (∀ l : list R, b ≠ d ∧ b ≠ 1 → Np.bcast [b] [d] l = None)
    as Hrow.
  { intros l [? ?]. simpl. by rewrite !decide_False by done. }
  assert (Np.bcast [a; b] [c; d] data
          = if decide (a = c)
            then (λ rs, concat rs)
                 <$> mapM (Np.bcast [b] [d]) (Np.chunks a (Np.size [b]) data)
            else if decide (a = 1)
            then (λ r, concat (replicate c r)) <$> Np.bcast [b] [d] data
            else None) as -> by reflexivity.
  destruct (decide (a = c)) as [->|Hac].
  - destruct Hne as [[? _]|Hbd]; [done|].
    destruct c as [|c']; [lia|].
    cbn [Np.chunks mapM]. by rewrite (Hrow _ Hbd).
  - destruct (decide (a = 1)) as [->|Ha1]; [|done].
    destruct Hne as [[_ ?]|Hbd]; [done|].
    by rewrite (Hrow _ Hbd).
Qed.

Lemma iadd_mismatch (v t : ndarray) (a b c d : nat) :
  Np.shape v = [c; d] → Np.shape t = [a; b] →
  1 ≤ a → (a ≠ c ∧ a ≠ 1) ∨ (b ≠ d ∧ b ≠ 1) →
  Np.iadd v t = Py.Raise Py.ValueError.
Proof.
  intros Hv Ht Ha Hne. unfold Np.iadd, Np.broadcast_to.
  rewrite Hv, Ht. rewrite decide_True by (simpl; lia).
  change (replicate _ 1 ++ [a; b]) with [a; b].
  by rewrite bcast_mismatch.
Qed.

End ConvWrongSize.

(** X29. [ConvolutionalLayer.forward] makes no check of the size of its inputs.
    On a layer set up for inputs of [H] by [W], a batch of [Hx] by [Wx]
    whose correlations, once subsampled, have a height or a width that is
    neither that of the output nor one, fails only at the first execution of
    line 140, where [+=] cannot broadcast, with [ValueError].  By then the
    inputs are stored and the output holds the biases in every sample. *)
Theorem conv_forward_wrong_size {R : Type} `{!Scalar R}
    (self : ConvolutionalLayer.t R) (x : Np.ndarray R)
    (n ic oc K st H W Hx Wx : nat) :
  ConvolutionalLayer.configured self ic oc K st H W →
  Np.shape x = [n; ic; Hx; Wx] → Np.wf x →
  1 ≤ n → 1 ≤ oc → 1 ≤ ic → K ≤ Hx → K ≤ Wx →
  let oh := (H - K) `div` st + 1 in
  let ow := (W - K) `div` st + 1 in
  let ohx := (Hx - K) `div` st + 1 in
  let owx := (Wx - K) `div` st + 1 in
  (ohx ≠ oh ∧ ohx ≠ 1) ∨ (owx ≠ ow ∧ owx ≠ 1) →
  ∃ self',
    ConvolutionalLayer.forward x self = (self', Py.Raise Py.ValueError) ∧
    ConvolutionalLayer.inputs self' = Some x ∧
    ConvolutionalLayer.output_cells self' n oc oh ow
      (λ _ j y x', Np.get3 (ConvolutionalLayer.biases self) j y x').
Proof.
  intros (Hic & Hoc & HK & Hst & Hos & Hks & Hkwf & Hbs & Hbwf
          & Hst1 & HK1 & HKH & HKW) Hxs Hxwf Hn Hoc1 Hic1 HKHx HKWx
         oh ow ohx owx Hne.
  rewrite !output_size_nat in * by done. fold oh ow in Hos.
  rewrite Hos in Hbs. simpl in Hbs. rewrite !Nat2Z.id in Hbs.
  unfold ConvolutionalLayer.forward, Py.mbind, Py.eval, Py.assign, Np.shape0.
  rewrite Hxs. simpl. rewrite Hos.
  change (Z.of_nat n :: [Z.of_nat oc; Z.of_nat oh; Z.of_nat ow])
    with (Z.of_nat <$> [n; oc; oh; ow]).
  unfold Np.zeros.
  rewrite NpFacts.forallb_leb_of_nat, NpFacts.to_nat_of_nat_list by lia.
  destruct (NpFacts.iadd_zeros_biases (ConvolutionalLayer.biases self)
              n oc oh ow Hbwf Hbs) as (out1 & Hout1 & Hs1 & Hwf1 & Hcells1).
  unfold ConvolutionalLayer.forward_accumulate, Py.mbind, Py.modify. simpl.
  rewrite Hout1.
  set (s1 := ConvolutionalLayer.set_output (Some out1) _).
  (* the first execution of line 140 *)
  assert (ConvolutionalLayer.forward_step 0 0 0 s1
          = (s1, Py.Raise Py.ValueError)) as Hstep.
  { destruct (NpFacts.getitem2_get4 out1 n oc oh ow 0 0)
      as (v & Hv & Hvs & _); [done..|].
    destruct (NpFacts.getitem2_get4 x n ic Hx Wx 0 0)
      as (xk & Hxk & Hxks & _); [done..|].
    destruct (NpFacts.getitem2_get4 (ConvolutionalLayer.kernels self)
                oc ic K K 0 0)
      as (wk & Hwk & Hwks & _); [done..|].
    unfold ConvolutionalLayer.forward_step, Py.modify. simpl.
    unfold Np.iadd_at2. rewrite Hv. simpl.
    unfold ConvolutionalLayer.inputs_at. simpl. rewrite Hxk. simpl.
    rewrite Hwk. simpl.
    rewrite (NpFacts.correlate2d_valid_ok xk wk Hx Wx K K) by done. simpl.
    rewrite Hst.
    rewrite (NpFacts.slice2_positive _ (Hx - K + 1) (Wx - K + 1) st)
      by done.
    rewrite !NpFacts.slice_len_valid by done. simpl.
    rewrite (iadd_mismatch v _ ohx owx oh ow); [done|done|done| |done].
    unfold ohx. lia. }
  destruct n as [|n']; [lia|]. destruct oc as [|oc']; [lia|].
  destruct ic as [|ic']; [lia|].
  exists s1. split; [|split].
  - assert (ConvolutionalLayer.output_channels s1 = Z.of_nat (S oc'))
      as Hocs by done.
    assert (ConvolutionalLayer.input_channels s1 = Z.of_nat (S ic'))
      as Hics by done.
    cbn [seq Py.for_]. unfold Py.mbind, Py.for_range, Py.range.
    rewrite Hocs, Nat2Z.id. cbn [seq Py.for_]. unfold Py.mbind.
    rewrite Hics, Nat2Z.id. cbn [seq Py.for_]. unfold Py.mbind.
    by rewrite Hstep.
  - done.
  - by exists out1.
Qed.

Lemma conv_forward_wrong_size_witness :
  ∃ self',
    ConvolutionalLayer.forward (ones [1; 1; 5; 5]) (conv_example 1)
    = (self', Py.Raise Py.ValueError) ∧
    ConvolutionalLayer.inputs self' = Some (ones [1; 1; 5; 5]) ∧
    ConvolutionalLayer.output_cells self' 1 1 2 2
      (λ _ j y x', Np.get3 (ConvolutionalLayer.biases (conv_example 1))
                     j y x').
Proof.
  apply (conv_forward_wrong_size (conv_example 1) (ones [1; 1; 5; 5])
           1 1 1 2 1 3 3 5 5); try reflexivity; try lia.
  - unfold ConvolutionalLayer.configured. simpl.
    repeat split; try reflexivity; lia.
  - left. vm_compute. split; discriminate.
Defined.
